(** * Clawdbot sandbox worker: request proxy, backup sync and admin API

    A shallow embedding of [src/index.ts] (the catch-all proxy handler and
    the [scheduled] cron handler) and of the Hono API routes for storage
    and gateway control ([waitForProcess], [GET /api/storage],
    [POST /api/storage/sync], [POST /api/gateway/restart]).

    The handlers are asynchronous JavaScript; every effect they perform is
    a call into the sandbox, the gateway module or the console.  They are
    embedded in a small trace-and-exception monad: a computation reads the
    history of effects so far, appends its own, and either returns a value
    or throws.  What the outside world answers (process status, logs,
    whether a call rejects) is an oracle that may depend on the whole
    history, so a theorem quantified over oracles holds for every
    behaviour of the container.

    Strings are sequences of code units below 256, which covers header
    values (byte strings by the Fetch standard) and the ASCII literals the
    code compares against. *)

From Stdlib Require Import ZArith String Ascii List Bool Lia.
From Stdlib Require DecimalString.
From stdpp Require Import gmap strings.
Import ListNotations.
Local Open Scope string_scope.
Local Open Scope Z_scope.

(** ** JavaScript values *)

Module Js.

(** A thrown value: an [Error] with its message, or anything else. *)
Inductive Thrown : Type :=
| JsError (message : string)
| JsOther (repr : string).

(** [error instanceof Error ? error.message : 'Unknown error'] *)
Definition errorMessage (error : Thrown) : string :=
  match error with
  | JsError m => m
  | JsOther _ => "Unknown error"
  end.

(** Truthiness of a [string | undefined]: [undefined] and [''] are falsy. *)
Definition truthy (v : option string) : bool :=
  match v with
  | Some s => negb (String.eqb s EmptyString)
  | None => false
  end.

(** [a || b] on [string | undefined] with a string default. *)
Definition or_else (v : option string) (d : string) : string :=
  if truthy v then default d v else d.

(** [a || b] where both sides are [string | undefined]. *)
Definition or_opt (a b : option string) : option string :=
  if truthy a then a else b.

(** [String.prototype.toLowerCase] on one code unit below 256:
    A-Z and the Latin-1 capitals (all of 0xC0-0xDE but the
    multiplication sign 0xD7) move up by 32. *)
Definition lower_unit (c : ascii) : ascii :=
  let n := N_of_ascii c in
  if ((65 <=? n) && (n <=? 90) ||
      (192 <=? n) && (n <=? 222) && negb (n =? 215))%N
  then ascii_of_N (n + 32) else c.

Fixpoint toLowerCase (s : string) : string :=
  match s with
  | EmptyString => EmptyString
  | String c s' => String (lower_unit c) (toLowerCase s')
  end.

(** [String.prototype.includes]: [pat] occurs somewhere in [s]. *)
Fixpoint includes (s pat : string) : bool :=
  if String.prefix pat s then true
  else match s with
       | EmptyString => false
       | String _ s' => includes s' pat
       end.

(** White space and line terminators below 256, as [trim] strips them. *)
Definition is_space (c : ascii) : bool :=
  let n := N_of_ascii c in
  ((9 <=? n) && (n <=? 13) || (n =? 32) || (n =? 160))%N.

Fixpoint trimStart (s : string) : string :=
  match s with
  | EmptyString => EmptyString
  | String c s' => if is_space c then trimStart s' else s
  end.

Fixpoint trimEnd (s : string) : string :=
  match s with
  | EmptyString => EmptyString
  | String c s' =>
      match trimEnd s' with
      | EmptyString => if is_space c then EmptyString else String c EmptyString
      | r => String c r
      end
  end.

Definition trim (s : string) : string := trimEnd (trimStart s).

(** The part of a JSON value the handlers build.  A field whose value is
    [undefined] is left out of the object, as [JSON.stringify] does. *)
#[warnings="-register-all"]
Inductive Json : Type :=
| JNull
| JBool (b : bool)
| JNum (n : Z)
| JStr (s : string)
| JArr (items : list Json)
| JObj (fields : list (string * Json)).

Definition field (k : string) (v : Json) : list (string * Json) := [(k, v)].

(** A field holding a [string | undefined]. *)
Definition field_opt (k : string) (v : option string) : list (string * Json) :=
  match v with
  | Some s => [(k, JStr s)]
  | None => []
  end.

Fixpoint assoc (k : string) (fs : list (string * Json)) : option Json :=
  match fs with
  | [] => None
  | (k', v) :: fs' => if String.eqb k k' then Some v else assoc k fs'
  end.

(** Property read on a JSON value; [None] is [undefined]. *)
Definition get (k : string) (j : Json) : option Json :=
  match j with
  | JObj fs => assoc k fs
  | _ => None
  end.

End Js.
Import Js.

(** ** Requests, responses and the history of effects *)

Record Request : Type := {
  req_method : string;
  req_url : string;
  req_pathname : string;          (* new URL(request.url).pathname *)
  req_search : string;            (* new URL(request.url).search *)
  req_headers : list (string * string);
  req_body : string
}.

(** [Headers.prototype.get]: names compare without case, several values of
    one name are joined with a comma and a space, [null] when absent. *)
Fixpoint header_values (name : string) (hs : list (string * string)) : list string :=
  match hs with
  | [] => []
  | (k, v) :: hs' =>
      if String.eqb (toLowerCase k) (toLowerCase name)
      then v :: header_values name hs'
      else header_values name hs'
  end.

Definition headers_get (name : string) (hs : list (string * string)) : option string :=
  match header_values name hs with
  | [] => None
  | v :: vs => Some (String.concat ", " (v :: vs))
  end.

(** What the container answers to a proxied request. *)
Record Upstream : Type := {
  up_status : Z;
  up_payload : string
}.

Inductive Response : Type :=
| RJson (status : Z) (body : Json)     (* c.json(body, status) *)
| RUpstream (r : Upstream).            (* a response passed back as it is *)

Inductive LogLevel : Type := LInfo | LErr.

Inductive LogArg : Type :=
| AStr (s : string)
| AThrown (e : Thrown)
| AOpt (s : option string).

Inductive Event : Type :=
| ELog (lvl : LogLevel) (args : list LogArg)     (* console.log / console.error *)
| EEnsure                                        (* await ensureClawdbotGateway *)
| EBackgroundEnsure                              (* ensureClawdbotGateway, not awaited *)
| EFind                                          (* findExistingClawdbotProcess *)
| EMount                                         (* mountR2Storage *)
| EStartProcess (cmd : string)                   (* sandbox.startProcess *)
| EGetLogs (pid : string)                        (* proc.getLogs *)
| EKill (pid : string)                           (* proc.kill *)
| ESleep (ms : Z)                                (* await new Promise(r => setTimeout(r, ms)) *)
| ENow                                           (* new Date() *)
| EWsConnect (req : Request) (port : Z)          (* sandbox.wsConnect *)
| EContainerFetch (req : Request) (port : Z).    (* sandbox.containerFetch *)

Definition Trace : Type := list Event.

Inductive Outcome (A : Type) : Type :=
| Ok (a : A)
| Throw (e : Thrown).
Arguments Ok {A} a.
Arguments Throw {A} e.

(** ** The monad of handlers

    A computation maps the history so far to an outcome and the extended
    history.  The outcome is [None] only when a loop of the model ran out
    of fuel; no JavaScript [catch] sees that. *)

Definition M (A : Type) : Type := Trace -> option (Outcome A) * Trace.

Definition ret {A} (a : A) : M A := fun t => (Some (Ok a), t).

Definition throw {A} (e : Thrown) : M A := fun t => (Some (Throw e), t).

Definition out_of_fuel {A} : M A := fun t => (None, t).

Definition bind {A B} (m : M A) (k : A -> M B) : M B :=
  fun t => match m t with
           | (Some (Ok a), t') => k a t'
           | (Some (Throw e), t') => (Some (Throw e), t')
           | (None, t') => (None, t')
           end.

(** [try { m } catch (e) { h e }] *)
Definition try_catch {A} (m : M A) (h : Thrown -> M A) : M A :=
  fun t => match m t with
           | (Some (Throw e), t') => h e t'
           | r => r
           end.

(** The outcome of [m] as a value: the two continuations of a [try] whose
    [catch] returns from the enclosing function. *)
Definition attempt {A} (m : M A) : M (Outcome A) :=
  fun t => match m t with
           | (Some r, t') => (Some (Ok r), t')
           | (None, t') => (None, t')
           end.

(** An effect: it is recorded, and the world answers from the history. *)
Definition call {A} (ev : Event) (answer : Trace -> Outcome A) : M A :=
  fun t => (Some (answer (t ++ [ev])%list), (t ++ [ev])%list).

(** Reading a polled property: nothing is recorded. *)
Definition peek {A} (read : Trace -> A) : M A :=
  fun t => (Some (Ok (read t)), t).

Definition console (lvl : LogLevel) (args : list LogArg) : M unit :=
  call (ELog lvl args) (fun _ => Ok tt).

Definition sleep (ms : Z) : M unit :=
  call (ESleep ms) (fun _ => Ok tt).

Notation "'let*' x ':=' m 'in' k" := (bind m (fun x => k))
  (at level 10, x name, m at level 100, k at level 200).

(** A [while] loop whose body may [break].  [fuel] bounds the number of
    tests of the condition; the theorems on the loops show which fuel is
    enough. *)
Inductive Ctl (S : Type) : Type :=
| Next (s : S)
| Break (s : S).
Arguments Next {S} s.
Arguments Break {S} s.

Fixpoint while_ {S} (fuel : nat) (cond : S -> M bool) (body : S -> M (Ctl S))
    (s : S) : M S :=
  match fuel with
  | O => out_of_fuel
  | Datatypes.S fuel' =>
      let* c := cond s in
      if c then
        let* r := body s in
        match r with
        | Next s' => while_ fuel' cond body s'
        | Break s' => ret s'
        end
      else ret s
  end.

(** ** The sandbox, its processes and the gateway module *)

(** Modelled from the spec: the status enum of a process handle, whose
    declaration lives in the sandbox SDK; the code tests only [running]
    and [completed]. *)
Inductive ProcessStatus : Type := Pending | Running | Completed | Failed.

Definition is_running (s : ProcessStatus) : bool :=
  match s with Running => true | _ => false end.

Definition is_completed (s : ProcessStatus) : bool :=
  match s with Completed => true | _ => false end.

Record Logs : Type := {
  stdout : option string;
  stderr : option string
}.

Record Process : Type := {
  proc_id : string;
  proc_status : Trace -> ProcessStatus;      (* proc.status, as polled *)
  proc_exitCode : Trace -> option Z;         (* proc.exitCode *)
  proc_getLogs : Trace -> Outcome Logs;
  proc_kill : Trace -> Outcome unit
}.

Record Sandbox : Type := {
  sb_startProcess : string -> Trace -> Outcome Process;
  sb_wsConnect : Request -> Z -> Trace -> Outcome Upstream;
  sb_containerFetch : Request -> Z -> Trace -> Outcome Upstream
}.

Record ClawdbotEnv : Type := {
  ANTHROPIC_API_KEY : option string;
  R2_ACCESS_KEY_ID : option string;
  R2_SECRET_ACCESS_KEY : option string;
  CF_ACCOUNT_ID : option string;
  SANDBOX_SLEEP_AFTER : option string
}.

(** The functions imported from [./gateway].  Their bodies are not part of
    the files embedded here: each is an oracle over the history. *)
Record Gateway : Type := {
  gw_ensureClawdbotGateway : Sandbox -> ClawdbotEnv -> Trace -> Outcome unit;
  gw_findExistingClawdbotProcess : Sandbox -> Trace -> Outcome (option Process);
  gw_mountR2Storage : Sandbox -> ClawdbotEnv -> Trace -> Outcome bool
}.

Definition startProcess (sb : Sandbox) (cmd : string) : M Process :=
  call (EStartProcess cmd) (sb_startProcess sb cmd).

Definition getLogs (p : Process) : M Logs :=
  call (EGetLogs (proc_id p)) (proc_getLogs p).

Definition kill (p : Process) : M unit :=
  call (EKill (proc_id p)) (proc_kill p).

Definition status (p : Process) : M ProcessStatus := peek (proc_status p).

Definition exitCode (p : Process) : M (option Z) := peek (proc_exitCode p).

Definition exit_zero (c : option Z) : bool :=
  match c with Some 0 => true | _ => false end.

(** ** [src/index.ts] *)

Module Index.

Inductive SandboxOptions : Type :=
| KeepAlive                       (* { keepAlive: true } *)
| SleepAfter (duration : string). (* { sleepAfter } *)

Definition buildSandboxOptions (env : ClawdbotEnv) : SandboxOptions :=
  let sleepAfter := or_else (option_map toLowerCase (SANDBOX_SLEEP_AFTER env)) "never" in
  if String.eqb sleepAfter "never" then KeepAlive else SleepAfter sleepAfter.

Section Worker.

(** Constants of [./config], the gateway module and the SDK's [getSandbox]
    (applied to the one namespace binding of the worker). *)
Variable CLAWDBOT_PORT : Z.
Variable R2_MOUNT_PATH : string.
Variable gw : Gateway.
Variable getSandbox : string -> SandboxOptions -> Sandbox.

(** The hint of the 503 payload: the default, overridden by the first
    test that holds. *)
Definition startupHint (env : ClawdbotEnv) (errorMessage : string) : string :=
  if negb (truthy (ANTHROPIC_API_KEY env)) then
    "ANTHROPIC_API_KEY is not set. Run: wrangler secret put ANTHROPIC_API_KEY"
  else if includes errorMessage "heap out of memory" || includes errorMessage "OOM" then
    "Gateway ran out of memory. Try again or check for memory leaks."
  else
    "Check worker logs with: wrangler tail".

(** [request.headers.get('Upgrade')?.toLowerCase() === 'websocket'] *)
Definition isWebSocketUpgrade (request : Request) : bool :=
  match headers_get "Upgrade" (req_headers request) with
  | Some v => String.eqb (toLowerCase v) "websocket"
  | None => false
  end.

(** [app.all('*', ...)]: start the gateway, then proxy. *)
Definition proxy (sandbox : Sandbox) (env : ClawdbotEnv) (request : Request)
    : M Response :=
  let* started := attempt (call EEnsure (gw_ensureClawdbotGateway gw sandbox env)) in
  match started with
  | Throw error =>
      let* _ := console LErr [AStr "Failed to start Clawdbot:"; AThrown error] in
      let errorMessage := errorMessage error in
      let hint := startupHint env errorMessage in
      ret (RJson 503 (JObj (field "error" (JStr "Clawdbot gateway failed to start")
                            ++ field "details" (JStr errorMessage)
                            ++ field "hint" (JStr hint))%list))
  | Ok _ =>
      if isWebSocketUpgrade request then
        let* _ := console LInfo [AStr "Proxying WebSocket connection to Clawdbot"] in
        let* _ := console LInfo [AStr "WebSocket URL:"; AStr (req_url request)] in
        let* _ := console LInfo [AStr "WebSocket search params:"; AStr (req_search request)] in
        let* r := call (EWsConnect request CLAWDBOT_PORT)
                       (sb_wsConnect sandbox request CLAWDBOT_PORT) in
        ret (RUpstream r)
      else
        let* _ := console LInfo [AStr "Proxying HTTP request:";
                                 AStr (req_pathname request ++ req_search request)] in
        let* r := call (EContainerFetch request CLAWDBOT_PORT)
                       (sb_containerFetch sandbox request CLAWDBOT_PORT) in
        ret (RUpstream r)
  end.

Definition syncCmd : string :=
  "rsync -a --delete --exclude='*.lock' --exclude='*.log' --exclude='*.tmp' /root/.clawdbot/ "
  ++ R2_MOUNT_PATH ++ "/ && date -Iseconds > " ++ R2_MOUNT_PATH ++ "/.last-sync".

(** The wait loop of [scheduled]: [attempts] counts the sleeps. *)
Definition syncWaitCond (proc : Process) (attempts : Z) : M bool :=
  let* st := status proc in
  ret (is_running st && (attempts <? 60)).

Definition syncWaitBody (attempts : Z) : M (Ctl Z) :=
  let* _ := sleep 500 in
  ret (Next (attempts + 1)).

Definition syncWait (fuel : nat) (proc : Process) : M Z :=
  while_ fuel (syncWaitCond proc) syncWaitBody 0.

(** [scheduled]: the cron handler. *)
Definition scheduled (fuel : nat) (env : ClawdbotEnv) : M unit :=
  if negb (truthy (R2_ACCESS_KEY_ID env)) || negb (truthy (R2_SECRET_ACCESS_KEY env))
     || negb (truthy (CF_ACCOUNT_ID env))
  then console LInfo [AStr "[cron] R2 not configured, skipping backup"]
  else
    let options := buildSandboxOptions env in
    let sandbox := getSandbox "clawdbot" options in
    let* mounted := call EMount (gw_mountR2Storage gw sandbox env) in
    if negb mounted then console LInfo [AStr "[cron] Failed to mount R2, skipping backup"]
    else
      try_catch
        (let* _ := console LInfo [AStr "[cron] Starting backup sync to R2..."] in
         let* proc := startProcess sandbox syncCmd in
         let* _ := syncWait fuel proc in
         let* logs := getLogs proc in
         let* st := status proc in
         let* code := exitCode proc in
         if is_completed st || exit_zero code
         then console LInfo [AStr "[cron] Backup sync completed successfully"]
         else console LErr [AStr "[cron] Backup sync failed:";
                            AOpt (or_opt (stderr logs) (stdout logs))])
        (fun error => console LErr [AStr "[cron] Error during backup sync:"; AThrown error]).

End Worker.

End Index.

(** ** The API routes: storage status, manual sync, gateway restart *)

Module Api.

(** CLI commands can take 10-15 seconds to complete. *)
Definition CLI_TIMEOUT_MS : Z := 20000.
Definition CLI_POLL_INTERVAL_MS : Z := 500.

(** [Math.ceil(a / b)] for integers [a] and [b > 0] whose quotient is
    exact in double precision, as every timeout passed in this file is. *)
Definition ceil_div (a b : Z) : Z := - ((- a) / b).

(** [waitForProcess]: poll until the process stops running or the
    attempts are used up. *)
Definition pollCond (maxAttempts : Z) (attempts : Z) : M bool :=
  ret (attempts <? maxAttempts).

Definition pollBody (proc : Process) (attempts : Z) : M (Ctl Z) :=
  let* _ := sleep CLI_POLL_INTERVAL_MS in
  let* st := status proc in
  if negb (is_running st) then ret (Break attempts)
  else ret (Next (attempts + 1)).

Definition waitForProcess (fuel : nat) (proc : Process) (timeoutMs : Z) : M unit :=
  let maxAttempts := ceil_div timeoutMs CLI_POLL_INTERVAL_MS in
  let* _ := while_ fuel (pollCond maxAttempts) (pollBody proc) 0 in
  ret tt.


Section Routes.

Variable R2_MOUNT_PATH : string.
Variable gw : Gateway.
(** [new Date().toISOString()] at a point of the history. *)
Variable now : Trace -> string.







Definition syncCmd : string :=
  "rsync -a --delete --exclude='*.lock' --exclude='*.log' --exclude='*.tmp' /root/.clawdbot/ "
  ++ R2_MOUNT_PATH ++ "/ && date -Iseconds > " ++ R2_MOUNT_PATH ++ "/.last-sync".

(** [api.post('/storage/sync', ...)] *)
Definition postStorageSync (fuel : nat) (sandbox : Sandbox) (env : ClawdbotEnv)
    : M Response :=
  if negb (truthy (R2_ACCESS_KEY_ID env)) || negb (truthy (R2_SECRET_ACCESS_KEY env))
     || negb (truthy (CF_ACCOUNT_ID env))
  then ret (RJson 400 (JObj (field "error" (JStr "R2 storage is not configured"))))
  else
    try_catch
      (let* mounted := call EMount (gw_mountR2Storage gw sandbox env) in
       if negb mounted
       then ret (RJson 500 (JObj (field "error" (JStr "Failed to mount R2 storage"))))
       else
         let* proc := startProcess sandbox syncCmd in
         let* _ := waitForProcess fuel proc 30000 in
         let* logs := getLogs proc in
         let* st := status proc in
         let* code := exitCode proc in
         if is_completed st || exit_zero code then
           let* timestampProc := startProcess sandbox ("cat " ++ R2_MOUNT_PATH ++ "/.last-sync") in
           let* _ := waitForProcess fuel timestampProc 5000 in
           let* timestampLogs := getLogs timestampProc in
           let read := option_map trim (stdout timestampLogs) in
           let* lastSync :=
             if truthy read then ret (default EmptyString read)
             else call ENow (fun t => Ok (now t)) in
           ret (RJson 200 (JObj (field "success" (JBool true)
                                 ++ field "message" (JStr "Sync completed successfully")
                                 ++ field "lastSync" (JStr lastSync))%list))
         else
           ret (RJson 500 (JObj (field "success" (JBool false)
                                 ++ field "error" (JStr "Sync failed")
                                 ++ field_opt "details" (or_opt (stderr logs) (stdout logs)))%list)))
      (fun error => ret (RJson 500 (JObj (field "error" (JStr (errorMessage error)))))).

(** [api.post('/gateway/restart', ...)] *)
Definition postGatewayRestart (sandbox : Sandbox) (env : ClawdbotEnv) : M Response :=
  try_catch
    (let* existingProcess := call EFind (gw_findExistingClawdbotProcess gw sandbox) in
     let* _ :=
       match existingProcess with
       | Some p =>
           let* _ := console LInfo [AStr "Killing existing gateway process:"; AStr (proc_id p)] in
           let* _ := try_catch (kill p)
                       (fun killErr => console LErr [AStr "Error killing process:"; AThrown killErr]) in
           sleep 2000
       | None => ret tt
       end in
     (* the boot promise is handed to waitUntil and never awaited here *)
     let* _ := call EBackgroundEnsure (fun _ => Ok tt) in
     ret (RJson 200 (JObj (field "success" (JBool true)
                           ++ field "message" (JStr (
                                match existingProcess with
                                | Some _ => "Gateway process killed, new instance starting..."
                                | None => "No existing process found, starting new instance..."
                                end))
                           ++ field_opt "previousProcessId" (option_map proc_id existingProcess))%list)))
    (fun error => ret (RJson 500 (JObj (field "error" (JStr (errorMessage error)))))).

End Routes.

End Api.

(** ** The API routes: device pairing *)

Module Devices.

(** [stdout.match(/\{[\s\S]*\}/)]: the match starts at the first opening
    brace and, the star being greedy over every character, ends at the
    last closing brace after it. *)
Fixpoint afterFirstOpen (s : string) : option string :=
  match s with
  | EmptyString => None
  | String c s' => if Ascii.eqb c "{" then Some s' else afterFirstOpen s'
  end.

(** The longest prefix that ends with a closing brace. *)
Fixpoint uptoLastClose (s : string) : option string :=
  match s with
  | EmptyString => None
  | String c s' =>
      match uptoLastClose s' with
      | Some r => Some (String c r)
      | None => if Ascii.eqb c "}" then Some (String c EmptyString) else None
      end
  end.

Definition jsonMatch (stdout : string) : option string :=
  match afterFirstOpen stdout with
  | Some rest => option_map (String "{") (uptoLastClose rest)
  | None => None
  end.

(** What [JSON.parse] gives for the CLI output: a JSON value, with the
    integers for numbers that [Json] has.  The routes declare no shape for
    it and check none; in particular the [pending] property is used as it
    comes, whatever the annotation [Array<{ requestId: string }>] says. *)
Record DeviceData : Type := {
  data_json : Json
}.

(** What the language leaves to the engine: how a number reads in a
    template literal, and the messages of the [TypeError]s that the
    approve-all route can run into. *)
Record Engine : Type := {
  numberText : Z -> string;        (* String(n) *)
  readOfNull : string -> string;   (* reading property [k] of null *)
  notIterable : string;            (* for...of over a value that is not iterable *)
  notPrimitive : string            (* an object that has no string form *)
}.

(** The properties the approve-all route reads. *)
Inductive Name : Type := NPending | NRequestId | NLength.

Definition nameText (k : Name) : string :=
  match k with
  | NPending => "pending"
  | NRequestId => "requestId"
  | NLength => "length"
  end.

(** An entry of [results] in the approve-all route; the [requestId] is
    whatever the entry of the pending list held under that name. *)
Record Approval : Type := {
  a_requestId : option Json;
  a_success : bool;
  a_error : option string
}.

Definition listCmd : string :=
  "clawdbot devices list --json --url ws://localhost:18789".

Definition approveCmd (requestId : string) : string :=
  "clawdbot devices approve " ++ requestId ++ " --url ws://localhost:18789".

(** The decimal numeral of a natural number. *)
Definition decimal (n : nat) : string :=
  DecimalString.NilZero.string_of_uint (Nat.to_uint n).

(** A pure computation that may throw. *)
Definition lift {A} (r : Outcome A) : M A := fun t => (Some r, t).

(** A field holding a JSON value or [undefined]. *)
Definition field_any (k : string) (v : option Json) : list (string * Json) :=
  match v with
  | Some j => [(k, j)]
  | None => []
  end.

Definition approvalJson (r : Approval) : Json :=
  JObj (field_any "requestId" (a_requestId r)
        ++ field "success" (JBool (a_success r))
        ++ field_opt "error" (a_error r))%list.

(** [v || []] on a JSON value or [undefined]. *)
Definition truthyJson (v : Json) : bool :=
  match v with
  | JNull => false
  | JBool b => b
  | JNum n => negb (n =? 0)
  | JStr s => negb (String.eqb s EmptyString)
  | JArr _ | JObj _ => true
  end.

Definition orEmptyArray (v : option Json) : Json :=
  match v with
  | Some j => if truthyJson j then j else JArr []
  | None => JArr []
  end.

(** [v === 0] *)
Definition strictEqZero (v : option Json) : bool :=
  match v with
  | Some (JNum n) => n =? 0
  | _ => false
  end.

Definition is_null (v : Json) : bool :=
  match v with JNull => true | _ => false end.

Definition has_own (k : string) (fields : list (string * Json)) : bool :=
  match assoc k fields with Some _ => true | None => false end.

Section Values.

Variable engine : Engine.

(** [v.k] for one of the three names: a property of null cannot be read,
    an object gives its own property, an array and a string have a
    [length], and nothing else has any of the three. *)
Definition prop (k : Name) (v : Json) : Outcome (option Json) :=
  match v with
  | JNull => Throw (JsError (readOfNull engine (nameText k)))
  | JObj fields => Ok (assoc (nameText k) fields)
  | JArr items =>
      Ok (match k with
          | NLength => Some (JNum (Z.of_nat (length items)))
          | _ => None
          end)
  | JStr s =>
      Ok (match k with
          | NLength => Some (JNum (Z.of_nat (String.length s)))
          | _ => None
          end)
  | JBool _ | JNum _ => Ok None
  end.

(** What [for (const device of v)] goes through: the items of an array,
    the characters of a string; nothing else that [JSON.parse] gives is
    iterable. *)
Definition iterate (v : Json) : Outcome (list Json) :=
  match v with
  | JArr items => Ok items
  | JStr s => Ok (map (fun c => JStr (String c EmptyString)) (list_ascii_of_string s))
  | _ => Throw (JsError (notIterable engine))
  end.

(** A JSON value inside a template literal.  An array reads as its items
    joined by commas, a null item as nothing; an object reads as
    [[object Object]], unless it has a [toString] property of its own,
    which [JSON.parse] never makes callable. *)
Fixpoint text (v : Json) : Outcome string :=
  match v with
  | JNull => Ok "null"
  | JBool b => Ok (if b then "true" else "false")
  | JNum n => Ok (numberText engine n)
  | JStr s => Ok s
  | JArr items =>
      (fix join (l : list Json) : Outcome string :=
         match l with
         | [] => Ok EmptyString
         | x :: rest =>
             match (if is_null x then Ok EmptyString else text x) with
             | Throw e => Throw e
             | Ok a =>
                 match rest with
                 | [] => Ok a
                 | _ =>
                     match join rest with
                     | Throw e => Throw e
                     | Ok b => Ok (a ++ "," ++ b)
                     end
                 end
             end
         end) items
  | JObj fields =>
      if has_own "toString" fields then Throw (JsError (notPrimitive engine))
      else Ok "[object Object]"
  end.

Definition templateText (v : option Json) : Outcome string :=
  match v with
  | Some j => text j
  | None => Ok "undefined"
  end.

(** The command line the approve-all loop builds for an entry of the
    pending list; [None] when building it throws. *)
Definition commandFor (device : Json) : option string :=
  match prop NRequestId device with
  | Ok id =>
      match templateText id with
      | Ok requestId => Some (approveCmd requestId)
      | Throw _ => None
      end
  | Throw _ => None
  end.

Definition commandsFor (devices : list Json) : list string :=
  omap commandFor devices.

(** [device.requestId] for an entry that is not null. *)
Definition requestIdOf (device : Json) : option Json :=
  match prop NRequestId device with
  | Ok id => id
  | Throw _ => None
  end.

End Values.

Section Routes.

Variable gw : Gateway.
Variable JSON_parse : string -> Outcome DeviceData.
Variable engine : Engine.

(** [api.get('/devices', ...)] *)
Definition getDevices (fuel : nat) (sandbox : Sandbox) (env : ClawdbotEnv)
    : M Response :=
  try_catch
    (let* _ := call EEnsure (gw_ensureClawdbotGateway gw sandbox env) in
     let* proc := startProcess sandbox listCmd in
     let* _ := Api.waitForProcess fuel proc Api.CLI_TIMEOUT_MS in
     let* logs := getLogs proc in
     let out := or_else (stdout logs) EmptyString in
     let err := or_else (stderr logs) EmptyString in
     try_catch
       (match jsonMatch out with
        | Some text =>
            let* data := lift (JSON_parse text) in
            ret (RJson 200 (data_json data))
        | None =>
            ret (RJson 200 (JObj (field "pending" (JArr [])
                                  ++ field "paired" (JArr [])
                                  ++ field "raw" (JStr out)
                                  ++ field "stderr" (JStr err))%list))
        end)
       (fun _ =>
          ret (RJson 200 (JObj (field "pending" (JArr [])
                                ++ field "paired" (JArr [])
                                ++ field "raw" (JStr out)
                                ++ field "stderr" (JStr err)
                                ++ field "parseError" (JStr "Failed to parse CLI output"))%list))))
    (fun error => ret (RJson 500 (JObj (field "error" (JStr (errorMessage error)))))).

(** [api.post('/devices/:requestId/approve', ...)]; the route parameter is
    a [string | undefined]. *)
Definition postApprove (fuel : nat) (sandbox : Sandbox) (env : ClawdbotEnv)
    (param : option string) : M Response :=
  if negb (truthy param)
  then ret (RJson 400 (JObj (field "error" (JStr "requestId is required"))))
  else
    let requestId := default EmptyString param in
    try_catch
      (let* _ := call EEnsure (gw_ensureClawdbotGateway gw sandbox env) in
       let* proc := startProcess sandbox (approveCmd requestId) in
       let* _ := Api.waitForProcess fuel proc Api.CLI_TIMEOUT_MS in
       let* logs := getLogs proc in
       let out := or_else (stdout logs) EmptyString in
       let err := or_else (stderr logs) EmptyString in
       let* code := exitCode proc in
       let success := includes (toLowerCase out) "approved" || exit_zero code in
       ret (RJson 200 (JObj (field "success" (JBool success)
                             ++ field "requestId" (JStr requestId)
                             ++ field "message" (JStr (if success then "Device approved"
                                                       else "Approval may have failed"))
                             ++ field "stdout" (JStr out)
                             ++ field "stderr" (JStr err))%list)))
      (fun error => ret (RJson 500 (JObj (field "error" (JStr (errorMessage error)))))).

(** [approveLogs.stdout?.toLowerCase().includes('approved')], where an
    absent output gives [undefined]. *)
Definition saysApproved (out : option string) : bool :=
  match out with
  | Some s => includes (toLowerCase s) "approved"
  | None => false
  end.

(** The body of [for (const device of pending)]: one approval, whose
    failure is recorded and does not stop the loop.  The entry's
    [requestId] is read three times: for the command line, for the result
    of the [try], and for the result of the [catch], which nothing
    guards. *)
Definition approveOne (fuel : nat) (sandbox : Sandbox) (device : Json)
    (results : list Approval) : M (list Approval) :=
  try_catch
    (let* id := lift (prop engine NRequestId device) in
     let* requestId := lift (templateText engine id) in
     let* approveProc := startProcess sandbox (approveCmd requestId) in
     let* _ := Api.waitForProcess fuel approveProc Api.CLI_TIMEOUT_MS in
     let* approveLogs := getLogs approveProc in
     let* code := exitCode approveProc in
     let success := saysApproved (stdout approveLogs) || exit_zero code in
     let* id' := lift (prop engine NRequestId device) in
     ret (results ++ [{| a_requestId := id';
                         a_success := success;
                         a_error := None |}])%list)
    (fun err =>
       let* id := lift (prop engine NRequestId device) in
       ret (results ++ [{| a_requestId := id;
                           a_success := false;
                           a_error := Some (errorMessage err) |}])%list).

Fixpoint approveEach (fuel : nat) (sandbox : Sandbox) (pending : list Json)
    (results : list Approval) : M (list Approval) :=
  match pending with
  | [] => ret results
  | device :: rest =>
      let* results' := approveOne fuel sandbox device results in
      approveEach fuel sandbox rest results'
  end.

(** The [try] that reads the pending list out of the CLI output:
    [data.pending || []], or the initial [[]] when nothing matched. *)
Definition readPending (out : string) : Outcome Json :=
  match jsonMatch out with
  | Some text =>
      match JSON_parse text with
      | Ok data =>
          match prop engine NPending (data_json data) with
          | Ok v => Ok (orEmptyArray v)
          | Throw e => Throw e
          end
      | Throw e => Throw e
      end
  | None => Ok (JArr [])
  end.

(** [api.post('/devices/approve-all', ...)] *)
Definition postApproveAll (fuel : nat) (sandbox : Sandbox) (env : ClawdbotEnv)
    : M Response :=
  try_catch
    (let* _ := call EEnsure (gw_ensureClawdbotGateway gw sandbox env) in
     let* listProc := startProcess sandbox listCmd in
     let* _ := Api.waitForProcess fuel listProc Api.CLI_TIMEOUT_MS in
     let* listLogs := getLogs listProc in
     let out := or_else (stdout listLogs) EmptyString in
     match readPending out with
     | Throw _ =>
         ret (RJson 500 (JObj (field "error" (JStr "Failed to parse device list")
                               ++ field "raw" (JStr out))%list))
     | Ok pending =>
         let* len := lift (prop engine NLength pending) in
         if strictEqZero len
         then ret (RJson 200 (JObj (field "approved" (JArr [])
                                    ++ field "message" (JStr "No pending devices to approve"))%list))
         else
           let* devices := lift (iterate engine pending) in
           let* results := approveEach fuel sandbox devices [] in
           let approvedCount := Z.of_nat (length (List.filter a_success results)) in
           let* total := lift (prop engine NLength pending) in
           let* totalText := lift (templateText engine total) in
           ret (RJson 200 (JObj (
             field "approved" (JArr (map (fun r => default JNull (a_requestId r))
                                       (List.filter a_success results)))
             ++ field "failed" (JArr (map approvalJson
                                        (List.filter (fun r => negb (a_success r)) results)))
             ++ field "message" (JStr ("Approved " ++ numberText engine approvedCount ++ " of "
                                       ++ totalText ++ " device(s)")))%list))
     end)
    (fun error => ret (RJson 500 (JObj (field "error" (JStr (errorMessage error)))))).

End Routes.

End Devices.

(** ** The storage mount manager ([mountR2Storage] of [./gateway]) *)

Module MountManager.

(** What issuing the mount command can do: succeed, exit with a non-zero
    code, or fail as a command error. *)
Inductive MountResult : Type :=
| MountOk
| MountExit (code : Z)
| MountError (e : Thrown).

(** The part of the container the mount manager touches: whether the
    remote volume is attached at the fixed path, how many mount commands
    were issued so far, and the log lines written. *)
Record Container : Type := {
  mounted : bool;
  mountCommands : nat;
  logged : list string
}.

Section Model.

(** What the n-th mount command issued in this container does. *)
Variable mountCommand : nat -> MountResult.

(** Modelled from the spec: the cheap probe of section 4.3, whether the
    fixed mount path already behaves as mounted. *)
Definition probeMounted (c : Container) : bool := mounted c.

(** Modelled from the spec: [mountR2Storage] is imported from [./gateway],
    whose body is not among the embedded files.  Section 4.3: any missing
    credential short-circuits to [false]; an attached volume gives [true]
    without a mount command; otherwise the command is issued, and a failed
    attempt is logged and gives [false].  Nothing is thrown. *)
Definition ensureMounted (env : ClawdbotEnv) (c : Container) : bool * Container :=
  if negb (truthy (R2_ACCESS_KEY_ID env) && truthy (R2_SECRET_ACCESS_KEY env)
           && truthy (CF_ACCOUNT_ID env))
  then (false, c)
  else if probeMounted c then (true, c)
  else
    match mountCommand (mountCommands c) with
    | MountOk =>
        (true, {| mounted := true;
                  mountCommands := S (mountCommands c);
                  logged := logged c |})
    | MountExit code =>
        (false, {| mounted := false;
                   mountCommands := S (mountCommands c);
                   logged := (logged c ++ ["mount exited with a non-zero code"])%list |})
    | MountError e =>
        (false, {| mounted := false;
                   mountCommands := S (mountCommands c);
                   logged := (logged c ++ [("mount error: " ++ errorMessage e)%string])%list |})
    end.

(** Two calls in a row. *)
Definition ensureMountedTwice (env : ClawdbotEnv) (c : Container)
    : bool * bool * Container :=
  let '(r1, c1) := ensureMounted env c in
  let '(r2, c2) := ensureMounted env c1 in
  (r1, r2, c2).

End Model.

End MountManager.

(** ** The gateway lifecycle manager ([ensureClawdbotGateway] of [./gateway]) *)

Module Lifecycle.

(** How a start attempt ends. *)
Inductive Resolution : Type :=
| Ready
| StartupError (message : string).

(** Per sandbox name: whether a gateway runs, the pending-attempt token
    with the callers attached to it, and the number of spawns so far. *)
Record Slot : Type := {
  gatewayRunning : bool;
  pending : option (list nat);
  spawns : nat
}.

Definition emptySlot : Slot :=
  {| gatewayRunning := false; pending := None; spawns := 0 |}.

(** The registry of in-flight attempts, keyed by sandbox logical name, and
    what each caller was answered. *)
Record Registry : Type := {
  slots : gmap string Slot;
  resolved : list (string * nat * Resolution)
}.

Definition slotOf (name : string) (r : Registry) : Slot :=
  default emptySlot (slots r !! name).

(** The runtime is event driven: handlers interleave at their awaits.  A
    caller arrives at [ensureReady] for a sandbox, or the in-flight attempt
    of a sandbox settles. *)
Inductive Step : Type :=
| Arrive (name : string) (caller : nat)
| Settle (name : string) (outcome : Resolution).

Definition stepName (e : Step) : string :=
  match e with
  | Arrive n _ => n
  | Settle n _ => n
  end.

(** Modelled from the spec: [ensureClawdbotGateway] is imported from
    [./gateway], whose body is not among the embedded files.  Section 4.1:
    one pending-attempt token per sandbox logical name; a caller that finds
    the token attaches to the attempt in flight; a caller that finds a
    running gateway is ready at once; otherwise the caller spawns and
    leaves the token. *)
Definition arrive (name : string) (caller : nat) (r : Registry) : Registry :=
  let s := slotOf name r in
  match pending s with
  | Some waiters =>
      {| slots := <[name := {| gatewayRunning := gatewayRunning s;
                               pending := Some (caller :: waiters);
                               spawns := spawns s |}]> (slots r);
         resolved := resolved r |}
  | None =>
      if gatewayRunning s then
        {| slots := slots r;
           resolved := (name, caller, Ready) :: resolved r |}
      else
        {| slots := <[name := {| gatewayRunning := false;
                                 pending := Some [caller];
                                 spawns := S (spawns s) |}]> (slots r);
           resolved := resolved r |}
  end.

(** Modelled from the spec: the token is cleared on resolution, success or
    failure, and every attached caller observes that one outcome. *)
Definition settle (name : string) (outcome : Resolution) (r : Registry) : Registry :=
  let s := slotOf name r in
  match pending s with
  | Some waiters =>
      {| slots := <[name := {| gatewayRunning :=
                                 match outcome with Ready => true | StartupError _ => false end;
                               pending := None;
                               spawns := spawns s |}]> (slots r);
         resolved := (map (fun c => (name, c, outcome)) waiters ++ resolved r)%list |}
  | None => r
  end.

Definition step (e : Step) (r : Registry) : Registry :=
  match e with
  | Arrive n c => arrive n c r
  | Settle n o => settle n o r
  end.

Definition run (es : list Step) (r : Registry) : Registry :=
  fold_left (fun acc e => step e acc) es r.

(** The steps of a schedule that concern one sandbox. *)
Definition stepsOf (name : string) (es : list Step) : list Step :=
  List.filter (fun e => String.eqb (stepName e) name) es.

End Lifecycle.

(** ** The shell reading of the sync command

    [startProcess] hands the command line to a shell.  The fragment of the
    shell grammar the sync command uses is read here: blanks separate
    words, single quotes protect their content, [&&] chains commands and
    [>] redirects standard output.  Anything else is refused. *)

Module Shell.

Inductive Token : Type :=
| TWord (w : string)
| TAndIf          (* && *)
| TGreat.         (* > *)

Definition is_blank (c : ascii) : bool :=
  let n := N_of_ascii c in ((n =? 32) || (n =? 9))%N.

(** Characters that stand for themselves outside quotes. *)
Definition is_plain (c : ascii) : bool :=
  let n := N_of_ascii c in
  ((97 <=? n) && (n <=? 122) || (65 <=? n) && (n <=? 90) || (48 <=? n) && (n <=? 57)
   || (n =? 45) || (n =? 46) || (n =? 47) || (n =? 61) || (n =? 95))%N.

Fixpoint all_plain (s : string) : bool :=
  match s with
  | EmptyString => true
  | String c s' => is_plain c && all_plain s'
  end.

Definition push (c : ascii) (cur : option string) : option string :=
  Some (default EmptyString cur ++ String c EmptyString).

(** The tokens read so far are kept newest first. *)
Definition flush (cur : option string) (acc : list Token) : list Token :=
  match cur with
  | Some w => TWord w :: acc
  | None => acc
  end.

(** [cur] is the word being read, if any; [quoted] tells whether a single
    quote is open; [acc] holds the tokens already read, newest first. *)
Fixpoint lex (s : string) (cur : option string) (quoted : bool) (acc : list Token)
    : option (list Token) :=
  match s with
  | EmptyString => if quoted then None else Some (rev (flush cur acc))
  | String c s' =>
      if quoted then
        if Ascii.eqb c "'" then lex s' cur false acc else lex s' (push c cur) true acc
      else if Ascii.eqb c "'" then lex s' (Some (default EmptyString cur)) true acc
      else if is_blank c then lex s' None false (flush cur acc)
      else if Ascii.eqb c ">" then
        match cur with
        | Some _ => None
        | None => lex s' None false (TGreat :: acc)
        end
      else if Ascii.eqb c "&" then
        match s' with
        | String c' s'' =>
            if Ascii.eqb c' "&"
            then lex s'' None false (TAndIf :: flush cur acc)
            else None
        | EmptyString => None
        end
      else if is_plain c then lex s' (push c cur) false acc
      else None
  end.

(** A simple command: its words after quote removal, and the file its
    standard output is redirected to. *)
Record Simple : Type := {
  argv : list string;
  stdoutTo : option string
}.

Definition noCommand : Simple := {| argv := []; stdoutTo := None |}.

Definition is_nil {A} (l : list A) : bool :=
  match l with [] => true | _ => false end.

(** An and-list [c1 && c2 && ...] as the list of its commands. *)
Fixpoint parseTokens (ts : list Token) (cur : Simple) (done : list Simple)
    : option (list Simple) :=
  match ts with
  | [] => if is_nil (argv cur) then None else Some (done ++ [cur])%list
  | TWord w :: ts' =>
      parseTokens ts' {| argv := (argv cur ++ [w])%list; stdoutTo := stdoutTo cur |} done
  | TGreat :: ts' =>
      match ts' with
      | TWord f :: ts'' =>
          parseTokens ts'' {| argv := argv cur; stdoutTo := Some f |} done
      | _ => None
      end
  | TAndIf :: ts' =>
      if is_nil (argv cur) then None
      else parseTokens ts' noCommand (done ++ [cur])%list
  end.

Definition parse (cmd : string) : option (list Simple) :=
  match lex cmd None false [] with
  | Some ts => parseTokens ts noCommand []
  | None => None
  end.

Section Exec.

(** The exit status of a simple command, given the commands run before. *)
Variable exitOf : list Simple -> Simple -> Z.

(** An and-list runs its commands in order and stops at the first
    non-zero status.  The result is the list of commands run and the
    status of the list. *)
Fixpoint execAndList (cmds : list Simple) (ran : list Simple) : list Simple * Z :=
  match cmds with
  | [] => (ran, 0)
  | c :: rest =>
      let code := exitOf ran c in
      if code =? 0 then execAndList rest (ran ++ [c])%list
      else ((ran ++ [c])%list, code)
  end.

End Exec.

(** The two commands of the sync line for a mount path. *)
Definition mirrorCommand (mountPath : string) : Simple :=
  {| argv := ["rsync"; "-a"; "--delete"; "--exclude=*.lock"; "--exclude=*.log";
              "--exclude=*.tmp"; "/root/.clawdbot/"; mountPath ++ "/"];
     stdoutTo := None |}.

Definition markerCommand (mountPath : string) : Simple :=
  {| argv := ["date"; "-Iseconds"];
     stdoutTo := Some (mountPath ++ "/.last-sync") |}.

Definition ran (c : Simple) (r : list Simple * Z) : Prop := In c (fst r).

(** What the shell does with a command line it is handed: the commands it
    runs, in order, and the status of the list.  [None] when the line is
    outside the fragment read here. *)
Definition runLine (exitOf : list Simple -> Simple -> Z) (cmd : string)
    : option (list Simple * Z) :=
  option_map (fun cmds => execAndList exitOf cmds []) (parse cmd).

End Shell.

(** ** Reading a history *)

(** The durations of the sleeps of a history, in order. *)
Fixpoint sleepsOf (t : Trace) : list Z :=
  match t with
  | [] => []
  | ESleep ms :: t' => ms :: sleepsOf t'
  | _ :: t' => sleepsOf t'
  end.

(** The processes a history asked to kill. *)
Fixpoint killsOf (t : Trace) : list string :=
  match t with
  | [] => []
  | EKill pid :: t' => pid :: killsOf t'
  | _ :: t' => killsOf t'
  end.

(** The commands a history started. *)
Fixpoint startsOf (t : Trace) : list string :=
  match t with
  | [] => []
  | EStartProcess cmd :: t' => cmd :: startsOf t'
  | _ :: t' => startsOf t'
  end.

(** The calls to [mountR2Storage] in a history. *)
Fixpoint mountsOf (t : Trace) : nat :=
  match t with
  | [] => 0%nat
  | EMount :: t' => S (mountsOf t')
  | _ :: t' => mountsOf t'
  end.

(** Whether a character occurs in a string. *)
Fixpoint hasChar (c : ascii) (s : string) : bool :=
  match s with
  | EmptyString => false
  | String x s' => Ascii.eqb x c || hasChar c s'
  end.

(** The background starts a history asked for. *)
Fixpoint backgroundStartsOf (t : Trace) : nat :=
  match t with
  | [] => 0%nat
  | EBackgroundEnsure :: t' => S (backgroundStartsOf t')
  | _ :: t' => backgroundStartsOf t'
  end.

Definition sum_ms (l : list Z) : Z := fold_right Z.add 0 l.

(** A proxied answer handed back as it is; a rejection stays one. *)
Definition relay (r : Outcome Upstream) : Outcome Response :=
  match r with
  | Ok up => Ok (RUpstream up)
  | Throw e => Throw e
  end.

Definition all_credentials (env : ClawdbotEnv) : bool :=
  truthy (R2_ACCESS_KEY_ID env) && truthy (R2_SECRET_ACCESS_KEY env)
  && truthy (CF_ACCOUNT_ID env).

(** ** Verdicts and views used to state the properties *)

(** The last line the cron handler logs. *)
Inductive CronVerdict : Event -> Prop :=
| CronNotConfigured :
    CronVerdict (ELog LInfo [AStr "[cron] R2 not configured, skipping backup"])
| CronMountFailed :
    CronVerdict (ELog LInfo [AStr "[cron] Failed to mount R2, skipping backup"])
| CronSynced :
    CronVerdict (ELog LInfo [AStr "[cron] Backup sync completed successfully"])
| CronSyncFailed (output : option string) :
    CronVerdict (ELog LErr [AStr "[cron] Backup sync failed:"; AOpt output])
| CronSyncError (error : Thrown) :
    CronVerdict (ELog LErr [AStr "[cron] Error during backup sync:"; AThrown error]).

(** The status codes of [POST /storage/sync]. *)
Definition sync_status (s : Z) : Prop := s = 200 \/ s = 400 \/ s = 500.

(** What one sandbox sees of the registry: its slot, and the answers given
    to its callers. *)
Definition answersOf (name : string) (r : Lifecycle.Registry)
    : list (string * nat * Lifecycle.Resolution) :=
  List.filter (fun x => String.eqb (fst (fst x)) name) (Lifecycle.resolved r).

(** The steps of one sandbox, run on its slot and its answers alone. *)
Definition localStep (e : Lifecycle.Step)
    (v : Lifecycle.Slot * list (string * nat * Lifecycle.Resolution))
    : Lifecycle.Slot * list (string * nat * Lifecycle.Resolution) :=
  let (s, answers) := v in
  match e with
  | Lifecycle.Arrive name caller =>
      match Lifecycle.pending s with
      | Some waiters =>
          ({| Lifecycle.gatewayRunning := Lifecycle.gatewayRunning s;
              Lifecycle.pending := Some (caller :: waiters);
              Lifecycle.spawns := Lifecycle.spawns s |}, answers)
      | None =>
          if Lifecycle.gatewayRunning s
          then (s, (name, caller, Lifecycle.Ready) :: answers)
          else ({| Lifecycle.gatewayRunning := false;
                   Lifecycle.pending := Some [caller];
                   Lifecycle.spawns := S (Lifecycle.spawns s) |}, answers)
      end
  | Lifecycle.Settle name outcome =>
      match Lifecycle.pending s with
      | Some waiters =>
          ({| Lifecycle.gatewayRunning :=
                match outcome with
                | Lifecycle.Ready => true
                | Lifecycle.StartupError _ => false
                end;
              Lifecycle.pending := None;
              Lifecycle.spawns := Lifecycle.spawns s |},
           (map (fun c => (name, c, outcome)) waiters ++ answers)%list)
      | None => (s, answers)
      end
  end.

(** ** Sample worlds, used to run the handlers on concrete inputs *)

Module Samples.

Definition logsOf (out : string) : Logs :=
  {| stdout := Some out; stderr := None |}.

(** A process that has completed with status 0 and printed [out]. *)
Definition doneProcess (pid out : string) : Process :=
  {| proc_id := pid;
     proc_status := fun _ => Completed;
     proc_exitCode := fun _ => Some 0;
     proc_getLogs := fun _ => Ok (logsOf out);
     proc_kill := fun _ => Ok tt |}.

(** A process that never leaves [running] and refuses to be killed. *)
Definition stuckProcess (pid : string) : Process :=
  {| proc_id := pid;
     proc_status := fun _ => Running;
     proc_exitCode := fun _ => None;
     proc_getLogs := fun _ => Ok {| stdout := None; stderr := None |};
     proc_kill := fun _ => Throw (JsError "kill failed") |}.

Definition sandboxOf (p : Process) : Sandbox :=
  {| sb_startProcess := fun _ _ => Ok p;
     sb_wsConnect := fun _ _ _ => Ok {| up_status := 101; up_payload := EmptyString |};
     sb_containerFetch := fun _ _ _ => Ok {| up_status := 200; up_payload := "ok" |} |}.

(** A gateway module whose start fails with [message]. *)
Definition gatewayFailing (message : string) : Gateway :=
  {| gw_ensureClawdbotGateway := fun _ _ _ => Throw (JsError message);
     gw_findExistingClawdbotProcess := fun _ _ => Ok None;
     gw_mountR2Storage := fun _ _ _ => Ok true |}.

(** A gateway module that starts, finds [existing] and mounts as [mount]. *)
Definition gatewayUp (existing : option Process) (mount : bool) : Gateway :=
  {| gw_ensureClawdbotGateway := fun _ _ _ => Ok tt;
     gw_findExistingClawdbotProcess := fun _ _ => Ok existing;
     gw_mountR2Storage := fun _ _ _ => Ok mount |}.


(** An engine that words its errors as V8 does and prints integers as
    decimal numerals, which is how a number reads while its magnitude is
    below 2^53. *)
Definition v8 : Devices.Engine :=
  {| Devices.numberText := fun n =>
       if n <? 0 then "-" ++ Devices.decimal (Z.to_nat (- n))
       else Devices.decimal (Z.to_nat n);
     Devices.readOfNull := fun k => "Cannot read properties of null (reading '" ++ k ++ "')";
     Devices.notIterable := "pending is not iterable";
     Devices.notPrimitive := "Cannot convert object to primitive value" |}.

(** What [JSON.parse] gives when the CLI lists [pending]. *)
Definition listing (pending : Json) : Devices.DeviceData :=
  {| Devices.data_json := JObj [("pending", pending); ("paired", JArr [])] |}.

Definition envFull : ClawdbotEnv :=
  {| ANTHROPIC_API_KEY := Some "sk-test";
     R2_ACCESS_KEY_ID := Some "key";
     R2_SECRET_ACCESS_KEY := Some "secret";
     CF_ACCOUNT_ID := Some "account";
     SANDBOX_SLEEP_AFTER := None |}.

Definition envNoStorage : ClawdbotEnv :=
  {| ANTHROPIC_API_KEY := Some "sk-test";
     R2_ACCESS_KEY_ID := Some "key";
     R2_SECRET_ACCESS_KEY := None;
     CF_ACCOUNT_ID := Some EmptyString;
     SANDBOX_SLEEP_AFTER := Some "10M" |}.

Definition upgradeRequest : Request :=
  {| req_method := "GET";
     req_url := "https://bot.example/ws?token=1";
     req_pathname := "/ws";
     req_search := "?token=1";
     req_headers := [("Connection", "Upgrade"); ("upgrade", "WebSocket")];
     req_body := EmptyString |}.

Definition plainRequest : Request :=
  {| req_method := "POST";
     req_url := "https://bot.example/chat";
     req_pathname := "/chat";
     req_search := EmptyString;
     req_headers := [("Content-Type", "application/json")];
     req_body := "{}" |}.

Definition mountPath : string := "/data/clawdbot".

Definition clock : Trace -> string := fun _ => "2026-01-01T00:00:00.000Z".

End Samples.

(** * Properties *)

Local Open Scope list_scope.

(** ** Strings *)

Lemma prefix_app (p s : string) :
  String.prefix p s = true <-> exists rest, s = (p ++ rest)%string.
Proof.
  revert s. induction p as [|c p IH]; intros [|d s]; simpl.
  - split; [intros _; exists EmptyString; reflexivity | reflexivity].
  - split; [intros _; exists (String d s); reflexivity | reflexivity].
  - split; [discriminate | intros [rest H]; discriminate].
  - destruct (ascii_dec c d) as [->|Hne].
    + rewrite IH. split; intros [rest H]; exists rest.
      * rewrite H. reflexivity.
      * simpl in H. injection H as H. exact H.
    + split; [discriminate | intros [rest H]].
      simpl in H. injection H as H1 _. exfalso. apply Hne. congruence.
Qed.

(** [includes] is the substring relation. *)
Lemma includes_spec (s pat : string) :
  includes s pat = true <-> exists before after, s = (before ++ pat ++ after)%string.
Proof.
  induction s as [|c s IH].
  - change (includes EmptyString pat)
      with (if String.prefix pat EmptyString then true else false).
    destruct (String.prefix pat EmptyString) eqn:Hp.
    + split; [intros _ | reflexivity].
      apply prefix_app in Hp as [rest Hrest].
      exists EmptyString, rest. exact Hrest.
    + split; [discriminate|].
      intros ([|b before] & after & H); [|discriminate].
      simpl in H. assert (String.prefix pat EmptyString = true) as Hq
        by (apply prefix_app; eauto).
      congruence.
  - change (includes (String c s) pat)
      with (if String.prefix pat (String c s) then true else includes s pat).
    destruct (String.prefix pat (String c s)) eqn:Hp.
    + split; [intros _ | reflexivity].
      apply prefix_app in Hp as [rest Hrest].
      exists EmptyString, rest. exact Hrest.
    + rewrite IH. split.
      * intros (before & after & ->). exists (String c before), after. reflexivity.
      * intros ([|b before] & after & H).
        -- simpl in H. assert (String.prefix pat (String c s) = true) as Hq
             by (apply prefix_app; eauto).
           congruence.
        -- simpl in H. injection H as _ ->. eauto.
Qed.

(** ** The catch-all handler *)

(** C2. When [ensureClawdbotGateway] rejects, the catch-all handler
    answers HTTP 503 with a JSON object of exactly the fields [error],
    [details] and [hint], and nothing is thrown.  The hint is chosen in a
    fixed order: a missing [ANTHROPIC_API_KEY] first, then the texts
    'heap out of memory' or 'OOM' in the error message, then the default. *)
Theorem proxy_startup_failure_503 :
  forall (port : Z) (gw : Gateway) (sandbox : Sandbox) (env : ClawdbotEnv)
         (request : Request) (t : Trace) (error : Thrown),
    gw_ensureClawdbotGateway gw sandbox env (t ++ [EEnsure]) = Throw error ->
    exists hint,
      Index.proxy port gw sandbox env request t =
        (Some (Ok (RJson 503 (JObj [("error", JStr "Clawdbot gateway failed to start");
                                    ("details", JStr (errorMessage error));
                                    ("hint", JStr hint)]))),
         (t ++ [EEnsure; ELog LErr [AStr "Failed to start Clawdbot:"; AThrown error]]))
      /\ (truthy (ANTHROPIC_API_KEY env) = false ->
          hint = "ANTHROPIC_API_KEY is not set. Run: wrangler secret put ANTHROPIC_API_KEY")
      /\ (truthy (ANTHROPIC_API_KEY env) = true ->
          includes (errorMessage error) "heap out of memory" = true
          \/ includes (errorMessage error) "OOM" = true ->
          hint = "Gateway ran out of memory. Try again or check for memory leaks.")
      /\ (truthy (ANTHROPIC_API_KEY env) = true ->
          includes (errorMessage error) "heap out of memory" = false ->
          includes (errorMessage error) "OOM" = false ->
          hint = "Check worker logs with: wrangler tail").
Proof.
  intros port gw sandbox env request t error Hfail.
  exists (Index.startupHint env (errorMessage error)). split.
  - unfold Index.proxy, bind, attempt, call, console, ret.
    rewrite Hfail. cbn. rewrite <- app_assoc. reflexivity.
  - unfold Index.startupHint.
    destruct (truthy (ANTHROPIC_API_KEY env)); cbn [negb].
    + split; [discriminate|]. split.
      * intros _ [H|H]; rewrite H; [reflexivity|].
        rewrite orb_true_r. reflexivity.
      * intros _ H1 H2. rewrite H1, H2. reflexivity.
    + split; [reflexivity|]. split; discriminate.
Qed.

Lemma proxy_startup_failure_503_witness :
  exists hint,
    Index.proxy 18789 (Samples.gatewayFailing "FATAL ERROR: JavaScript heap out of memory")
      (Samples.sandboxOf (Samples.doneProcess "p1" EmptyString)) Samples.envFull
      Samples.plainRequest [] =
      (Some (Ok (RJson 503 (JObj [("error", JStr "Clawdbot gateway failed to start");
                                  ("details", JStr "FATAL ERROR: JavaScript heap out of memory");
                                  ("hint", JStr hint)]))),
       [EEnsure; ELog LErr [AStr "Failed to start Clawdbot:";
                            AThrown (JsError "FATAL ERROR: JavaScript heap out of memory")]])
    /\ hint = "Gateway ran out of memory. Try again or check for memory leaks.".
Proof.
  destruct (proxy_startup_failure_503 18789
              (Samples.gatewayFailing "FATAL ERROR: JavaScript heap out of memory")
              (Samples.sandboxOf (Samples.doneProcess "p1" EmptyString)) Samples.envFull
              Samples.plainRequest []
              (JsError "FATAL ERROR: JavaScript heap out of memory") eq_refl)
    as (hint & Hrun & _ & Hoom & _).
  exists hint. split; [exact Hrun|].
  apply Hoom; [reflexivity | left; reflexivity].
Defined.

(** C6. Once [ensureClawdbotGateway] has resolved, the handler looks at the
    Upgrade header only: it is a WebSocket request exactly when the header
    is present and its lower-cased value is 'websocket'.  Such a request
    goes to [wsConnect], any other to [containerFetch]; in both cases the
    same request value is passed, on the fixed port, in a single call whose
    answer or rejection is handed back as it is. *)
Theorem proxy_relays_by_upgrade_header :
  forall (port : Z) (gw : Gateway) (sandbox : Sandbox) (env : ClawdbotEnv)
         (request : Request) (t : Trace),
    gw_ensureClawdbotGateway gw sandbox env (t ++ [EEnsure]) = Ok tt ->
    (Index.isWebSocketUpgrade request = true <->
     exists v, headers_get "Upgrade" (req_headers request) = Some v
               /\ toLowerCase v = "websocket")
    /\ (Index.isWebSocketUpgrade request = true ->
        let t' := (t ++ [EEnsure;
                         ELog LInfo [AStr "Proxying WebSocket connection to Clawdbot"];
                         ELog LInfo [AStr "WebSocket URL:"; AStr (req_url request)];
                         ELog LInfo [AStr "WebSocket search params:"; AStr (req_search request)];
                         EWsConnect request port]) in
        Index.proxy port gw sandbox env request t =
          (Some (relay (sb_wsConnect sandbox request port t')), t'))
    /\ (Index.isWebSocketUpgrade request = false ->
        let t' := (t ++ [EEnsure;
                         ELog LInfo [AStr "Proxying HTTP request:";
                                     AStr (req_pathname request ++ req_search request)%string];
                         EContainerFetch request port]) in
        Index.proxy port gw sandbox env request t =
          (Some (relay (sb_containerFetch sandbox request port t')), t')).
Proof.
  intros port gw sandbox env request t Hup.
  split; [|split].
  - unfold Index.isWebSocketUpgrade.
    destruct (headers_get "Upgrade" (req_headers request)) as [v|].
    + rewrite String.eqb_eq. split.
      * intros H. exists v. split; [reflexivity | exact H].
      * intros (v' & Hv & Hlow). congruence.
    + split; [discriminate | intros (v & Hv & _); discriminate].
  - intros Hws t'.
    unfold Index.proxy, bind, attempt, call, console, ret.
    rewrite Hup, Hws. cbn.
    repeat rewrite <- app_assoc. cbn. subst t'.
    destruct (sb_wsConnect sandbox request port _); reflexivity.
  - intros Hws t'.
    unfold Index.proxy, bind, attempt, call, console, ret.
    rewrite Hup, Hws. cbn.
    repeat rewrite <- app_assoc. cbn. subst t'.
    destruct (sb_containerFetch sandbox request port _); reflexivity.
Qed.

Lemma proxy_relays_by_upgrade_header_witness :
  Index.proxy 18789 (Samples.gatewayUp None true)
    (Samples.sandboxOf (Samples.doneProcess "p1" EmptyString)) Samples.envFull
    Samples.upgradeRequest [] =
    (Some (Ok (RUpstream {| up_status := 101; up_payload := EmptyString |})),
     [EEnsure;
      ELog LInfo [AStr "Proxying WebSocket connection to Clawdbot"];
      ELog LInfo [AStr "WebSocket URL:"; AStr "https://bot.example/ws?token=1"];
      ELog LInfo [AStr "WebSocket search params:"; AStr "?token=1"];
      EWsConnect Samples.upgradeRequest 18789]).
Proof.
  exact (proj1 (proj2 (proxy_relays_by_upgrade_header 18789 (Samples.gatewayUp None true)
                         (Samples.sandboxOf (Samples.doneProcess "p1" EmptyString))
                         Samples.envFull Samples.upgradeRequest [] eq_refl))
               eq_refl).
Defined.

(** ** The polling loops *)

Lemma repeat_snoc_app {A} (t : list A) (x : A) (k : nat) :
  (t ++ [x]) ++ repeat x k = t ++ repeat x (S k).
Proof. rewrite <- app_assoc. reflexivity. Qed.

Lemma sleepsOf_app (a b : Trace) : sleepsOf (a ++ b) = sleepsOf a ++ sleepsOf b.
Proof.
  induction a as [|e a IH]; [reflexivity|].
  destruct e; simpl; rewrite IH; reflexivity.
Qed.

Lemma killsOf_app (a b : Trace) : killsOf (a ++ b) = killsOf a ++ killsOf b.
Proof.
  induction a as [|e a IH]; [reflexivity|].
  destruct e; simpl; rewrite IH; reflexivity.
Qed.

Lemma sleepsOf_repeat (ms : Z) (k : nat) : sleepsOf (repeat (ESleep ms) k) = repeat ms k.
Proof. induction k as [|k IH]; simpl; [reflexivity | rewrite IH; reflexivity]. Qed.

Lemma killsOf_repeat_sleep (ms : Z) (k : nat) : killsOf (repeat (ESleep ms) k) = [].
Proof. induction k as [|k IH]; simpl; [reflexivity | exact IH]. Qed.

Lemma sum_ms_repeat (ms : Z) (k : nat) : sum_ms (repeat ms k) = ms * Z.of_nat k.
Proof.
  induction k as [|k IH]; [simpl; lia|].
  change (sum_ms (repeat ms (S k))) with (ms + sum_ms (repeat ms k)).
  rewrite IH. lia.
Qed.

(** The wait loop of [scheduled], started with [a] attempts counted: with
    more fuel than attempts left it ends after [k] sleeps of 500 ms, with
    the count at most 60; it ends because the process was seen not running
    or because the count reached 60, and the process was seen running
    before each sleep. *)
Lemma syncWait_from (proc : Process) :
  forall (n : nat) (a : Z) (fuel : nat) (t : Trace),
    0 <= a <= 60 -> 60 - a <= Z.of_nat n -> (n < fuel)%nat ->
    exists k : nat,
      a + Z.of_nat k <= 60
      /\ while_ fuel (Index.syncWaitCond proc) Index.syncWaitBody a t =
           (Some (Ok (a + Z.of_nat k)), t ++ repeat (ESleep 500) k)
      /\ (is_running (proc_status proc (t ++ repeat (ESleep 500) k)) = false
          \/ a + Z.of_nat k = 60)
      /\ (forall j : nat, (j < k)%nat ->
            is_running (proc_status proc (t ++ repeat (ESleep 500) j)) = true).
Proof.
  induction n as [|n IH]; intros a fuel t Ha Hn Hfuel;
    (destruct fuel as [|fuel]; [lia|]).
  - assert (a = 60) as -> by lia.
    exists 0%nat. cbn. rewrite app_nil_r, andb_false_r.
    split; [|split; [|split]]; [lia | reflexivity | right; lia | intros j Hj; lia].
  - cbn.
    destruct (is_running (proc_status proc t)) eqn:Hrun; cbn.
    + destruct (a <? 60) eqn:Hlt; cbn.
      * apply Z.ltb_lt in Hlt.
        destruct (IH (a + 1) fuel (t ++ [ESleep 500])) as (k & Hk & Hrun' & Hexit & Hbefore);
          [lia | lia | lia |].
        exists (S k). rewrite <- repeat_snoc_app.
        replace (a + Z.of_nat (S k)) with (a + 1 + Z.of_nat k) by lia.
        split; [|split; [|split]]; [lia | exact Hrun' | exact Hexit |].
        intros [|j] Hj; [cbn; rewrite app_nil_r; exact Hrun|].
        rewrite <- repeat_snoc_app. apply Hbefore. lia.
      * apply Z.ltb_ge in Hlt. exists 0%nat. cbn. rewrite app_nil_r.
        change (Z.of_nat 0) with 0; rewrite Z.add_0_r.
        split; [|split; [|split]]; [lia | reflexivity | right; lia | intros j Hj; lia].
    + exists 0%nat. cbn. rewrite app_nil_r.
      change (Z.of_nat 0) with 0; rewrite Z.add_0_r.
      split; [|split; [|split]]; [lia | reflexivity | left; exact Hrun | intros j Hj; lia].
Qed.


(** The loop of [waitForProcess], started with [a] attempts counted and
    the bound [m]: with more fuel than attempts left it ends after [k]
    sleeps of 500 ms, [k] at most the attempts left; it ends because the
    attempts are used up or because the process was seen not running after
    the last sleep, and the process was seen running after each earlier
    sleep. *)
Lemma pollBody_run (proc : Process) (a : Z) (t : Trace) :
  Api.pollBody proc a t =
    (Some (Ok (if is_running (proc_status proc (t ++ [ESleep 500]))
               then Next (a + 1) else Break a)),
     t ++ [ESleep 500]).
Proof.
  unfold Api.pollBody, bind, sleep, call, status, peek. cbn.
  change Api.CLI_POLL_INTERVAL_MS with 500.
  destruct (is_running (proc_status proc (t ++ [ESleep 500]))); reflexivity.
Qed.

Lemma poll_from (proc : Process) (m : Z) :
  forall (n : nat) (a : Z) (fuel : nat) (t : Trace),
    m - a <= Z.of_nat n -> (n < fuel)%nat ->
    exists (k : nat) (a' : Z),
      Z.of_nat k <= Z.max 0 (m - a)
      /\ while_ fuel (Api.pollCond m) (Api.pollBody proc) a t =
           (Some (Ok a'), t ++ repeat (ESleep 500) k)
      /\ (k = Z.to_nat (m - a)
          \/ ((0 < k)%nat
              /\ is_running (proc_status proc (t ++ repeat (ESleep 500) k)) = false))
      /\ (forall j : nat, (0 < j < k)%nat ->
            is_running (proc_status proc (t ++ repeat (ESleep 500) j)) = true).
Proof.
  induction n as [|n IH]; intros a fuel t Hn Hfuel;
    (destruct fuel as [|fuel]; [lia|]); cbn.
  - assert ((a <? m) = false) as -> by (apply Z.ltb_ge; lia).
    exists 0%nat, a. cbn. rewrite app_nil_r.
    split; [|split; [|split]]; [lia | reflexivity | left; lia | intros j Hj; lia].
  - destruct (a <? m) eqn:Hlt; cbn.
    + apply Z.ltb_lt in Hlt. unfold bind. rewrite pollBody_run.
      destruct (is_running (proc_status proc (t ++ [ESleep 500]))) eqn:Hrun; cbn.
      * destruct (IH (a + 1) fuel (t ++ [ESleep 500])) as (k & a' & Hk & Hrun' & Hexit & Hbefore);
          [lia | lia |].
        exists (S k), a'. rewrite <- repeat_snoc_app.
        split; [|split; [|split]]; [lia | exact Hrun' | |].
        -- destruct Hexit as [->|[Hpos Hstop]]; [left; lia | right; split; [lia | exact Hstop]].
        -- intros [|[|j]] Hj; [lia | exact Hrun |].
           rewrite <- repeat_snoc_app. apply Hbefore. lia.
      * exists 1%nat, a. cbn.
        split; [|split; [|split]]; [lia | reflexivity | right; split; [lia | exact Hrun] |].
        intros j Hj. lia.
    + apply Z.ltb_ge in Hlt. exists 0%nat, a. cbn. rewrite app_nil_r.
      split; [|split; [|split]]; [lia | reflexivity | left; lia | intros j Hj; lia].
Qed.

(** [waitForProcess] returns for every process, after at most
    [ceil(timeoutMs / 500)] sleeps of 500 ms. *)
Lemma waitForProcess_returns (proc : Process) (timeoutMs : Z) (fuel : nat) (t : Trace) :
  (Z.to_nat (Api.ceil_div timeoutMs 500) < fuel)%nat ->
  exists k : nat,
    Z.of_nat k <= Z.max 0 (Api.ceil_div timeoutMs 500)
    /\ Api.waitForProcess fuel proc timeoutMs t =
         (Some (Ok tt), t ++ repeat (ESleep 500) k)
    /\ (k = Z.to_nat (Api.ceil_div timeoutMs 500)
        \/ ((0 < k)%nat
            /\ is_running (proc_status proc (t ++ repeat (ESleep 500) k)) = false))
    /\ (forall j : nat, (0 < j < k)%nat ->
          is_running (proc_status proc (t ++ repeat (ESleep 500) j)) = true).
Proof.
  intros Hfuel.
  destruct (poll_from proc (Api.ceil_div timeoutMs 500)
              (Z.to_nat (Api.ceil_div timeoutMs 500)) 0 fuel t)
    as (k & a' & Hk & Hrun & Hexit & Hbefore); [lia | exact Hfuel |].
  exists k. rewrite Z.sub_0_r in Hk, Hexit.
  split; [|split; [|split]]; [exact Hk | | exact Hexit | exact Hbefore].
  unfold Api.waitForProcess, bind. cbn in *.
  change (Api.ceil_div timeoutMs Api.CLI_POLL_INTERVAL_MS)
    with (Api.ceil_div timeoutMs 500).
  rewrite Hrun. reflexivity.
Qed.

Lemma ceil_div_500 (timeoutMs : Z) :
  500 * (Api.ceil_div timeoutMs 500 - 1) < timeoutMs <= 500 * Api.ceil_div timeoutMs 500.
Proof.
  unfold Api.ceil_div.
  pose proof (Z.div_mod (- timeoutMs) 500 ltac:(lia)) as Hdm.
  pose proof (Z.mod_pos_bound (- timeoutMs) 500 ltac:(lia)) as Hb.
  lia.
Qed.


(** ** The cron handler *)

Lemma startsOf_app (a b : Trace) : startsOf (a ++ b) = startsOf a ++ startsOf b.
Proof.
  induction a as [|e a IH]; [reflexivity|].
  destruct e; simpl; rewrite IH; reflexivity.
Qed.

Lemma startsOf_repeat_sleep (ms : Z) (k : nat) : startsOf (repeat (ESleep ms) k) = [].
Proof. induction k as [|k IH]; simpl; [reflexivity | exact IH]. Qed.

Ltac trace_norm := repeat first [rewrite <- app_assoc | progress cbn [app]].

Ltac observe :=
  repeat first
    [ rewrite sleepsOf_app | rewrite killsOf_app | rewrite startsOf_app
    | rewrite sleepsOf_repeat | rewrite killsOf_repeat_sleep
    | rewrite startsOf_repeat_sleep | rewrite app_nil_r
    | progress cbn [sleepsOf killsOf startsOf app] ].

Lemma scheduled_run (mountPath : string) (gw : Gateway)
    (getSandbox : string -> Index.SandboxOptions -> Sandbox)
    (fuel : nat) (env : ClawdbotEnv) (t : Trace) :
  (61 <= fuel)%nat ->
  exists (r : Outcome unit) (d : Trace) (k : nat),
    Index.scheduled mountPath gw getSandbox fuel env t = (Some r, t ++ d)
    /\ (k <= 60)%nat
    /\ sleepsOf d = repeat 500 k
    /\ killsOf d = []
    /\ (startsOf d = [] \/ startsOf d = [Index.syncCmd mountPath])
    /\ (all_credentials env = false ->
        r = Ok tt /\ d = [ELog LInfo [AStr "[cron] R2 not configured, skipping backup"]])
    /\ ((exists e, r = Throw e
                   /\ gw_mountR2Storage gw
                        (getSandbox "clawdbot" (Index.buildSandboxOptions env)) env
                        (t ++ [EMount]) = Throw e)
        \/ (r = Ok tt /\ exists pre last, d = pre ++ [last] /\ CronVerdict last)).
Proof.
  intros Hfuel. unfold Index.scheduled, all_credentials.
  destruct (truthy (R2_ACCESS_KEY_ID env)), (truthy (R2_SECRET_ACCESS_KEY env)),
    (truthy (CF_ACCOUNT_ID env)); cbn [negb orb andb].
  all: try (eexists (Ok tt), _, 0%nat; cbn; split; [reflexivity|];
     split; [lia|]; split; [reflexivity|]; split; [reflexivity|];
     split; [left; reflexivity|]; split; [intros _; split; reflexivity|];
     right; split; [reflexivity|]; exists []; eexists; split; [reflexivity|]; constructor).
  set (sb := getSandbox "clawdbot" (Index.buildSandboxOptions env)).
  unfold bind at 1. unfold call at 1.
  destruct (gw_mountR2Storage gw sb env (t ++ [EMount])) as [[|]|e]; cbn [negb].
  - (* mounted *)
    unfold try_catch, bind, console, startProcess, call. cbn.
    repeat rewrite <- app_assoc. cbn.
    destruct (sb_startProcess sb (Index.syncCmd mountPath) _) as [proc|e].
    + unfold Index.syncWait.
      match goal with
      | |- context [while_ fuel _ _ 0 ?tr] =>
          destruct (syncWait_from proc 60 0 fuel tr) as (k & Hk & Hloop & _);
            [lia | lia | lia |]; rewrite Hloop
      end.
      unfold getLogs, call. cbn.
      repeat rewrite <- app_assoc. cbn.
      destruct (proc_getLogs proc _) as [logs|e].
      * destruct (is_completed _ || exit_zero _).
        -- exists (Ok tt),
             (([EMount; ELog LInfo [AStr "[cron] Starting backup sync to R2..."];
                EStartProcess (Index.syncCmd mountPath)]
               ++ repeat (ESleep 500) k ++ [EGetLogs (proc_id proc)])
              ++ [ELog LInfo [AStr "[cron] Backup sync completed successfully"]]), k.
           split; [trace_norm; reflexivity|]. split; [lia|].
           split; [observe; reflexivity|]. split; [observe; reflexivity|].
           split; [right; observe; reflexivity|]. split; [discriminate|].
           right. split; [reflexivity|]. eexists _, _. split; [reflexivity | constructor].
        -- exists (Ok tt),
             (([EMount; ELog LInfo [AStr "[cron] Starting backup sync to R2..."];
                EStartProcess (Index.syncCmd mountPath)]
               ++ repeat (ESleep 500) k ++ [EGetLogs (proc_id proc)])
              ++ [ELog LErr [AStr "[cron] Backup sync failed:";
                             AOpt (or_opt (stderr logs) (stdout logs))]]), k.
           split; [trace_norm; reflexivity|]. split; [lia|].
           split; [observe; reflexivity|]. split; [observe; reflexivity|].
           split; [right; observe; reflexivity|]. split; [discriminate|].
           right. split; [reflexivity|]. eexists _, _. split; [reflexivity | constructor].
      * exists (Ok tt),
          (([EMount; ELog LInfo [AStr "[cron] Starting backup sync to R2..."];
             EStartProcess (Index.syncCmd mountPath)]
            ++ repeat (ESleep 500) k ++ [EGetLogs (proc_id proc)])
           ++ [ELog LErr [AStr "[cron] Error during backup sync:"; AThrown e]]), k.
        split; [trace_norm; reflexivity|]. split; [lia|].
        split; [observe; reflexivity|]. split; [observe; reflexivity|].
        split; [right; observe; reflexivity|]. split; [discriminate|].
        right. split; [reflexivity|]. eexists _, _. split; [reflexivity | constructor].
    + exists (Ok tt),
        ([EMount; ELog LInfo [AStr "[cron] Starting backup sync to R2..."];
          EStartProcess (Index.syncCmd mountPath)]
         ++ [ELog LErr [AStr "[cron] Error during backup sync:"; AThrown e]]), 0%nat.
      split; [trace_norm; reflexivity|]. split; [lia|].
      split; [reflexivity|]. split; [reflexivity|].
      split; [right; reflexivity|]. split; [discriminate|].
      right. split; [reflexivity|]. eexists _, _. split; [reflexivity | constructor].
  - (* the mount manager answered false *)
    exists (Ok tt),
      ([EMount] ++ [ELog LInfo [AStr "[cron] Failed to mount R2, skipping backup"]]), 0%nat.
    split; [unfold console, call; trace_norm; reflexivity|]. split; [lia|].
    split; [reflexivity|]. split; [reflexivity|].
    split; [left; reflexivity|]. split; [discriminate|].
    right. split; [reflexivity|]. eexists _, _. split; [reflexivity | constructor].
  - (* the mount manager rejected *)
    exists (Throw e), [EMount], 0%nat.
    split; [reflexivity|]. split; [lia|].
    split; [reflexivity|]. split; [reflexivity|].
    split; [left; reflexivity|]. split; [discriminate|].
    left. exists e. split; reflexivity.
Qed.


(** What the cron handler does swallow.  With a missing R2 credential it
    logs one line and returns: no mount, no process, no sleep.  As long as
    the mount manager answers rather than rejects, every run of the handler
    resolves normally, whatever the sandbox and the process do, and the
    last thing it does is log its verdict: skipped, mount failed, synced,
    sync failed, or the error caught during the sync. *)
Lemma scheduled_swallows_failures :
  forall (mountPath : string) (gw : Gateway)
         (getSandbox : string -> Index.SandboxOptions -> Sandbox)
         (fuel : nat) (env : ClawdbotEnv) (t : Trace),
    (61 <= fuel)%nat ->
    (forall sb e tr, exists b, gw_mountR2Storage gw sb e tr = Ok b) ->
    (all_credentials env = false ->
     Index.scheduled mountPath gw getSandbox fuel env t =
       (Some (Ok tt),
        t ++ [ELog LInfo [AStr "[cron] R2 not configured, skipping backup"]]))
    /\ (exists pre last,
          Index.scheduled mountPath gw getSandbox fuel env t =
            (Some (Ok tt), t ++ pre ++ [last])
          /\ CronVerdict last).
Proof.
  intros mountPath gw getSandbox fuel env t Hfuel Hcontract.
  destruct (scheduled_run mountPath gw getSandbox fuel env t Hfuel)
    as (r & d & k & Hrun & _ & _ & _ & _ & Hskip & Hend).
  destruct Hend as [(e & _ & Hthrow) | (-> & pre & last & -> & Hverdict)].
  - destruct (Hcontract (getSandbox "clawdbot" (Index.buildSandboxOptions env)) env
                (t ++ [EMount])) as [b Hb].
    congruence.
  - split.
    + intros Hmissing. destruct (Hskip Hmissing) as [_ Hd].
      rewrite Hrun, Hd. reflexivity.
    + exists pre, last. split; [exact Hrun | exact Hverdict].
Qed.

Lemma scheduled_swallows_failures_witness :
  Index.scheduled Samples.mountPath (Samples.gatewayUp None true)
    (fun _ _ => Samples.sandboxOf (Samples.stuckProcess "sync"))
    61 Samples.envNoStorage [] =
    (Some (Ok tt), [ELog LInfo [AStr "[cron] R2 not configured, skipping backup"]]).
Proof.
  refine (proj1 (scheduled_swallows_failures Samples.mountPath (Samples.gatewayUp None true)
                   (fun _ _ => Samples.sandboxOf (Samples.stuckProcess "sync"))
                   61 Samples.envNoStorage [] _ _) _).
  - apply le_n.
  - intros sb e tr. exists true. reflexivity.
  - reflexivity.
Defined.

(** The call to the mount manager stands before the handler's [try]
    (index.ts line 151, the [try] opens at 162), so a rejection of it is
    neither logged nor swallowed: it reaches the trigger. *)
Lemma scheduled_relies_on_mount_contract
    (mountPath : string) (gw : Gateway)
    (getSandbox : string -> Index.SandboxOptions -> Sandbox)
    (fuel : nat) (env : ClawdbotEnv) (t : Trace) (e : Thrown) :
  all_credentials env = true ->
  gw_mountR2Storage gw (getSandbox "clawdbot" (Index.buildSandboxOptions env)) env
    (t ++ [EMount]) = Throw e ->
  Index.scheduled mountPath gw getSandbox fuel env t = (Some (Throw e), t ++ [EMount]).
Proof.
  unfold Index.scheduled, all_credentials. intros Hcred Hthrow.
  destruct (truthy (R2_ACCESS_KEY_ID env)), (truthy (R2_SECRET_ACCESS_KEY env)),
    (truthy (CF_ACCOUNT_ID env)); try discriminate.
  cbn [negb orb]. unfold bind, call. rewrite Hthrow. reflexivity.
Qed.


(** C5. The polling loops are bounded.  The wait loop of the cron handler
    ends after at most 60 sleeps of 500 ms, and after exactly 60 when the
    process never leaves [running]; the whole handler then sleeps at most
    30 s in total and asks for no kill.  [waitForProcess] ends after at
    most ceil(timeoutMs / 500) sleeps of 500 ms and returns for every
    process, after exactly that many when the process never leaves
    [running]. *)
Theorem polling_loops_bounded :
  forall (mountPath : string) (gw : Gateway)
         (getSandbox : string -> Index.SandboxOptions -> Sandbox)
         (env : ClawdbotEnv) (proc : Process) (timeoutMs : Z)
         (fuel : nat) (t : Trace),
    (61 <= fuel)%nat ->
    (Z.to_nat (Api.ceil_div timeoutMs 500) < fuel)%nat ->
    (exists k : nat,
        (k <= 60)%nat
        /\ Index.syncWait fuel proc t =
             (Some (Ok (Z.of_nat k)), t ++ repeat (ESleep 500) k)
        /\ ((forall tr, proc_status proc tr = Running) -> k = 60%nat))
    /\ (exists (r : Outcome unit) (d : Trace) (k : nat),
           Index.scheduled mountPath gw getSandbox fuel env t = (Some r, t ++ d)
           /\ (k <= 60)%nat
           /\ sleepsOf d = repeat 500 k
           /\ sum_ms (sleepsOf d) <= 30000
           /\ killsOf d = [])
    /\ (exists k : nat,
           Z.of_nat k <= Z.max 0 (Api.ceil_div timeoutMs 500)
           /\ Api.waitForProcess fuel proc timeoutMs t =
                (Some (Ok tt), t ++ repeat (ESleep 500) k)
           /\ ((forall tr, proc_status proc tr = Running) ->
               k = Z.to_nat (Api.ceil_div timeoutMs 500)))
    /\ 500 * (Api.ceil_div timeoutMs 500 - 1) < timeoutMs <= 500 * Api.ceil_div timeoutMs 500.
Proof.
  intros mountPath gw getSandbox env proc timeoutMs fuel t Hfuel Hfuel'.
  split; [|split; [|split]].
  - destruct (syncWait_from proc 60 0 fuel t) as (k & Hk & Hrun & Hexit & _);
      [lia | lia | lia |].
    exists k. split; [lia|]. split; [exact Hrun|].
    intros Halways. destruct Hexit as [Hstop | Hfull]; [|lia].
    rewrite Halways in Hstop. discriminate.
  - destruct (scheduled_run mountPath gw getSandbox fuel env t Hfuel)
      as (r & d & k & Hrun & Hk & Hsleeps & Hkills & _).
    exists r, d, k. split; [exact Hrun|]. split; [exact Hk|].
    split; [exact Hsleeps|]. split; [|exact Hkills].
    rewrite Hsleeps, sum_ms_repeat. lia.
  - destruct (waitForProcess_returns proc timeoutMs fuel t Hfuel')
      as (k & Hk & Hrun & Hexit & _).
    exists k. split; [exact Hk|]. split; [exact Hrun|].
    intros Halways. destruct Hexit as [Hfull | [_ Hstop]]; [exact Hfull|].
    rewrite Halways in Hstop. discriminate.
  - apply ceil_div_500.
Qed.

Lemma polling_loops_bounded_witness :
  exists k : nat,
    (k <= 60)%nat
    /\ Index.syncWait 61 (Samples.stuckProcess "sync") [] =
         (Some (Ok (Z.of_nat k)), [] ++ repeat (ESleep 500) k)
    /\ ((forall tr, proc_status (Samples.stuckProcess "sync") tr = Running) -> k = 60%nat).
Proof.
  refine (proj1 (polling_loops_bounded Samples.mountPath (Samples.gatewayUp None true)
                   (fun _ _ => Samples.sandboxOf (Samples.stuckProcess "sync"))
                   Samples.envFull (Samples.stuckProcess "sync") 30000 61 [] _ _)).
  - apply le_n.
  - vm_compute. lia.
Defined.


(** ** The storage routes *)








Lemma credentials_guard (env : ClawdbotEnv) :
  negb (truthy (R2_ACCESS_KEY_ID env)) || negb (truthy (R2_SECRET_ACCESS_KEY env))
  || negb (truthy (CF_ACCOUNT_ID env)) = negb (all_credentials env).
Proof.
  unfold all_credentials.
  destruct (truthy (R2_ACCESS_KEY_ID env)), (truthy (R2_SECRET_ACCESS_KEY env)),
    (truthy (CF_ACCOUNT_ID env)); reflexivity.
Qed.

(** Whatever the sandbox does, the manual sync answers with a JSON
    response of status 200, 400 or 500: nothing escapes its [try]. *)
Lemma postStorageSync_total (mountPath : string) (gw : Gateway) (now : Trace -> string)
    (fuel : nat) (sandbox : Sandbox) (env : ClawdbotEnv) (t : Trace) :
  (61 <= fuel)%nat ->
  exists (s : Z) (body : Json) (d : Trace),
    Api.postStorageSync mountPath gw now fuel sandbox env t = (Some (Ok (RJson s body)), t ++ d)
    /\ sync_status s
    /\ (startsOf d = []
        \/ startsOf d = [Api.syncCmd mountPath]
        \/ startsOf d = [Api.syncCmd mountPath; ("cat " ++ mountPath ++ "/.last-sync")%string]).
Proof.
  intros Hfuel. unfold Api.postStorageSync, sync_status. rewrite credentials_guard.
  destruct (all_credentials env); cbn [negb].
  2:{ eexists _, _, []. rewrite app_nil_r. split; [reflexivity | split; [tauto | observe; tauto]]. }
  unfold try_catch. unfold bind at 1. unfold call at 1.
  destruct (gw_mountR2Storage gw sandbox env (t ++ [EMount])) as [[|]|e]; cbn [negb].
  2,3: (eexists _, _, [EMount]; split; [reflexivity | split; [tauto | observe; tauto]]).
  unfold bind at 1. unfold startProcess, call at 1. trace_norm.
  destruct (sb_startProcess sandbox (Api.syncCmd mountPath) _) as [proc|e].
  2:{ eexists _, _, [EMount; EStartProcess _]. split; [reflexivity | split; [tauto | observe; tauto]]. }
  unfold bind at 1.
  match goal with
  | |- context [Api.waitForProcess fuel proc 30000 ?tr] =>
      destruct (waitForProcess_returns proc 30000 fuel tr) as (k & _ & Hwait & _);
        [vm_compute; lia |]; rewrite Hwait
  end.
  unfold bind at 1. unfold getLogs, call at 1. trace_norm.
  destruct (proc_getLogs proc _) as [logs|e].
  2:{ eexists _, _, (EMount :: EStartProcess _ :: repeat (ESleep 500) k ++ [EGetLogs _]).
      split; [reflexivity | split; [tauto | observe; tauto]]. }
  unfold bind at 1. unfold status, peek at 1.
  unfold bind at 1. unfold exitCode, peek at 1.
  destruct (is_completed _ || exit_zero _).
  2:{ eexists _, _, (EMount :: EStartProcess _ :: repeat (ESleep 500) k ++ [EGetLogs _]).
      split; [reflexivity | split; [tauto | observe; tauto]]. }
  unfold bind at 1. unfold startProcess, call at 1. trace_norm.
  destruct (sb_startProcess sandbox _ _) as [tproc|e].
  2:{ eexists _, _, (EMount :: EStartProcess _ :: repeat (ESleep 500) k
                      ++ [EGetLogs _; EStartProcess _]).
      split; [reflexivity | split; [tauto | observe; tauto]]. }
  unfold bind at 1.
  match goal with
  | |- context [Api.waitForProcess fuel tproc 5000 ?tr] =>
      destruct (waitForProcess_returns tproc 5000 fuel tr) as (k2 & _ & Hwait2 & _);
        [vm_compute; lia |]; rewrite Hwait2
  end.
  unfold bind at 1. unfold getLogs, call at 1. trace_norm.
  destruct (proc_getLogs tproc _) as [tlogs|e].
  2:{ eexists _, _, (EMount :: EStartProcess _ :: repeat (ESleep 500) k
                      ++ EGetLogs _ :: EStartProcess _ :: repeat (ESleep 500) k2
                      ++ [EGetLogs _]).
      split; [reflexivity | split; [tauto | observe; tauto]]. }
  unfold bind, call, ret.
  destruct (truthy (option_map trim (stdout tlogs))).
  - eexists _, _, (EMount :: EStartProcess _ :: repeat (ESleep 500) k
                    ++ EGetLogs _ :: EStartProcess _ :: repeat (ESleep 500) k2
                    ++ [EGetLogs _]).
    split; [reflexivity | split; [tauto | observe; tauto]].
  - eexists _, _, (EMount :: EStartProcess _ :: repeat (ESleep 500) k
                    ++ EGetLogs _ :: EStartProcess _ :: repeat (ESleep 500) k2
                    ++ [EGetLogs _; ENow]).
    split; [trace_norm; reflexivity | split; [tauto | observe; tauto]].
Qed.


Ltac sync_prefix Hcred Hmount Hstart Hwait Hlogs Hverdict tr :=
  unfold Api.postStorageSync; rewrite credentials_guard, Hcred; cbn [negb];
  unfold try_catch; unfold bind at 1; unfold call at 1; rewrite Hmount; cbn [negb];
  unfold bind at 1; unfold startProcess, call at 1; trace_norm; rewrite Hstart;
  unfold bind at 1; rewrite Hwait;
  unfold bind at 1; unfold getLogs, call at 1; trace_norm; fold tr; rewrite Hlogs;
  unfold bind at 1; unfold status, peek at 1;
  unfold bind at 1; unfold exitCode, peek at 1; rewrite Hverdict.

(** What [POST /storage/sync] answers once the sync process was started:
    the verdict is read after [getLogs], from the status and the exit code
    as they are then. *)
Lemma postStorageSync_after_start (mountPath : string) (gw : Gateway)
    (now : Trace -> string) (fuel : nat) (sandbox : Sandbox) (env : ClawdbotEnv)
    (t : Trace) (proc : Process) :
  (61 <= fuel)%nat ->
  all_credentials env = true ->
  gw_mountR2Storage gw sandbox env (t ++ [EMount]) = Ok true ->
  sb_startProcess sandbox (Api.syncCmd mountPath)
    (t ++ [EMount; EStartProcess (Api.syncCmd mountPath)]) = Ok proc ->
  exists k : nat,
    (k <= 60)%nat
    /\ forall logs,
         let tr := t ++ EMount :: EStartProcess (Api.syncCmd mountPath)
                     :: repeat (ESleep 500) k ++ [EGetLogs (proc_id proc)] in
         proc_getLogs proc tr = Ok logs ->
         (is_completed (proc_status proc tr) || exit_zero (proc_exitCode proc tr) = false ->
          Api.postStorageSync mountPath gw now fuel sandbox env t =
            (Some (Ok (RJson 500 (JObj ([("success", JBool false); ("error", JStr "Sync failed")]
                                        ++ field_opt "details"
                                             (or_opt (stderr logs) (stdout logs)))))),
             tr))
         /\ (is_completed (proc_status proc tr) || exit_zero (proc_exitCode proc tr) = true ->
             forall tproc,
               sb_startProcess sandbox ("cat " ++ mountPath ++ "/.last-sync")%string
                 (tr ++ [EStartProcess ("cat " ++ mountPath ++ "/.last-sync")%string])
                 = Ok tproc ->
               exists k2 : nat,
                 (k2 <= 10)%nat
                 /\ forall tlogs,
                      let tr2 := tr ++ EStartProcess ("cat " ++ mountPath ++ "/.last-sync")%string
                                   :: repeat (ESleep 500) k2 ++ [EGetLogs (proc_id tproc)] in
                      proc_getLogs tproc tr2 = Ok tlogs ->
                      let read := option_map trim (stdout tlogs) in
                      Api.postStorageSync mountPath gw now fuel sandbox env t =
                        (Some (Ok (RJson 200 (JObj [("success", JBool true);
                                                    ("message", JStr "Sync completed successfully");
                                                    ("lastSync",
                                                     JStr (if truthy read
                                                           then default EmptyString read
                                                           else now (tr2 ++ [ENow])))]))),
                         if truthy read then tr2 else tr2 ++ [ENow])).
Proof.
  intros Hfuel Hcred Hmount Hstart.
  destruct (waitForProcess_returns proc 30000 fuel
              (t ++ [EMount; EStartProcess (Api.syncCmd mountPath)]))
    as (k & Hk & Hwait & _); [vm_compute; lia |].
  exists k. split; [revert Hk; vm_compute (Api.ceil_div 30000 500); lia|].
  intros logs tr Hlogs.
  cbn [app] in Hstart, Hwait.
  split; intros Hverdict.
  - sync_prefix Hcred Hmount Hstart Hwait Hlogs Hverdict tr.
    reflexivity.
  - intros tproc Hts.
    destruct (waitForProcess_returns tproc 5000 fuel
                (tr ++ [EStartProcess ("cat " ++ mountPath ++ "/.last-sync")%string]))
      as (k2 & Hk2 & Hwait2 & _); [vm_compute; lia |].
    exists k2. split; [revert Hk2; vm_compute (Api.ceil_div 5000 500); lia|].
    intros tlogs tr2 Htl read.
    sync_prefix Hcred Hmount Hstart Hwait Hlogs Hverdict tr.
    unfold bind at 1. unfold startProcess, call at 1. rewrite Hts.
    unfold bind at 1. rewrite Hwait2.
    unfold bind at 1. unfold getLogs, call at 1. trace_norm.
    fold tr2. rewrite Htl. fold read.
    unfold bind, call, ret.
    destruct (truthy read); reflexivity.
Qed.


(** C10. [POST /storage/sync] tells its caller what went wrong.  With a
    credential missing it answers 400 and touches nothing.  With all
    three set it answers 500 when the mount manager returns false, 500
    with the error's message when a step rejects, and 500 'Sync failed'
    when, after the wait and [getLogs], the process is neither
    [completed] nor at exit code 0.  Otherwise it reads the marker file
    back and answers 200 with its trimmed content, or with the current
    time when that content is empty or absent.  No run throws. *)
Theorem manual_sync_reports_failures :
  forall (mountPath : string) (gw : Gateway) (now : Trace -> string)
         (fuel : nat) (sandbox : Sandbox) (env : ClawdbotEnv) (t : Trace),
    (61 <= fuel)%nat ->
    (all_credentials env = false ->
     Api.postStorageSync mountPath gw now fuel sandbox env t =
       (Some (Ok (RJson 400 (JObj [("error", JStr "R2 storage is not configured")]))), t))
    /\ (all_credentials env = true ->
        (gw_mountR2Storage gw sandbox env (t ++ [EMount]) = Ok false ->
         Api.postStorageSync mountPath gw now fuel sandbox env t =
           (Some (Ok (RJson 500 (JObj [("error", JStr "Failed to mount R2 storage")]))),
            t ++ [EMount]))
        /\ (forall e,
              gw_mountR2Storage gw sandbox env (t ++ [EMount]) = Throw e ->
              Api.postStorageSync mountPath gw now fuel sandbox env t =
                (Some (Ok (RJson 500 (JObj [("error", JStr (errorMessage e))]))),
                 t ++ [EMount]))
        /\ (forall e,
              gw_mountR2Storage gw sandbox env (t ++ [EMount]) = Ok true ->
              sb_startProcess sandbox (Api.syncCmd mountPath)
                (t ++ [EMount; EStartProcess (Api.syncCmd mountPath)]) = Throw e ->
              Api.postStorageSync mountPath gw now fuel sandbox env t =
                (Some (Ok (RJson 500 (JObj [("error", JStr (errorMessage e))]))),
                 t ++ [EMount; EStartProcess (Api.syncCmd mountPath)]))
        /\ (forall proc,
              gw_mountR2Storage gw sandbox env (t ++ [EMount]) = Ok true ->
              sb_startProcess sandbox (Api.syncCmd mountPath)
                (t ++ [EMount; EStartProcess (Api.syncCmd mountPath)]) = Ok proc ->
              exists k : nat,
                (k <= 60)%nat
                /\ forall logs,
                     let tr := t ++ EMount :: EStartProcess (Api.syncCmd mountPath)
                                 :: repeat (ESleep 500) k ++ [EGetLogs (proc_id proc)] in
                     proc_getLogs proc tr = Ok logs ->
                     (is_completed (proc_status proc tr)
                      || exit_zero (proc_exitCode proc tr) = false ->
                      Api.postStorageSync mountPath gw now fuel sandbox env t =
                        (Some (Ok (RJson 500
                           (JObj ([("success", JBool false); ("error", JStr "Sync failed")]
                                  ++ field_opt "details"
                                       (or_opt (stderr logs) (stdout logs)))))),
                         tr))
                     /\ (is_completed (proc_status proc tr)
                         || exit_zero (proc_exitCode proc tr) = true ->
                         forall tproc,
                           sb_startProcess sandbox ("cat " ++ mountPath ++ "/.last-sync")%string
                             (tr ++ [EStartProcess ("cat " ++ mountPath ++ "/.last-sync")%string])
                             = Ok tproc ->
                           exists k2 : nat,
                             (k2 <= 10)%nat
                             /\ forall tlogs,
                                  let tr2 :=
                                    tr ++ EStartProcess ("cat " ++ mountPath ++ "/.last-sync")%string
                                       :: repeat (ESleep 500) k2
                                       ++ [EGetLogs (proc_id tproc)] in
                                  proc_getLogs tproc tr2 = Ok tlogs ->
                                  let read := option_map trim (stdout tlogs) in
                                  Api.postStorageSync mountPath gw now fuel sandbox env t =
                                    (Some (Ok (RJson 200
                                       (JObj [("success", JBool true);
                                              ("message", JStr "Sync completed successfully");
                                              ("lastSync",
                                               JStr (if truthy read
                                                     then default EmptyString read
                                                     else now (tr2 ++ [ENow])))]))),
                                     if truthy read then tr2 else tr2 ++ [ENow]))))
    /\ (exists (s : Z) (body : Json) (d : Trace),
          Api.postStorageSync mountPath gw now fuel sandbox env t =
            (Some (Ok (RJson s body)), t ++ d)
          /\ sync_status s).
Proof.
  intros mountPath gw now fuel sandbox env t Hfuel.
  split; [|split].
  - intros Hcred. unfold Api.postStorageSync.
    rewrite credentials_guard, Hcred. reflexivity.
  - intros Hcred. split; [|split; [|split]].
    + intros Hmount. unfold Api.postStorageSync.
      rewrite credentials_guard, Hcred. cbn [negb].
      unfold try_catch, bind, call. rewrite Hmount. reflexivity.
    + intros e Hmount. unfold Api.postStorageSync.
      rewrite credentials_guard, Hcred. cbn [negb].
      unfold try_catch, bind, call. rewrite Hmount. reflexivity.
    + intros e Hmount Hstart. unfold Api.postStorageSync.
      rewrite credentials_guard, Hcred. cbn [negb].
      unfold try_catch. unfold bind at 1. unfold call at 1. rewrite Hmount. cbn [negb].
      unfold bind at 1. unfold startProcess, call at 1. trace_norm.
      cbn [app] in Hstart. rewrite Hstart. reflexivity.
    + intros proc Hmount Hstart.
      exact (postStorageSync_after_start mountPath gw now fuel sandbox env t proc
               Hfuel Hcred Hmount Hstart).
  - destruct (postStorageSync_total mountPath gw now fuel sandbox env t Hfuel)
      as (s & body & d & Hrun & Hstatus & _).
    exists s, body, d. split; [exact Hrun | exact Hstatus].
Qed.

Lemma manual_sync_reports_failures_witness :
  Api.postStorageSync Samples.mountPath (Samples.gatewayUp None true) Samples.clock 61
    (Samples.sandboxOf (Samples.doneProcess "sync" EmptyString)) Samples.envNoStorage [] =
    (Some (Ok (RJson 400 (JObj [("error", JStr "R2 storage is not configured")]))), []).
Proof.
  exact (proj1 (manual_sync_reports_failures Samples.mountPath (Samples.gatewayUp None true)
                  Samples.clock 61
                  (Samples.sandboxOf (Samples.doneProcess "sync" EmptyString))
                  Samples.envNoStorage [] (le_n 61))
               eq_refl).
Defined.

(** A full run of the manual sync in a world where everything works: the
    marker file is read back and its content is the answer. *)
Example manual_sync_success_run :
  Api.postStorageSync Samples.mountPath (Samples.gatewayUp None true) Samples.clock 61
    (Samples.sandboxOf (Samples.doneProcess "p" "2026-01-01T00:00:00+00:00 "))
    Samples.envFull [] =
    (Some (Ok (RJson 200 (JObj [("success", JBool true);
                                ("message", JStr "Sync completed successfully");
                                ("lastSync", JStr "2026-01-01T00:00:00+00:00")]))),
     [EMount; EStartProcess (Api.syncCmd Samples.mountPath); ESleep 500; EGetLogs "p";
      EStartProcess "cat /data/clawdbot/.last-sync"; ESleep 500; EGetLogs "p"]).
Proof. vm_compute. reflexivity. Qed.


(** ** The restart route *)

(** C7. [POST /gateway/restart] first looks for an existing gateway
    process.  When one is found it asks to kill it, logs a failed kill and
    carries on, sleeps 2000 ms, hands the new start to the background and
    answers 200 at once with [success], a 'starting' message and the id of
    the process it found.  When none is found it starts the new gateway
    in the background right away.  The new start is never awaited: the
    history has no awaited [ensureClawdbotGateway], and the answer is the
    same whatever that function would do. *)
Theorem restart_kills_then_starts_in_background :
  forall (gw : Gateway) (sandbox : Sandbox) (env : ClawdbotEnv) (t : Trace),
    (forall p,
       gw_findExistingClawdbotProcess gw sandbox (t ++ [EFind]) = Ok (Some p) ->
       let asked := t ++ [EFind;
                          ELog LInfo [AStr "Killing existing gateway process:";
                                      AStr (proc_id p)];
                          EKill (proc_id p)] in
       Api.postGatewayRestart gw sandbox env t =
         (Some (Ok (RJson 200 (JObj [("success", JBool true);
                                     ("message",
                                      JStr "Gateway process killed, new instance starting...");
                                     ("previousProcessId", JStr (proc_id p))]))),
          asked
          ++ match proc_kill p asked with
             | Ok _ => []
             | Throw killErr => [ELog LErr [AStr "Error killing process:"; AThrown killErr]]
             end
          ++ [ESleep 2000; EBackgroundEnsure]))
    /\ (gw_findExistingClawdbotProcess gw sandbox (t ++ [EFind]) = Ok None ->
        Api.postGatewayRestart gw sandbox env t =
          (Some (Ok (RJson 200 (JObj [("success", JBool true);
                                      ("message",
                                       JStr "No existing process found, starting new instance...")]))),
           t ++ [EFind; EBackgroundEnsure]))
    /\ (forall ensure,
          Api.postGatewayRestart
            {| gw_ensureClawdbotGateway := ensure;
               gw_findExistingClawdbotProcess := gw_findExistingClawdbotProcess gw;
               gw_mountR2Storage := gw_mountR2Storage gw |} sandbox env t =
          Api.postGatewayRestart gw sandbox env t).
Proof.
  intros gw sandbox env t. split; [|split].
  - intros p Hfind asked.
    unfold Api.postGatewayRestart, try_catch.
    unfold bind at 1. unfold call at 1. rewrite Hfind.
    unfold bind at 1. unfold bind at 1. unfold console, call at 1.
    unfold bind at 1. unfold try_catch, kill, call at 1. trace_norm.
    fold asked.
    destruct (proc_kill p asked) as [[]|killErr].
    + unfold sleep, bind, call, ret. cbn [option_map field field_opt].
      subst asked. trace_norm. reflexivity.
    + unfold sleep, bind, call, ret. cbn [option_map field field_opt].
      subst asked. trace_norm. reflexivity.
  - intros Hfind.
    unfold Api.postGatewayRestart, try_catch.
    unfold bind at 1. unfold call at 1. rewrite Hfind.
    unfold bind, call, ret. cbn [option_map field field_opt].
    trace_norm. reflexivity.
  - intros ensure. reflexivity.
Qed.

Lemma restart_kills_then_starts_in_background_witness :
  Api.postGatewayRestart (Samples.gatewayUp (Some (Samples.stuckProcess "gw-1")) true)
    (Samples.sandboxOf (Samples.doneProcess "p" EmptyString)) Samples.envFull [] =
    (Some (Ok (RJson 200 (JObj [("success", JBool true);
                                ("message",
                                 JStr "Gateway process killed, new instance starting...");
                                ("previousProcessId", JStr "gw-1")]))),
     [EFind;
      ELog LInfo [AStr "Killing existing gateway process:"; AStr "gw-1"];
      EKill "gw-1";
      ELog LErr [AStr "Error killing process:"; AThrown (JsError "kill failed")];
      ESleep 2000; EBackgroundEnsure]).
Proof.
  exact (proj1 (restart_kills_then_starts_in_background
                  (Samples.gatewayUp (Some (Samples.stuckProcess "gw-1")) true)
                  (Samples.sandboxOf (Samples.doneProcess "p" EmptyString))
                  Samples.envFull [])
               (Samples.stuckProcess "gw-1") eq_refl).
Defined.

(** When the lookup itself rejects, the route answers 500 and starts
    nothing. *)
Lemma restart_lookup_failure (gw : Gateway) (sandbox : Sandbox) (env : ClawdbotEnv)
    (t : Trace) (e : Thrown) :
  gw_findExistingClawdbotProcess gw sandbox (t ++ [EFind]) = Throw e ->
  Api.postGatewayRestart gw sandbox env t =
    (Some (Ok (RJson 500 (JObj [("error", JStr (errorMessage e))]))), t ++ [EFind]).
Proof.
  intros Hfind. unfold Api.postGatewayRestart, try_catch, bind, call.
  rewrite Hfind. reflexivity.
Qed.


(** ** The sync command *)

Lemma plain_is_ordinary (c : ascii) :
  Shell.is_plain c = true ->
  Ascii.eqb c "'" = false /\ Shell.is_blank c = false
  /\ Ascii.eqb c ">" = false /\ Ascii.eqb c "&" = false.
Proof.
  destruct c as [[] [] [] [] [] [] [] []]; vm_compute; intros H;
    (discriminate H || (repeat split; reflexivity)).
Qed.

Lemma append_cons (c : ascii) (a b : string) :
  (String c a ++ b)%string = String c (a ++ b)%string.
Proof. reflexivity. Qed.

Lemma append_nil_l (b : string) : (EmptyString ++ b)%string = b.
Proof. reflexivity. Qed.

Lemma append_nil_r (a : string) : (a ++ EmptyString)%string = a.
Proof.
  induction a as [|x a IH]; [reflexivity|].
  rewrite append_cons, IH. reflexivity.
Qed.

Lemma string_app_assoc (a b c : string) : ((a ++ b) ++ c = a ++ b ++ c)%string.
Proof.
  induction a as [|x a IH]; [reflexivity|].
  rewrite !append_cons, IH. reflexivity.
Qed.

Lemma all_plain_app (a b : string) :
  Shell.all_plain (a ++ b)%string = Shell.all_plain a && Shell.all_plain b.
Proof.
  induction a as [|x a IH]; [reflexivity|].
  rewrite append_cons. cbn [Shell.all_plain]. rewrite IH, andb_assoc. reflexivity.
Qed.

(** Plain characters outside quotes extend the word being read. *)
Lemma lex_plain (w : string) :
  forall (u rest : string) (acc : list Shell.Token),
    Shell.all_plain w = true ->
    Shell.lex (w ++ rest)%string (Some u) false acc
    = Shell.lex rest (Some (u ++ w)%string) false acc.
Proof.
  induction w as [|c w IH]; intros u rest acc Hplain.
  - rewrite append_nil_l, append_nil_r. reflexivity.
  - cbn [Shell.all_plain] in Hplain. apply andb_true_iff in Hplain as [Hc Hw].
    destruct (plain_is_ordinary c Hc) as (Hq & Hb & Hg & Ha).
    rewrite append_cons.
    cbn [Shell.lex]. rewrite Hq, Hb, Hg, Ha, Hc.
    unfold Shell.push, from_option, id. rewrite (IH _ rest acc Hw).
    rewrite string_app_assoc, append_cons, append_nil_l. reflexivity.
Qed.

(** A word of plain characters at the start of a word. *)
Lemma lex_plain_start (c : ascii) (w rest : string) (acc : list Shell.Token) :
  Shell.all_plain (String c w) = true ->
  Shell.lex (String c w ++ rest)%string None false acc
  = Shell.lex rest (Some (String c w)) false acc.
Proof.
  intros Hplain.
  cbn [Shell.all_plain] in Hplain. apply andb_true_iff in Hplain as [Hc Hw].
  destruct (plain_is_ordinary c Hc) as (Hq & Hb & Hg & Ha).
  rewrite append_cons.
  cbn [Shell.lex]. rewrite Hq, Hb, Hg, Ha, Hc.
  unfold Shell.push, from_option, id. rewrite append_nil_l.
  rewrite (lex_plain w _ rest acc Hw). reflexivity.
Qed.

(** The words before the first mount path. *)
Lemma lex_mirror_words (tail : string) (acc : list Shell.Token) :
  Shell.lex
    ("rsync -a --delete --exclude='*.lock' --exclude='*.log' --exclude='*.tmp' /root/.clawdbot/ "
     ++ tail)%string None false acc
  = Shell.lex tail None false
      (Shell.TWord "/root/.clawdbot/" :: Shell.TWord "--exclude=*.tmp"
       :: Shell.TWord "--exclude=*.log" :: Shell.TWord "--exclude=*.lock"
       :: Shell.TWord "--delete" :: Shell.TWord "-a" :: Shell.TWord "rsync" :: acc).
Proof. vm_compute. reflexivity. Qed.

(** From the end of the destination word to the second mount path. *)
Lemma lex_marker_words (u tail : string) (acc : list Shell.Token) :
  Shell.lex (" && date -Iseconds > " ++ tail)%string (Some u) false acc
  = Shell.lex tail None false
      (Shell.TGreat :: Shell.TWord "-Iseconds" :: Shell.TWord "date"
       :: Shell.TAndIf :: Shell.TWord u :: acc).
Proof. vm_compute. reflexivity. Qed.

Lemma syncCmd_tokens (mountPath : string) :
  Shell.all_plain mountPath = true ->
  Shell.lex (Index.syncCmd mountPath) None false [] =
    Some [Shell.TWord "rsync"; Shell.TWord "-a"; Shell.TWord "--delete";
          Shell.TWord "--exclude=*.lock"; Shell.TWord "--exclude=*.log";
          Shell.TWord "--exclude=*.tmp"; Shell.TWord "/root/.clawdbot/";
          Shell.TWord (mountPath ++ "/")%string; Shell.TAndIf;
          Shell.TWord "date"; Shell.TWord "-Iseconds"; Shell.TGreat;
          Shell.TWord (mountPath ++ "/.last-sync")%string].
Proof.
  intros Hplain. unfold Index.syncCmd.
  rewrite lex_mirror_words.
  change ("/ && date -Iseconds > " ++ mountPath ++ "/.last-sync")%string
    with ("/" ++ " && date -Iseconds > " ++ mountPath ++ "/.last-sync")%string.
  rewrite <- string_app_assoc.
  assert (Hdest : exists c w, (mountPath ++ "/")%string = String c w).
  { destruct mountPath as [|c w]; [exists "/"%char, EmptyString | exists c, (w ++ "/")%string];
      reflexivity. }
  destruct Hdest as (c & w & Hdest).
  assert (Hmarker : exists c' w', (mountPath ++ "/.last-sync")%string = String c' w').
  { destruct mountPath as [|c' w'];
      [exists "/"%char, ".last-sync" | exists c', (w' ++ "/.last-sync")%string];
      reflexivity. }
  destruct Hmarker as (c' & w' & Hmarker).
  rewrite Hdest, lex_plain_start
    by (rewrite <- Hdest, all_plain_app, Hplain; reflexivity).
  rewrite lex_marker_words.
  rewrite <- (append_nil_r (mountPath ++ "/.last-sync")), Hmarker.
  rewrite lex_plain_start
    by (rewrite <- Hmarker, all_plain_app, Hplain; reflexivity).
  rewrite append_nil_r. reflexivity.
Qed.


Lemma syncCmd_parse (mountPath : string) :
  Shell.all_plain mountPath = true ->
  Shell.parse (Index.syncCmd mountPath) =
    Some [Shell.mirrorCommand mountPath; Shell.markerCommand mountPath].
Proof.
  intros Hplain. unfold Shell.parse.
  rewrite (syncCmd_tokens mountPath Hplain). reflexivity.
Qed.

(** ** Which runs start the sync command *)

(** The cron handler starts the sync command exactly when all three
    credentials are set and the mount manager answers true, and then
    exactly once, right after the mount and the opening log line. *)
Lemma scheduled_starts (mountPath : string) (gw : Gateway)
    (getSandbox : string -> Index.SandboxOptions -> Sandbox)
    (fuel : nat) (env : ClawdbotEnv) (t : Trace) :
  (61 <= fuel)%nat ->
  exists (r : Outcome unit) (d : Trace),
    Index.scheduled mountPath gw getSandbox fuel env t = (Some r, t ++ d)
    /\ ((all_credentials env = true
         /\ gw_mountR2Storage gw (getSandbox "clawdbot" (Index.buildSandboxOptions env)) env
              (t ++ [EMount]) = Ok true
         /\ exists rest,
              d = EMount :: ELog LInfo [AStr "[cron] Starting backup sync to R2..."]
                    :: EStartProcess (Index.syncCmd mountPath) :: rest
              /\ startsOf rest = [])
        \/ (~ (all_credentials env = true
               /\ gw_mountR2Storage gw (getSandbox "clawdbot" (Index.buildSandboxOptions env))
                    env (t ++ [EMount]) = Ok true)
            /\ startsOf d = [])).
Proof.
  intros Hfuel. unfold Index.scheduled. rewrite credentials_guard.
  destruct (all_credentials env); cbn [negb].
  2:{ eexists (Ok tt), _. split; [reflexivity|]. right.
      split; [intros [H _]; discriminate H | reflexivity]. }
  set (sb := getSandbox "clawdbot" (Index.buildSandboxOptions env)).
  unfold bind at 1. unfold call at 1.
  destruct (gw_mountR2Storage gw sb env (t ++ [EMount])) as [[|]|e]; cbn [negb].
  - unfold try_catch. unfold bind at 1. unfold console, call at 1.
    unfold bind at 1. unfold startProcess, call at 1. trace_norm.
    destruct (sb_startProcess sb (Index.syncCmd mountPath) _) as [proc|e].
    + unfold bind at 1. unfold Index.syncWait.
      match goal with
      | |- context [while_ fuel _ _ 0 ?tr] =>
          destruct (syncWait_from proc 60 0 fuel tr) as (k & Hk & Hloop & _);
            [lia | lia | lia |]; rewrite Hloop
      end.
      unfold bind at 1. unfold getLogs, call at 1. trace_norm.
      destruct (proc_getLogs proc _) as [logs|e].
      * unfold bind at 1. unfold status, peek at 1.
        unfold bind at 1. unfold exitCode, peek at 1.
        destruct (is_completed _ || exit_zero _).
        -- eexists (Ok tt), _. split; [unfold console, call; trace_norm; reflexivity|].
           left. split; [reflexivity|]. split; [reflexivity|].
           eexists. split; [reflexivity|]. observe. reflexivity.
        -- eexists (Ok tt), _. split; [unfold console, call; trace_norm; reflexivity|].
           left. split; [reflexivity|]. split; [reflexivity|].
           eexists. split; [reflexivity|]. observe. reflexivity.
      * eexists (Ok tt), _. split; [unfold console, call; trace_norm; reflexivity|].
        left. split; [reflexivity|]. split; [reflexivity|].
        eexists. split; [reflexivity|]. observe. reflexivity.
    + eexists (Ok tt), _. split; [unfold console, call; trace_norm; reflexivity|].
      left. split; [reflexivity|]. split; [reflexivity|].
      eexists. split; [reflexivity|]. reflexivity.
  - eexists (Ok tt), _. split; [unfold console, call; trace_norm; reflexivity|].
    right. split; [intros [_ H]; discriminate H | reflexivity].
  - exists (Throw e), [EMount]. split; [reflexivity|].
    right. split; [intros [_ H]; discriminate H | reflexivity].
Qed.

(** The manual sync starts the sync command exactly when all three
    credentials are set and the mount manager answers true: it is then the
    first process of the run, and the only other one a run may start is
    the [cat] that reads the marker back. *)
Lemma postStorageSync_starts (mountPath : string) (gw : Gateway) (now : Trace -> string)
    (fuel : nat) (sandbox : Sandbox) (env : ClawdbotEnv) (t : Trace) :
  (61 <= fuel)%nat ->
  exists (r : Outcome Response) (d : Trace),
    Api.postStorageSync mountPath gw now fuel sandbox env t = (Some r, t ++ d)
    /\ ((all_credentials env = true
         /\ gw_mountR2Storage gw sandbox env (t ++ [EMount]) = Ok true
         /\ exists rest,
              d = EMount :: EStartProcess (Api.syncCmd mountPath) :: rest
              /\ (startsOf rest = []
                  \/ startsOf rest = [("cat " ++ mountPath ++ "/.last-sync")%string]))
        \/ (~ (all_credentials env = true
               /\ gw_mountR2Storage gw sandbox env (t ++ [EMount]) = Ok true)
            /\ startsOf d = [])).
Proof.
  intros Hfuel. unfold Api.postStorageSync. rewrite credentials_guard.
  destruct (all_credentials env); cbn [negb].
  2:{ eexists _, []. rewrite app_nil_r. split; [reflexivity|]. right.
      split; [intros [H _]; discriminate H | reflexivity]. }
  unfold try_catch. unfold bind at 1. unfold call at 1.
  destruct (gw_mountR2Storage gw sandbox env (t ++ [EMount])) as [[|]|e]; cbn [negb].
  2,3: (eexists _, [EMount]; split; [reflexivity|]; right;
        split; [intros [_ H]; discriminate H | reflexivity]).
  unfold bind at 1. unfold startProcess, call at 1. trace_norm.
  destruct (sb_startProcess sandbox (Api.syncCmd mountPath) _) as [proc|e].
  2:{ eexists _, _. split; [reflexivity|]. left.
      split; [reflexivity|]. split; [reflexivity|].
      eexists. split; [reflexivity|]. left. reflexivity. }
  unfold bind at 1.
  match goal with
  | |- context [Api.waitForProcess fuel proc 30000 ?tr] =>
      destruct (waitForProcess_returns proc 30000 fuel tr) as (k & _ & Hwait & _);
        [vm_compute; lia |]; rewrite Hwait
  end.
  unfold bind at 1. unfold getLogs, call at 1. trace_norm.
  destruct (proc_getLogs proc _) as [logs|e].
  2:{ eexists _, _. split; [reflexivity|]. left.
      split; [reflexivity|]. split; [reflexivity|].
      eexists. split; [reflexivity|]. left. observe. reflexivity. }
  unfold bind at 1. unfold status, peek at 1.
  unfold bind at 1. unfold exitCode, peek at 1.
  destruct (is_completed _ || exit_zero _).
  2:{ eexists _, _. split; [reflexivity|]. left.
      split; [reflexivity|]. split; [reflexivity|].
      eexists. split; [reflexivity|]. left. observe. reflexivity. }
  unfold bind at 1. unfold startProcess, call at 1. trace_norm.
  destruct (sb_startProcess sandbox _ _) as [tproc|e].
  2:{ eexists _, _. split; [reflexivity|]. left.
      split; [reflexivity|]. split; [reflexivity|].
      eexists. split; [reflexivity|]. right. observe. reflexivity. }
  unfold bind at 1.
  match goal with
  | |- context [Api.waitForProcess fuel tproc 5000 ?tr] =>
      destruct (waitForProcess_returns tproc 5000 fuel tr) as (k2 & _ & Hwait2 & _);
        [vm_compute; lia |]; rewrite Hwait2
  end.
  unfold bind at 1. unfold getLogs, call at 1. trace_norm.
  destruct (proc_getLogs tproc _) as [tlogs|e].
  2:{ eexists _, _. split; [reflexivity|]. left.
      split; [reflexivity|]. split; [reflexivity|].
      eexists. split; [reflexivity|]. right. observe. reflexivity. }
  unfold bind, call, ret.
  destruct (truthy (option_map trim (stdout tlogs))).
  - eexists _, _. split; [reflexivity|]. left.
    split; [reflexivity|]. split; [reflexivity|].
    eexists. split; [reflexivity|]. right. observe. reflexivity.
  - eexists _, _. split; [trace_norm; reflexivity|]. left.
    split; [reflexivity|]. split; [reflexivity|].
    eexists. split; [reflexivity|]. right. observe. reflexivity.
Qed.

(** C4. The cron job and the manual sync build the same command line.  A
    cron run starts it exactly when all three credentials are set and the
    mount manager answers true, and then it is the only process of the
    run; a manual sync starts it under the same condition, as the first
    process of the run, followed at most by the [cat] that reads the
    marker back.  Read by the shell the line is an and-list of two
    commands: [rsync -a --delete] with the three exclusions ['*.lock'],
    ['*.log'] and ['*.tmp'], from [/root/.clawdbot/] to the mount path,
    then [date -Iseconds] with its output redirected to [.last-sync] on
    the mount.  So for the command a handler starts, the mirror command
    always runs, and the marker command runs exactly when the mirror
    command exits with status 0. *)
Theorem sync_command_mirrors_then_marks :
  forall (mountPath : string) (gw : Gateway)
         (getSandbox : string -> Index.SandboxOptions -> Sandbox)
         (now : Trace -> string) (fuel : nat) (sandbox : Sandbox)
         (env : ClawdbotEnv) (t : Trace),
    Shell.all_plain mountPath = true ->
    (61 <= fuel)%nat ->
    Index.syncCmd mountPath = Api.syncCmd mountPath
    /\ Shell.parse (Index.syncCmd mountPath) =
         Some [Shell.mirrorCommand mountPath; Shell.markerCommand mountPath]
    /\ (forall exitOf : list Shell.Simple -> Shell.Simple -> Z,
          fst (Shell.execAndList exitOf
                 [Shell.mirrorCommand mountPath; Shell.markerCommand mountPath] [])
          = if exitOf [] (Shell.mirrorCommand mountPath) =? 0
            then [Shell.mirrorCommand mountPath; Shell.markerCommand mountPath]
            else [Shell.mirrorCommand mountPath])
    /\ (forall exitOf : list Shell.Simple -> Shell.Simple -> Z,
          Shell.ran (Shell.markerCommand mountPath)
            (Shell.execAndList exitOf
               [Shell.mirrorCommand mountPath; Shell.markerCommand mountPath] [])
          <-> exitOf [] (Shell.mirrorCommand mountPath) = 0)
    /\ (forall exitOf : list Shell.Simple -> Shell.Simple -> Z,
          Shell.runLine exitOf (Index.syncCmd mountPath) =
            Some (if exitOf [] (Shell.mirrorCommand mountPath) =? 0
                  then ([Shell.mirrorCommand mountPath; Shell.markerCommand mountPath],
                        exitOf [Shell.mirrorCommand mountPath] (Shell.markerCommand mountPath))
                  else ([Shell.mirrorCommand mountPath],
                        exitOf [] (Shell.mirrorCommand mountPath))))
    /\ (exists r d,
          Index.scheduled mountPath gw getSandbox fuel env t = (Some r, t ++ d)
          /\ (startsOf d = [] \/ startsOf d = [Index.syncCmd mountPath])
          /\ (all_credentials env = true
              /\ gw_mountR2Storage gw (getSandbox "clawdbot" (Index.buildSandboxOptions env))
                   env (t ++ [EMount]) = Ok true
              <-> startsOf d = [Index.syncCmd mountPath])
          /\ (forall cmd, In cmd (startsOf d) ->
              forall exitOf : list Shell.Simple -> Shell.Simple -> Z,
              exists done,
                Shell.runLine exitOf cmd = Some done
                /\ Shell.ran (Shell.mirrorCommand mountPath) done
                /\ (Shell.ran (Shell.markerCommand mountPath) done
                    <-> exitOf [] (Shell.mirrorCommand mountPath) = 0)))
    /\ (exists r d,
          Api.postStorageSync mountPath gw now fuel sandbox env t = (Some r, t ++ d)
          /\ (startsOf d = []
              \/ startsOf d = [Api.syncCmd mountPath]
              \/ startsOf d = [Api.syncCmd mountPath;
                               ("cat " ++ mountPath ++ "/.last-sync")%string])
          /\ (all_credentials env = true
              /\ gw_mountR2Storage gw sandbox env (t ++ [EMount]) = Ok true
              <-> exists rest, startsOf d = Api.syncCmd mountPath :: rest)
          /\ (forall cmd rest, startsOf d = cmd :: rest ->
              forall exitOf : list Shell.Simple -> Shell.Simple -> Z,
              exists done,
                Shell.runLine exitOf cmd = Some done
                /\ Shell.ran (Shell.mirrorCommand mountPath) done
                /\ (Shell.ran (Shell.markerCommand mountPath) done
                    <-> exitOf [] (Shell.mirrorCommand mountPath) = 0))).
Proof.
  intros mountPath gw getSandbox now fuel sandbox env t Hplain Hfuel.
  assert (Hexec : forall exitOf : list Shell.Simple -> Shell.Simple -> Z,
            Shell.execAndList exitOf
              [Shell.mirrorCommand mountPath; Shell.markerCommand mountPath] []
            = if exitOf [] (Shell.mirrorCommand mountPath) =? 0
              then ([Shell.mirrorCommand mountPath; Shell.markerCommand mountPath],
                    exitOf [Shell.mirrorCommand mountPath] (Shell.markerCommand mountPath))
              else ([Shell.mirrorCommand mountPath],
                    exitOf [] (Shell.mirrorCommand mountPath))).
  { intros exitOf. cbn [Shell.execAndList app].
    destruct (exitOf [] (Shell.mirrorCommand mountPath) =? 0); [|reflexivity].
    destruct (Z.eqb_spec (exitOf [Shell.mirrorCommand mountPath]
                            (Shell.markerCommand mountPath)) 0) as [->|_]; reflexivity. }
  assert (Hline : forall exitOf : list Shell.Simple -> Shell.Simple -> Z,
            Shell.runLine exitOf (Index.syncCmd mountPath) =
              Some (if exitOf [] (Shell.mirrorCommand mountPath) =? 0
                    then ([Shell.mirrorCommand mountPath; Shell.markerCommand mountPath],
                          exitOf [Shell.mirrorCommand mountPath] (Shell.markerCommand mountPath))
                    else ([Shell.mirrorCommand mountPath],
                          exitOf [] (Shell.mirrorCommand mountPath)))).
  { intros exitOf. unfold Shell.runLine.
    rewrite (syncCmd_parse mountPath Hplain). cbn [option_map].
    rewrite Hexec. reflexivity. }
  assert (Hshell : forall exitOf : list Shell.Simple -> Shell.Simple -> Z,
            exists done,
              Shell.runLine exitOf (Index.syncCmd mountPath) = Some done
              /\ Shell.ran (Shell.mirrorCommand mountPath) done
              /\ (Shell.ran (Shell.markerCommand mountPath) done
                  <-> exitOf [] (Shell.mirrorCommand mountPath) = 0)).
  { intros exitOf. eexists. split; [apply Hline|]. unfold Shell.ran.
    destruct (Z.eqb_spec (exitOf [] (Shell.mirrorCommand mountPath)) 0) as [Hz|Hnz];
      cbn [fst].
    - split; [left; reflexivity|].
      split; [intros _; exact Hz | intros _; right; left; reflexivity].
    - split; [left; reflexivity|].
      split; [|intros Hz; contradiction].
      intros [Heq | []]. discriminate Heq. }
  split; [reflexivity|]. split; [exact (syncCmd_parse mountPath Hplain)|].
  split; [intros exitOf; rewrite Hexec;
          destruct (exitOf [] (Shell.mirrorCommand mountPath) =? 0); reflexivity|].
  split; [|split; [exact Hline|split]].
  - intros exitOf. unfold Shell.ran. rewrite Hexec.
    destruct (Z.eqb_spec (exitOf [] (Shell.mirrorCommand mountPath)) 0) as [Hz|Hnz];
      cbn [fst].
    + split; [intros _; exact Hz | intros _; right; left; reflexivity].
    + split; [|intros Hz; contradiction].
      intros [Heq | []]. discriminate Heq.
  - destruct (scheduled_starts mountPath gw getSandbox fuel env t Hfuel)
      as (r & d & Hrun & [(Hcred & Hmount & rest & -> & Hrest) | (Hnot & Hnone)]).
    + eexists r, _. split; [exact Hrun|]. cbn [startsOf]. rewrite Hrest.
      split; [right; reflexivity|].
      split; [split; [intros _; reflexivity | intros _; split; assumption]|].
      intros cmd [<- | []]. exact Hshell.
    + exists r, d. split; [exact Hrun|]. rewrite Hnone.
      split; [left; reflexivity|].
      split; [split; [intros H; contradiction | discriminate]|].
      intros cmd [].
  - destruct (postStorageSync_starts mountPath gw now fuel sandbox env t Hfuel)
      as (r & d & Hrun & [(Hcred & Hmount & rest & -> & Hrest) | (Hnot & Hnone)]).
    + eexists r, _. split; [exact Hrun|]. cbn [startsOf].
      split; [destruct Hrest as [-> | ->]; [right; left | right; right]; reflexivity|].
      split; [split; [intros _; eexists; reflexivity | intros _; split; assumption]|].
      intros cmd rest' Heq. injection Heq as <- _. exact Hshell.
    + exists r, d. split; [exact Hrun|]. rewrite Hnone.
      split; [left; reflexivity|].
      split; [split; [intros H; contradiction | intros [rest' H]; discriminate H]|].
      intros cmd rest' H. discriminate H.
Qed.

Lemma sync_command_mirrors_then_marks_witness :
  Shell.parse (Index.syncCmd "/data/clawdbot") =
    Some [{| Shell.argv := ["rsync"; "-a"; "--delete"; "--exclude=*.lock";
                            "--exclude=*.log"; "--exclude=*.tmp";
                            "/root/.clawdbot/"; "/data/clawdbot/"];
             Shell.stdoutTo := None |};
          {| Shell.argv := ["date"; "-Iseconds"];
             Shell.stdoutTo := Some "/data/clawdbot/.last-sync" |}]
  /\ (exists r d,
        Index.scheduled "/data/clawdbot" (Samples.gatewayUp None true)
          (fun _ _ => Samples.sandboxOf (Samples.doneProcess "p" EmptyString))
          61 Samples.envFull [] = (Some r, [] ++ d)
        /\ startsOf d = [Index.syncCmd "/data/clawdbot"])
  /\ (exists r d,
        Api.postStorageSync "/data/clawdbot" (Samples.gatewayUp None true) Samples.clock 61
          (Samples.sandboxOf (Samples.doneProcess "p" EmptyString))
          Samples.envFull [] = (Some r, [] ++ d)
        /\ exists rest, startsOf d = Api.syncCmd "/data/clawdbot" :: rest).
Proof.
  destruct (sync_command_mirrors_then_marks "/data/clawdbot"
              (Samples.gatewayUp None true)
              (fun _ _ => Samples.sandboxOf (Samples.doneProcess "p" EmptyString))
              Samples.clock 61
              (Samples.sandboxOf (Samples.doneProcess "p" EmptyString))
              Samples.envFull [] eq_refl (le_n 61))
    as (_ & Hparse & _ & _ & _ & (r & d & Hrun & _ & Hcron & _)
        & (r' & d' & Hrun' & _ & Hmanual & _)).
  split; [exact Hparse|]. split.
  - exists r, d. split; [exact Hrun|]. apply Hcron. split; reflexivity.
  - exists r', d'. split; [exact Hrun'|]. apply Hmanual. split; reflexivity.
Defined.


(** ** The storage mount manager *)

(** The mount manager never issues more than one mount command per call,
    and issues none without credentials. *)
Lemma ensureMounted_commands (mountCommand : nat -> MountManager.MountResult)
    (env : ClawdbotEnv) (c : MountManager.Container) :
  let c' := snd (MountManager.ensureMounted mountCommand env c) in
  (MountManager.mountCommands c <= MountManager.mountCommands c'
   <= S (MountManager.mountCommands c))%nat
  /\ (all_credentials env = false ->
      MountManager.ensureMounted mountCommand env c = (false, c)).
Proof.
  unfold MountManager.ensureMounted, MountManager.probeMounted.
  fold (all_credentials env).
  destruct (all_credentials env); cbn [negb].
  - destruct (MountManager.mounted c); cbn.
    + split; [lia | discriminate].
    + destruct (mountCommand (MountManager.mountCommands c)); cbn;
        (split; [lia | discriminate]).
  - cbn. split; [lia | reflexivity].
Qed.

(** C9. With the three credentials set, a call that finds the volume
    attached returns [true] and leaves the container as it is: no mount
    command.  Hence a call that returned [true] is followed by a call
    that returns [true] without a mount command, and two calls in a row,
    with credentials the mount command accepts, issue it at most once. *)
Theorem ensureMounted_idempotent :
  forall (mountCommand : nat -> MountManager.MountResult)
         (env : ClawdbotEnv) (c : MountManager.Container),
    all_credentials env = true ->
    (MountManager.mounted c = true ->
     MountManager.ensureMounted mountCommand env c = (true, c))
    /\ (forall c1,
          MountManager.ensureMounted mountCommand env c = (true, c1) ->
          MountManager.ensureMounted mountCommand env c1 = (true, c1)
          /\ (MountManager.mountCommands c1 <= S (MountManager.mountCommands c))%nat)
    /\ (MountManager.mounted c = true
        \/ mountCommand (MountManager.mountCommands c) = MountManager.MountOk ->
        exists c2,
          MountManager.ensureMountedTwice mountCommand env c = (true, true, c2)
          /\ (MountManager.mountCommands c2 <= S (MountManager.mountCommands c))%nat
          /\ (MountManager.mounted c = true ->
              MountManager.mountCommands c2 = MountManager.mountCommands c)).
Proof.
  intros mountCommand env c Hcred.
  assert (Hfast : forall c0, MountManager.mounted c0 = true ->
            MountManager.ensureMounted mountCommand env c0 = (true, c0)).
  { intros c0 Hm. unfold MountManager.ensureMounted, MountManager.probeMounted.
    fold (all_credentials env). rewrite Hcred, Hm. reflexivity. }
  assert (Hmounted : forall c1, MountManager.ensureMounted mountCommand env c = (true, c1) ->
            MountManager.mounted c1 = true
            /\ (MountManager.mountCommands c1 <= S (MountManager.mountCommands c))%nat).
  { intros c1. unfold MountManager.ensureMounted, MountManager.probeMounted.
    fold (all_credentials env). rewrite Hcred. cbn [negb].
    destruct (MountManager.mounted c) eqn:Hm.
    - intros [= <-]. split; [exact Hm | lia].
    - destruct (mountCommand (MountManager.mountCommands c)); intros [= <-].
      cbn. split; [reflexivity | lia]. }
  split; [exact (Hfast c)|]. split.
  - intros c1 Hfirst. destruct (Hmounted c1 Hfirst) as [Hm Hle].
    split; [exact (Hfast c1 Hm) | exact Hle].
  - intros Hvalid. unfold MountManager.ensureMountedTwice.
    destruct (MountManager.mounted c) eqn:Hm.
    + rewrite (Hfast c Hm), (Hfast c Hm). exists c.
      split; [reflexivity|]. split; [lia | reflexivity].
    + destruct Hvalid as [Hvalid|Hok]; [discriminate|].
      assert (Hfirst : MountManager.ensureMounted mountCommand env c =
                (true, {| MountManager.mounted := true;
                          MountManager.mountCommands := S (MountManager.mountCommands c);
                          MountManager.logged := MountManager.logged c |})).
      { unfold MountManager.ensureMounted, MountManager.probeMounted.
        fold (all_credentials env). rewrite Hcred, Hm, Hok. reflexivity. }
      rewrite Hfirst, Hfast by reflexivity.
      eexists. split; [reflexivity|]. split; [cbn; lia | discriminate].
Qed.

Lemma ensureMounted_idempotent_witness :
  exists c2,
    MountManager.ensureMountedTwice (fun _ => MountManager.MountOk) Samples.envFull
      {| MountManager.mounted := false; MountManager.mountCommands := 0;
         MountManager.logged := [] |} = (true, true, c2)
    /\ (MountManager.mountCommands c2 <= 1)%nat.
Proof.
  destruct (proj2 (proj2 (ensureMounted_idempotent (fun _ => MountManager.MountOk)
                            Samples.envFull
                            {| MountManager.mounted := false;
                               MountManager.mountCommands := 0;
                               MountManager.logged := [] |} eq_refl))
                  (or_intror eq_refl)) as (c2 & Hrun & Hle & _).
  exists c2. split; [exact Hrun | exact Hle].
Defined.

(** The limit of the idempotence: while the mount command keeps failing,
    each call issues it again. *)
Example ensureMounted_retries_a_failed_mount :
  MountManager.ensureMountedTwice (fun _ => MountManager.MountExit 1) Samples.envFull
    {| MountManager.mounted := false; MountManager.mountCommands := 0;
       MountManager.logged := [] |}
  = (false, false,
     {| MountManager.mounted := false; MountManager.mountCommands := 2;
        MountManager.logged := ["mount exited with a non-zero code";
                                "mount exited with a non-zero code"] |}).
Proof. reflexivity. Qed.


(** ** The gateway lifecycle manager *)

Lemma slotOf_insert_same (name : string) (s : Lifecycle.Slot)
    (m : gmap string Lifecycle.Slot) (res : list (string * nat * Lifecycle.Resolution)) :
  Lifecycle.slotOf name {| Lifecycle.slots := <[name := s]> m; Lifecycle.resolved := res |} = s.
Proof. unfold Lifecycle.slotOf. cbn. rewrite lookup_insert_eq. reflexivity. Qed.

Lemma slotOf_insert_other (name other : string) (s : Lifecycle.Slot)
    (m : gmap string Lifecycle.Slot) (res res' : list (string * nat * Lifecycle.Resolution)) :
  other <> name ->
  Lifecycle.slotOf name {| Lifecycle.slots := <[other := s]> m; Lifecycle.resolved := res |}
  = Lifecycle.slotOf name {| Lifecycle.slots := m; Lifecycle.resolved := res' |}.
Proof.
  intros Hne. unfold Lifecycle.slotOf. cbn.
  rewrite lookup_insert_ne by exact Hne. reflexivity.
Qed.

Lemma filter_named (name other : string) (outcome : Lifecycle.Resolution) (ws : list nat) :
  List.filter (fun x : string * nat * Lifecycle.Resolution => String.eqb (fst (fst x)) name)
    (map (fun c => (other, c, outcome)) ws)
  = if String.eqb other name then map (fun c => (other, c, outcome)) ws else [].
Proof.
  induction ws as [|w ws IH]; cbn.
  - destruct (String.eqb other name); reflexivity.
  - rewrite IH. destruct (String.eqb other name); reflexivity.
Qed.

(** A step of the sandbox [name] acts on its view as [localStep] does. *)
Lemma step_own (name : string) (e : Lifecycle.Step) (r : Lifecycle.Registry) :
  Lifecycle.stepName e = name ->
  (Lifecycle.slotOf name (Lifecycle.step e r), answersOf name (Lifecycle.step e r))
  = localStep e (Lifecycle.slotOf name r, answersOf name r).
Proof.
  intros <-. destruct e as [n c | n o]; cbn [Lifecycle.stepName Lifecycle.step localStep].
  - unfold Lifecycle.arrive.
    destruct (Lifecycle.pending (Lifecycle.slotOf n r)) as [ws|].
    + rewrite slotOf_insert_same. reflexivity.
    + destruct (Lifecycle.gatewayRunning (Lifecycle.slotOf n r)).
      * unfold answersOf. cbn. rewrite String.eqb_refl. reflexivity.
      * rewrite slotOf_insert_same. reflexivity.
  - unfold Lifecycle.settle.
    destruct (Lifecycle.pending (Lifecycle.slotOf n r)) as [ws|]; [|reflexivity].
    rewrite slotOf_insert_same. unfold answersOf. cbn [Lifecycle.resolved].
    rewrite List.filter_app, filter_named, String.eqb_refl. reflexivity.
Qed.

(** A step of another sandbox leaves the view of [name] alone. *)
Lemma step_other (name : string) (e : Lifecycle.Step) (r : Lifecycle.Registry) :
  Lifecycle.stepName e <> name ->
  Lifecycle.slotOf name (Lifecycle.step e r) = Lifecycle.slotOf name r
  /\ answersOf name (Lifecycle.step e r) = answersOf name r.
Proof.
  intros Hne. assert (Hneb : String.eqb (Lifecycle.stepName e) name = false)
    by (apply String.eqb_neq; exact Hne).
  destruct r as [m res].
  destruct e as [n c | n o]; cbn [Lifecycle.stepName Lifecycle.step] in *.
  - unfold Lifecycle.arrive.
    destruct (Lifecycle.pending _) as [ws|].
    + split; [apply slotOf_insert_other; exact Hne | reflexivity].
    + destruct (Lifecycle.gatewayRunning _).
      * split; [reflexivity|]. unfold answersOf. cbn. rewrite Hneb. reflexivity.
      * split; [apply slotOf_insert_other; exact Hne | reflexivity].
  - unfold Lifecycle.settle.
    destruct (Lifecycle.pending _) as [ws|]; [|split; reflexivity].
    split; [apply slotOf_insert_other; exact Hne|].
    unfold answersOf. cbn [Lifecycle.resolved].
    rewrite List.filter_app, filter_named, Hneb. reflexivity.
Qed.

(** The view of [name] after a schedule is the local run of its own steps. *)
Lemma run_view (name : string) (es : list Lifecycle.Step) :
  forall r : Lifecycle.Registry,
    (Lifecycle.slotOf name (Lifecycle.run es r), answersOf name (Lifecycle.run es r))
    = fold_left (fun v e => localStep e v) (Lifecycle.stepsOf name es)
        (Lifecycle.slotOf name r, answersOf name r).
Proof.
  induction es as [|e es IH]; intros r; [reflexivity|].
  change (Lifecycle.run (e :: es) r) with (Lifecycle.run es (Lifecycle.step e r)).
  rewrite IH. unfold Lifecycle.stepsOf. cbn [List.filter].
  destruct (String.eqb_spec (Lifecycle.stepName e) name) as [Heq|Hne].
  - cbn [fold_left]. rewrite <- (step_own name e r Heq). reflexivity.
  - destruct (step_other name e r Hne) as [-> ->]. reflexivity.
Qed.


(** Callers that arrive while an attempt is in flight attach to it: no
    spawn, no answer yet. *)
Lemma attach_all (name : string) (cs : list nat) :
  forall (s : Lifecycle.Slot) (ws : list nat)
         (answers : list (string * nat * Lifecycle.Resolution)),
    Lifecycle.pending s = Some ws ->
    fold_left (fun v e => localStep e v) (map (Lifecycle.Arrive name) cs) (s, answers)
    = ({| Lifecycle.gatewayRunning := Lifecycle.gatewayRunning s;
          Lifecycle.pending := Some (rev cs ++ ws);
          Lifecycle.spawns := Lifecycle.spawns s |}, answers).
Proof.
  induction cs as [|c cs IH]; intros s ws answers Hpending.
  - destruct s as [g p n]. cbn in *. rewrite Hpending. reflexivity.
  - cbn [map fold_left localStep]. rewrite Hpending.
    rewrite (IH {| Lifecycle.gatewayRunning := Lifecycle.gatewayRunning s;
                   Lifecycle.pending := Some (c :: ws);
                   Lifecycle.spawns := Lifecycle.spawns s |} (c :: ws) answers eq_refl).
    cbn [rev Lifecycle.gatewayRunning Lifecycle.spawns].
    rewrite <- app_assoc. reflexivity.
Qed.

(** One sandbox, no gateway, no attempt in flight: the first caller
    spawns, the others attach, and the settlement answers them all. *)
Lemma single_flight_local (name : string) (c : nat) (cs : list nat)
    (outcome : Lifecycle.Resolution) (s : Lifecycle.Slot)
    (answers : list (string * nat * Lifecycle.Resolution)) :
  Lifecycle.pending s = None ->
  Lifecycle.gatewayRunning s = false ->
  fold_left (fun v e => localStep e v)
    (map (Lifecycle.Arrive name) (c :: cs) ++ [Lifecycle.Settle name outcome]) (s, answers)
  = ({| Lifecycle.gatewayRunning :=
          match outcome with
          | Lifecycle.Ready => true
          | Lifecycle.StartupError _ => false
          end;
        Lifecycle.pending := None;
        Lifecycle.spawns := S (Lifecycle.spawns s) |},
     map (fun w => (name, w, outcome)) (rev cs ++ [c]) ++ answers).
Proof.
  intros Hpending Hrunning.
  rewrite fold_left_app. cbn [map fold_left]. cbn [localStep].
  rewrite Hpending, Hrunning.
  rewrite (attach_all name cs {| Lifecycle.gatewayRunning := false;
                                 Lifecycle.pending := Some [c];
                                 Lifecycle.spawns := S (Lifecycle.spawns s) |}
             [c] answers eq_refl).
  cbn [fold_left localStep Lifecycle.pending Lifecycle.spawns]. reflexivity.
Qed.

(** C1. Single flight.  Take a sandbox with no running gateway and no
    attempt in flight, and any schedule of the event loop in which the
    steps of that sandbox are N >= 1 arrivals at [ensureReady] followed by
    the settlement of the attempt, interleaved at will with steps of other
    sandboxes.  Then exactly one spawn happens for that sandbox, every one
    of the N callers is answered with the outcome of that attempt, nobody
    is answered anything else, and the token is cleared. *)
Theorem ensureReady_single_flight :
  forall (name : string) (callers : list nat) (outcome : Lifecycle.Resolution)
         (es : list Lifecycle.Step) (r : Lifecycle.Registry),
    callers <> [] ->
    Lifecycle.pending (Lifecycle.slotOf name r) = None ->
    Lifecycle.gatewayRunning (Lifecycle.slotOf name r) = false ->
    Lifecycle.stepsOf name es
      = map (Lifecycle.Arrive name) callers ++ [Lifecycle.Settle name outcome] ->
    let r' := Lifecycle.run es r in
    Lifecycle.spawns (Lifecycle.slotOf name r')
      = S (Lifecycle.spawns (Lifecycle.slotOf name r))
    /\ (forall c, In c callers -> In (name, c, outcome) (Lifecycle.resolved r'))
    /\ (forall c o, In (name, c, o) (Lifecycle.resolved r') ->
          In (name, c, o) (Lifecycle.resolved r) \/ (In c callers /\ o = outcome))
    /\ Lifecycle.pending (Lifecycle.slotOf name r') = None.
Proof.
  intros name callers outcome es r Hsome Hpending Hrunning Hsteps r'.
  destruct callers as [|c cs]; [contradiction|].
  pose proof (run_view name es r) as Hview. fold r' in Hview.
  rewrite Hsteps, (single_flight_local name c cs outcome _ _ Hpending Hrunning) in Hview.
  injection Hview as Hslot Hanswers.
  assert (Hin : forall x, In x (answersOf name r') <->
                          In x (Lifecycle.resolved r') /\ String.eqb (fst (fst x)) name = true)
    by (intros x; apply List.filter_In).
  assert (Hin0 : forall x, In x (answersOf name r) <->
                           In x (Lifecycle.resolved r) /\ String.eqb (fst (fst x)) name = true)
    by (intros x; apply List.filter_In).
  rewrite Hslot. cbn [Lifecycle.spawns Lifecycle.pending].
  split; [reflexivity|]. split; [|split; [|reflexivity]].
  - intros w Hw. apply (Hin (name, w, outcome)). rewrite Hanswers.
    apply in_or_app. left. apply in_map_iff. exists w. split; [reflexivity|].
    apply in_or_app. destruct Hw as [<-|Hw]; [right; left; reflexivity|].
    left. apply in_rev in Hw. exact Hw.
  - intros w o Hw.
    assert (Hw' : In (name, w, o) (answersOf name r'))
      by (apply Hin; split; [exact Hw | cbn; apply String.eqb_refl]).
    rewrite Hanswers in Hw'. apply in_app_or in Hw' as [Hnew|Hold].
    + right. apply in_map_iff in Hnew as (w' & Heq & Hw').
      injection Heq as <- <-. split; [|reflexivity].
      apply in_app_or in Hw' as [Hw'|[<-|[]]]; [|left; reflexivity].
      right. apply in_rev. exact Hw'.
    + left. apply Hin0 in Hold. exact (proj1 Hold).
Qed.

Lemma ensureReady_single_flight_witness :
  let r' := Lifecycle.run
              [Lifecycle.Arrive "clawdbot" 1; Lifecycle.Arrive "other" 7;
               Lifecycle.Arrive "clawdbot" 2; Lifecycle.Arrive "clawdbot" 3;
               Lifecycle.Settle "other" Lifecycle.Ready;
               Lifecycle.Settle "clawdbot" (Lifecycle.StartupError "timeout")]
              {| Lifecycle.slots := ∅; Lifecycle.resolved := [] |} in
  Lifecycle.spawns (Lifecycle.slotOf "clawdbot" r') = 1%nat
  /\ (forall c, In c [1; 2; 3]%nat ->
        In ("clawdbot", c, Lifecycle.StartupError "timeout") (Lifecycle.resolved r')).
Proof.
  intros r'.
  destruct (ensureReady_single_flight "clawdbot" [1; 2; 3]%nat
              (Lifecycle.StartupError "timeout")
              [Lifecycle.Arrive "clawdbot" 1; Lifecycle.Arrive "other" 7;
               Lifecycle.Arrive "clawdbot" 2; Lifecycle.Arrive "clawdbot" 3;
               Lifecycle.Settle "other" Lifecycle.Ready;
               Lifecycle.Settle "clawdbot" (Lifecycle.StartupError "timeout")]
              {| Lifecycle.slots := ∅; Lifecycle.resolved := [] |}
              ltac:(discriminate) eq_refl eq_refl eq_refl)
    as (Hspawn & Hall & _).
  split; [exact Hspawn | exact Hall].
Defined.

(** * Further properties of the embedded code *)

(** ** [waitForProcess] at its edges *)

(** X1. A timeout of zero or less gives no attempt at all: [waitForProcess]
    returns at once, without a sleep and without looking at the process. *)
Theorem waitForProcess_without_budget :
  forall (proc : Process) (timeoutMs : Z) (fuel : nat) (t : Trace),
    (1 <= fuel)%nat ->
    timeoutMs <= 0 ->
    Api.waitForProcess fuel proc timeoutMs t = (Some (Ok tt), t).
Proof.
  intros proc timeoutMs fuel t Hfuel Htime.
  pose proof (ceil_div_500 timeoutMs) as Hceil.
  destruct (waitForProcess_returns proc timeoutMs fuel t) as (k & Hk & Hrun & _);
    [lia|].
  assert (k = 0%nat) as -> by lia.
  rewrite Hrun. cbn [repeat]. rewrite app_nil_r. reflexivity.
Qed.

Lemma waitForProcess_without_budget_witness :
  Api.waitForProcess 1 (Samples.stuckProcess "p") 0 [] = (Some (Ok tt), []).
Proof.
  apply (waitForProcess_without_budget (Samples.stuckProcess "p") 0 1 []); lia.
Defined.

(** X2. With a positive timeout [waitForProcess] sleeps before it looks: at
    least one interval passes even when the process has already finished,
    exactly one when the process is seen not running after the first
    sleep, and the sleeps add up to less than the timeout plus one
    interval. *)
Theorem waitForProcess_sleeps_first :
  forall (proc : Process) (timeoutMs : Z) (fuel : nat) (t : Trace),
    0 < timeoutMs ->
    (Z.to_nat (Api.ceil_div timeoutMs 500) < fuel)%nat ->
    exists k : nat,
      Api.waitForProcess fuel proc timeoutMs t = (Some (Ok tt), t ++ repeat (ESleep 500) k)
      /\ (1 <= k)%nat
      /\ 500 * Z.of_nat k < timeoutMs + 500
      /\ (is_running (proc_status proc (t ++ [ESleep 500])) = false -> k = 1%nat).
Proof.
  intros proc timeoutMs fuel t Htime Hfuel.
  pose proof (ceil_div_500 timeoutMs) as Hceil.
  destruct (waitForProcess_returns proc timeoutMs fuel t Hfuel)
    as (k & Hk & Hrun & Hexit & Hbefore).
  exists k. split; [exact Hrun|].
  assert (Hpos : (1 <= k)%nat) by (destruct Hexit as [-> | [Hpos _]]; lia).
  split; [exact Hpos|]. split; [lia|].
  intros Hstopped.
  destruct (Nat.eq_dec k 1%nat) as [Hone|Hmore]; [exact Hone|].
  assert (Hrunning := Hbefore 1%nat ltac:(lia)).
  cbn [repeat] in Hrunning. congruence.
Qed.

Lemma waitForProcess_sleeps_first_witness :
  exists k : nat,
    Api.waitForProcess 41 (Samples.doneProcess "p" EmptyString) 20000 [] =
      (Some (Ok tt), [] ++ repeat (ESleep 500) k)
    /\ (1 <= k)%nat.
Proof.
  destruct (waitForProcess_sleeps_first (Samples.doneProcess "p" EmptyString) 20000 41 [])
    as (k & Hrun & Hpos & _); [lia | vm_compute; lia |].
  exists k. split; [exact Hrun | exact Hpos].
Defined.

(** ** The verdict of the cron handler *)

(** The cron handler from the start of the sync process on. *)
Lemma scheduled_after_start :
  forall (mountPath : string) (gw : Gateway)
         (getSandbox : string -> Index.SandboxOptions -> Sandbox)
         (fuel : nat) (env : ClawdbotEnv) (t : Trace) (proc : Process),
    (61 <= fuel)%nat ->
    all_credentials env = true ->
    gw_mountR2Storage gw (getSandbox "clawdbot" (Index.buildSandboxOptions env)) env
      (t ++ [EMount]) = Ok true ->
    sb_startProcess (getSandbox "clawdbot" (Index.buildSandboxOptions env))
      (Index.syncCmd mountPath)
      (t ++ [EMount; ELog LInfo [AStr "[cron] Starting backup sync to R2..."];
             EStartProcess (Index.syncCmd mountPath)]) = Ok proc ->
    exists k : nat,
      let waited := t ++ EMount :: ELog LInfo [AStr "[cron] Starting backup sync to R2..."]
                      :: EStartProcess (Index.syncCmd mountPath)
                      :: repeat (ESleep 500) k in
      let tr := waited ++ [EGetLogs (proc_id proc)] in
      (k <= 60)%nat
      /\ (is_running (proc_status proc waited) = false \/ k = 60%nat)
      /\ (forall logs,
            proc_getLogs proc tr = Ok logs ->
            Index.scheduled mountPath gw getSandbox fuel env t =
              (Some (Ok tt),
               tr ++ [if is_completed (proc_status proc tr) || exit_zero (proc_exitCode proc tr)
                      then ELog LInfo [AStr "[cron] Backup sync completed successfully"]
                      else ELog LErr [AStr "[cron] Backup sync failed:";
                                      AOpt (or_opt (stderr logs) (stdout logs))]]))
      /\ (forall e,
            proc_getLogs proc tr = Throw e ->
            Index.scheduled mountPath gw getSandbox fuel env t =
              (Some (Ok tt),
               tr ++ [ELog LErr [AStr "[cron] Error during backup sync:"; AThrown e]])).
Proof.
  intros mountPath gw getSandbox fuel env t proc Hfuel Hcred Hmount Hstart.
  set (sb := getSandbox "clawdbot" (Index.buildSandboxOptions env)) in *.
  cbn [app] in Hstart.
  destruct (syncWait_from proc 60 0 fuel
              (t ++ [EMount; ELog LInfo [AStr "[cron] Starting backup sync to R2..."];
                     EStartProcess (Index.syncCmd mountPath)]))
    as (k & Hk & Hloop & Hexit & _); [lia | lia | lia |].
  exists k. intros waited tr.
  assert (Hwaited : (t ++ [EMount; ELog LInfo [AStr "[cron] Starting backup sync to R2..."];
                           EStartProcess (Index.syncCmd mountPath)])
                    ++ repeat (ESleep 500) k = waited)
    by (subst waited; trace_norm; reflexivity).
  rewrite Hwaited in Hloop, Hexit.
  split; [lia|]. split; [destruct Hexit as [Hstop|Hfull]; [left; exact Hstop | right; lia]|].
  assert (Hprefix : forall (logsOutcome : Outcome Logs),
            proc_getLogs proc tr = logsOutcome ->
            Index.scheduled mountPath gw getSandbox fuel env t =
              match logsOutcome with
              | Ok logs =>
                  (Some (Ok tt),
                   tr ++ [if is_completed (proc_status proc tr)
                             || exit_zero (proc_exitCode proc tr)
                          then ELog LInfo [AStr "[cron] Backup sync completed successfully"]
                          else ELog LErr [AStr "[cron] Backup sync failed:";
                                          AOpt (or_opt (stderr logs) (stdout logs))]])
              | Throw e =>
                  (Some (Ok tt),
                   tr ++ [ELog LErr [AStr "[cron] Error during backup sync:"; AThrown e]])
              end).
  { intros logsOutcome Hlogs.
    unfold Index.scheduled. rewrite credentials_guard, Hcred. cbn [negb].
    fold sb. unfold bind at 1. unfold call at 1. rewrite Hmount. cbn [negb].
    unfold try_catch. unfold bind at 1. unfold console, call at 1.
    unfold bind at 1. unfold startProcess, call at 1. trace_norm. rewrite Hstart.
    unfold bind at 1. unfold Index.syncWait. cbn [app] in Hloop. rewrite Hloop.
    unfold bind at 1. unfold getLogs, call at 1. fold tr. rewrite Hlogs.
    destruct logsOutcome as [logs|e].
    - unfold bind at 1. unfold status, peek at 1.
      unfold bind at 1. unfold exitCode, peek at 1.
      destruct (is_completed (proc_status proc tr) || exit_zero (proc_exitCode proc tr));
        reflexivity.
    - reflexivity. }
  split.
  - intros logs Hlogs. exact (Hprefix (Ok logs) Hlogs).
  - intros e Hlogs. exact (Hprefix (Throw e) Hlogs).
Qed.

(** X3. Once the sync process is started, the cron handler polls it, reads its
    logs, and then judges by what the process shows at that moment:
    [completed] or exit code 0 is logged as a success whatever the other
    of the two says, anything else as a failure with the captured output.
    The polling stopped because the process was seen not running or
    because 60 sleeps had passed; a rejection of [getLogs] is logged as an
    error.  In each case the handler resolves normally. *)
Theorem scheduled_verdict :
  forall (mountPath : string) (gw : Gateway)
         (getSandbox : string -> Index.SandboxOptions -> Sandbox)
         (fuel : nat) (env : ClawdbotEnv) (t : Trace) (proc : Process),
    (61 <= fuel)%nat ->
    all_credentials env = true ->
    gw_mountR2Storage gw (getSandbox "clawdbot" (Index.buildSandboxOptions env)) env
      (t ++ [EMount]) = Ok true ->
    sb_startProcess (getSandbox "clawdbot" (Index.buildSandboxOptions env))
      (Index.syncCmd mountPath)
      (t ++ [EMount; ELog LInfo [AStr "[cron] Starting backup sync to R2..."];
             EStartProcess (Index.syncCmd mountPath)]) = Ok proc ->
    exists k : nat,
      let waited := t ++ EMount :: ELog LInfo [AStr "[cron] Starting backup sync to R2..."]
                      :: EStartProcess (Index.syncCmd mountPath)
                      :: repeat (ESleep 500) k in
      let tr := waited ++ [EGetLogs (proc_id proc)] in
      (k <= 60)%nat
      /\ (is_running (proc_status proc waited) = false \/ k = 60%nat)
      /\ (forall logs,
            proc_getLogs proc tr = Ok logs ->
            Index.scheduled mountPath gw getSandbox fuel env t =
              (Some (Ok tt),
               tr ++ [if is_completed (proc_status proc tr) || exit_zero (proc_exitCode proc tr)
                      then ELog LInfo [AStr "[cron] Backup sync completed successfully"]
                      else ELog LErr [AStr "[cron] Backup sync failed:";
                                      AOpt (or_opt (stderr logs) (stdout logs))]]))
      /\ (forall e,
            proc_getLogs proc tr = Throw e ->
            Index.scheduled mountPath gw getSandbox fuel env t =
              (Some (Ok tt),
               tr ++ [ELog LErr [AStr "[cron] Error during backup sync:"; AThrown e]])).
Proof.
  intros mountPath gw getSandbox fuel env t proc Hfuel Hcred Hmount Hstart.
  exact (scheduled_after_start mountPath gw getSandbox fuel env t proc
           Hfuel Hcred Hmount Hstart).
Qed.

Lemma exit_zero_false (code : option Z) : code <> Some 0 -> exit_zero code = false.
Proof.
  destruct code as [[| |]|]; intros H; try reflexivity. contradiction.
Qed.

(** X4. A sync that is still running after the 60 sleeps is not told apart
    from one that failed: the cron handler logs 'Backup sync failed' with
    whatever output was captured, leaves the process alone, and resolves
    normally. *)
Theorem scheduled_timeout_is_logged_as_failure :
  forall (mountPath : string) (gw : Gateway)
         (getSandbox : string -> Index.SandboxOptions -> Sandbox)
         (fuel : nat) (env : ClawdbotEnv) (t : Trace) (proc : Process) (logs : Logs),
    (61 <= fuel)%nat ->
    all_credentials env = true ->
    gw_mountR2Storage gw (getSandbox "clawdbot" (Index.buildSandboxOptions env)) env
      (t ++ [EMount]) = Ok true ->
    sb_startProcess (getSandbox "clawdbot" (Index.buildSandboxOptions env))
      (Index.syncCmd mountPath)
      (t ++ [EMount; ELog LInfo [AStr "[cron] Starting backup sync to R2..."];
             EStartProcess (Index.syncCmd mountPath)]) = Ok proc ->
    (forall tr, proc_status proc tr = Running) ->
    (forall tr, proc_exitCode proc tr <> Some 0) ->
    (forall tr, proc_getLogs proc tr = Ok logs) ->
    Index.scheduled mountPath gw getSandbox fuel env t =
      (Some (Ok tt),
       t ++ [EMount; ELog LInfo [AStr "[cron] Starting backup sync to R2..."];
             EStartProcess (Index.syncCmd mountPath)]
         ++ repeat (ESleep 500) 60
         ++ [EGetLogs (proc_id proc);
             ELog LErr [AStr "[cron] Backup sync failed:";
                        AOpt (or_opt (stderr logs) (stdout logs))]]).
Proof.
  intros mountPath gw getSandbox fuel env t proc logs
    Hfuel Hcred Hmount Hstart Hrunning Hcode Hlogs.
  destruct (scheduled_after_start mountPath gw getSandbox fuel env t proc
              Hfuel Hcred Hmount Hstart) as (k & _ & Hexit & Hverdict & _).
  destruct Hexit as [Hstop | ->]; [rewrite Hrunning in Hstop; discriminate|].
  rewrite (Hverdict logs (Hlogs _)).
  rewrite Hrunning, (exit_zero_false _ (Hcode _)). cbn [is_completed orb].
  trace_norm. reflexivity.
Qed.

Lemma scheduled_timeout_is_logged_as_failure_witness :
  Index.scheduled Samples.mountPath (Samples.gatewayUp None true)
    (fun _ _ => Samples.sandboxOf (Samples.stuckProcess "sync")) 61 Samples.envFull [] =
    (Some (Ok tt),
     [] ++ [EMount; ELog LInfo [AStr "[cron] Starting backup sync to R2..."];
            EStartProcess (Index.syncCmd Samples.mountPath)]
        ++ repeat (ESleep 500) 60
        ++ [EGetLogs "sync";
            ELog LErr [AStr "[cron] Backup sync failed:"; AOpt None]]).
Proof.
  apply (scheduled_timeout_is_logged_as_failure Samples.mountPath (Samples.gatewayUp None true)
           (fun _ _ => Samples.sandboxOf (Samples.stuckProcess "sync")) 61 Samples.envFull []
           (Samples.stuckProcess "sync") {| stdout := None; stderr := None |}).
  - apply le_n.
  - reflexivity.
  - reflexivity.
  - reflexivity.
  - intros tr. reflexivity.
  - intros tr. discriminate.
  - intros tr. reflexivity.
Defined.

Lemma scheduled_verdict_witness :
  exists k : nat,
    (k <= 60)%nat
    /\ (is_running (proc_status (Samples.doneProcess "sync" "ok")
          ([] ++ EMount :: ELog LInfo [AStr "[cron] Starting backup sync to R2..."]
              :: EStartProcess (Index.syncCmd Samples.mountPath)
              :: repeat (ESleep 500) k)) = false \/ k = 60%nat).
Proof.
  destruct (scheduled_verdict Samples.mountPath (Samples.gatewayUp None true)
              (fun _ _ => Samples.sandboxOf (Samples.doneProcess "sync" "ok"))
              61 Samples.envFull [] (Samples.doneProcess "sync" "ok")
              (le_n 61) eq_refl eq_refl eq_refl) as (k & Hk & Hexit & _).
  exists k. split; [exact Hk | exact Hexit].
Defined.

(** ** The manual sync at its limits *)

(** X6. The manual sync gives a sync process 30 s: one that is still running
    after 60 sleeps of 500 ms is answered as 500 'Sync failed', with the
    output captured so far, and is left running. *)
Theorem manual_sync_timeout_is_failure :
  forall (mountPath : string) (gw : Gateway) (now : Trace -> string)
         (fuel : nat) (sandbox : Sandbox) (env : ClawdbotEnv) (t : Trace)
         (proc : Process) (logs : Logs),
    (61 <= fuel)%nat ->
    all_credentials env = true ->
    gw_mountR2Storage gw sandbox env (t ++ [EMount]) = Ok true ->
    sb_startProcess sandbox (Api.syncCmd mountPath)
      (t ++ [EMount; EStartProcess (Api.syncCmd mountPath)]) = Ok proc ->
    (forall tr, proc_status proc tr = Running) ->
    (forall tr, proc_exitCode proc tr <> Some 0) ->
    (forall tr, proc_getLogs proc tr = Ok logs) ->
    Api.postStorageSync mountPath gw now fuel sandbox env t =
      (Some (Ok (RJson 500 (JObj ([("success", JBool false); ("error", JStr "Sync failed")]
                                  ++ field_opt "details" (or_opt (stderr logs) (stdout logs)))))),
       t ++ [EMount; EStartProcess (Api.syncCmd mountPath)]
         ++ repeat (ESleep 500) 60 ++ [EGetLogs (proc_id proc)]).
Proof.
  intros mountPath gw now fuel sandbox env t proc logs
    Hfuel Hcred Hmount Hstart Hrunning Hcode Hlogs.
  destruct (waitForProcess_returns proc 30000 fuel
              (t ++ [EMount; EStartProcess (Api.syncCmd mountPath)]))
    as (k & _ & Hwait & Hexit & _); [vm_compute; lia |].
  destruct Hexit as [-> | [_ Hstop]]; [|rewrite Hrunning in Hstop; discriminate].
  change (Z.to_nat (Api.ceil_div 30000 500)) with 60%nat in Hwait.
  cbn [app] in Hstart, Hwait.
  set (tr := t ++ EMount :: EStartProcess (Api.syncCmd mountPath)
               :: repeat (ESleep 500) 60 ++ [EGetLogs (proc_id proc)]).
  assert (Hlogs' : proc_getLogs proc tr = Ok logs) by apply Hlogs.
  assert (Hverdict : is_completed (proc_status proc tr) || exit_zero (proc_exitCode proc tr)
                     = false)
    by (rewrite Hrunning, (exit_zero_false _ (Hcode _)); reflexivity).
  sync_prefix Hcred Hmount Hstart Hwait Hlogs' Hverdict tr.
  subst tr. trace_norm. reflexivity.
Qed.

Lemma manual_sync_timeout_is_failure_witness :
  Api.postStorageSync Samples.mountPath (Samples.gatewayUp None true) Samples.clock 61
    (Samples.sandboxOf (Samples.stuckProcess "sync")) Samples.envFull [] =
    (Some (Ok (RJson 500 (JObj [("success", JBool false); ("error", JStr "Sync failed")]))),
     [] ++ [EMount; EStartProcess (Api.syncCmd Samples.mountPath)]
        ++ repeat (ESleep 500) 60 ++ [EGetLogs "sync"]).
Proof.
  apply (manual_sync_timeout_is_failure Samples.mountPath (Samples.gatewayUp None true)
           Samples.clock 61 (Samples.sandboxOf (Samples.stuckProcess "sync"))
           Samples.envFull [] (Samples.stuckProcess "sync")
           {| stdout := None; stderr := None |}).
  - apply le_n.
  - reflexivity.
  - reflexivity.
  - reflexivity.
  - intros tr. reflexivity.
  - intros tr. discriminate.
  - intros tr. reflexivity.
Defined.

Lemma mountsOf_app (a b : Trace) : mountsOf (a ++ b) = (mountsOf a + mountsOf b)%nat.
Proof.
  induction a as [|e a IH]; [reflexivity|].
  destruct e; simpl; rewrite IH; reflexivity.
Qed.

Lemma mountsOf_repeat_sleep (ms : Z) (k : nat) : mountsOf (repeat (ESleep ms) k) = 0%nat.
Proof. induction k as [|k IH]; simpl; [reflexivity | exact IH]. Qed.

Ltac observe_all :=
  repeat first
    [ rewrite sleepsOf_app | rewrite killsOf_app | rewrite startsOf_app | rewrite mountsOf_app
    | rewrite sleepsOf_repeat | rewrite killsOf_repeat_sleep
    | rewrite startsOf_repeat_sleep | rewrite mountsOf_repeat_sleep | rewrite app_nil_r
    | progress cbn [sleepsOf killsOf startsOf mountsOf app Nat.add] ].

(** X7. Whatever the sandbox does, a manual sync asks for no kill, calls the
    mount manager at most once, and sleeps in steps of 500 ms, at most 70
    of them: 60 for the sync process and 10 for reading the marker back. *)
Theorem manual_sync_is_bounded :
  forall (mountPath : string) (gw : Gateway) (now : Trace -> string)
         (fuel : nat) (sandbox : Sandbox) (env : ClawdbotEnv) (t : Trace),
    (61 <= fuel)%nat ->
    exists (r : Outcome Response) (d : Trace) (k : nat),
      Api.postStorageSync mountPath gw now fuel sandbox env t = (Some r, t ++ d)
      /\ killsOf d = []
      /\ (mountsOf d <= 1)%nat
      /\ sleepsOf d = repeat 500 k
      /\ (k <= 70)%nat.
Proof.
  intros mountPath gw now fuel sandbox env t Hfuel.
  unfold Api.postStorageSync. rewrite credentials_guard.
  destruct (all_credentials env); cbn [negb].
  2:{ eexists _, [], 0%nat. rewrite app_nil_r. split; [reflexivity|].
      repeat split; cbn; lia. }
  unfold try_catch. unfold bind at 1. unfold call at 1.
  destruct (gw_mountR2Storage gw sandbox env (t ++ [EMount])) as [[|]|e]; cbn [negb].
  2,3: (eexists _, [EMount], 0%nat; split; [reflexivity|]; repeat split; cbn; lia).
  unfold bind at 1. unfold startProcess, call at 1. trace_norm.
  destruct (sb_startProcess sandbox (Api.syncCmd mountPath) _) as [proc|e].
  2:{ eexists _, [EMount; EStartProcess _], 0%nat. split; [reflexivity|].
      repeat split; cbn; lia. }
  unfold bind at 1.
  match goal with
  | |- context [Api.waitForProcess fuel proc 30000 ?tr] =>
      destruct (waitForProcess_returns proc 30000 fuel tr) as (k & Hk & Hwait & _);
        [vm_compute; lia |]; rewrite Hwait
  end.
  assert (Hk60 : (k <= 60)%nat) by (revert Hk; vm_compute (Api.ceil_div 30000 500); lia).
  unfold bind at 1. unfold getLogs, call at 1. trace_norm.
  destruct (proc_getLogs proc _) as [logs|e].
  2:{ eexists _, (EMount :: EStartProcess _ :: repeat (ESleep 500) k ++ [EGetLogs _]), k.
      split; [reflexivity|]. observe_all. repeat split; lia. }
  unfold bind at 1. unfold status, peek at 1.
  unfold bind at 1. unfold exitCode, peek at 1.
  destruct (is_completed _ || exit_zero _).
  2:{ eexists _, (EMount :: EStartProcess _ :: repeat (ESleep 500) k ++ [EGetLogs _]), k.
      split; [reflexivity|]. observe_all. repeat split; lia. }
  unfold bind at 1. unfold startProcess, call at 1. trace_norm.
  destruct (sb_startProcess sandbox _ _) as [tproc|e].
  2:{ eexists _, (EMount :: EStartProcess _ :: repeat (ESleep 500) k
                    ++ [EGetLogs _; EStartProcess _]), k.
      split; [reflexivity|]. observe_all. repeat split; lia. }
  unfold bind at 1.
  match goal with
  | |- context [Api.waitForProcess fuel tproc 5000 ?tr] =>
      destruct (waitForProcess_returns tproc 5000 fuel tr) as (k2 & Hk2 & Hwait2 & _);
        [vm_compute; lia |]; rewrite Hwait2
  end.
  assert (Hk10 : (k2 <= 10)%nat) by (revert Hk2; vm_compute (Api.ceil_div 5000 500); lia).
  unfold bind at 1. unfold getLogs, call at 1. trace_norm.
  destruct (proc_getLogs tproc _) as [tlogs|e].
  2:{ eexists _, (EMount :: EStartProcess _ :: repeat (ESleep 500) k
                    ++ EGetLogs _ :: EStartProcess _ :: repeat (ESleep 500) k2
                    ++ [EGetLogs _]), (k + k2)%nat.
      split; [reflexivity|]. observe_all. rewrite <- repeat_app. repeat split; lia. }
  unfold bind, call, ret.
  destruct (truthy (option_map trim (stdout tlogs))).
  - eexists _, (EMount :: EStartProcess _ :: repeat (ESleep 500) k
                  ++ EGetLogs _ :: EStartProcess _ :: repeat (ESleep 500) k2
                  ++ [EGetLogs _]), (k + k2)%nat.
    split; [reflexivity|]. observe_all. rewrite <- repeat_app. repeat split; lia.
  - eexists _, (EMount :: EStartProcess _ :: repeat (ESleep 500) k
                  ++ EGetLogs _ :: EStartProcess _ :: repeat (ESleep 500) k2
                  ++ [EGetLogs _; ENow]), (k + k2)%nat.
    split; [trace_norm; reflexivity|]. observe_all. rewrite <- repeat_app.
    repeat split; lia.
Qed.

Lemma manual_sync_is_bounded_witness :
  exists (r : Outcome Response) (d : Trace) (k : nat),
    Api.postStorageSync Samples.mountPath (Samples.gatewayUp None true) Samples.clock 61
      (Samples.sandboxOf (Samples.stuckProcess "sync")) Samples.envFull [] = (Some r, [] ++ d)
    /\ killsOf d = []
    /\ (k <= 70)%nat.
Proof.
  destruct (manual_sync_is_bounded Samples.mountPath (Samples.gatewayUp None true)
              Samples.clock 61 (Samples.sandboxOf (Samples.stuckProcess "sync"))
              Samples.envFull [] (le_n 61)) as (r & d & k & Hrun & Hkill & _ & _ & Hk).
  exists r, d, k. split; [exact Hrun|]. split; [exact Hkill | exact Hk].
Defined.

(** ** The restart route as a whole *)

(** X8. The restart route always answers, with 200 or 500, and 500 only when
    the lookup of the existing process rejects; then nothing is killed and
    no gateway is started.  With 200 exactly one start is handed to the
    background.  The route kills at most one process, the one it found,
    sleeps 2000 ms when it found one and not at all otherwise, and runs no
    command in the sandbox. *)
Theorem restart_always_answers :
  forall (gw : Gateway) (sandbox : Sandbox) (env : ClawdbotEnv) (t : Trace),
    exists (s : Z) (body : Json) (d : Trace),
      Api.postGatewayRestart gw sandbox env t = (Some (Ok (RJson s body)), t ++ d)
      /\ (s = 200 \/ s = 500)
      /\ (s = 500 <->
          exists e, gw_findExistingClawdbotProcess gw sandbox (t ++ [EFind]) = Throw e)
      /\ (s = 500 -> d = [EFind])
      /\ (s = 200 -> backgroundStartsOf d = 1%nat)
      /\ startsOf d = []
      /\ (forall p,
            gw_findExistingClawdbotProcess gw sandbox (t ++ [EFind]) = Ok (Some p) ->
            killsOf d = [proc_id p] /\ sleepsOf d = [2000])
      /\ (gw_findExistingClawdbotProcess gw sandbox (t ++ [EFind]) = Ok None ->
          killsOf d = [] /\ sleepsOf d = []).
Proof.
  intros gw sandbox env t.
  unfold Api.postGatewayRestart, try_catch.
  unfold bind at 1. unfold call at 1.
  destruct (gw_findExistingClawdbotProcess gw sandbox (t ++ [EFind])) as [[p|]|e].
  - unfold bind at 1. unfold bind at 1. unfold console, call at 1.
    unfold bind at 1. unfold try_catch, kill, call at 1. trace_norm.
    destruct (proc_kill p _) as [[]|killErr];
      unfold sleep, bind, call, ret; cbn [option_map field field_opt]; trace_norm.
    + eexists 200, _, _. split; [reflexivity|].
      split; [left; reflexivity|].
      split; [split; [discriminate | intros [e He]; discriminate]|].
      split; [discriminate|]. cbn.
      split; [reflexivity|]. split; [reflexivity|].
      split; [intros p' [= <-]; split; reflexivity | discriminate].
    + eexists 200, _, _. split; [reflexivity|].
      split; [left; reflexivity|].
      split; [split; [discriminate | intros [e He]; discriminate]|].
      split; [discriminate|]. cbn.
      split; [reflexivity|]. split; [reflexivity|].
      split; [intros p' [= <-]; split; reflexivity | discriminate].
  - unfold bind, call, ret. cbn [option_map field field_opt]. trace_norm.
    eexists 200, _, _. split; [reflexivity|].
    split; [left; reflexivity|].
    split; [split; [discriminate | intros [e He]; discriminate]|].
    split; [discriminate|]. cbn.
    split; [reflexivity|]. split; [reflexivity|].
    split; [discriminate | intros _; split; reflexivity].
  - eexists 500, _, _. split; [reflexivity|].
    split; [right; reflexivity|].
    split; [split; [intros _; exists e; reflexivity | reflexivity]|].
    split; [reflexivity|]. split; [discriminate|]. cbn.
    split; [reflexivity|]. split; discriminate.
Qed.

(** ** Finding the JSON object in the CLI output *)

Lemma hasChar_app (c : ascii) (a b : string) :
  hasChar c (a ++ b)%string = hasChar c a || hasChar c b.
Proof.
  induction a as [|x a IH]; [reflexivity|].
  rewrite append_cons. cbn [hasChar]. rewrite IH, orb_assoc. reflexivity.
Qed.

Lemma afterFirstOpen_some (s rest : string) :
  Devices.afterFirstOpen s = Some rest <->
  exists before, s = (before ++ String "{" rest)%string /\ hasChar "{" before = false.
Proof.
  revert rest. induction s as [|x s IH]; intros rest; cbn [Devices.afterFirstOpen].
  - split; [discriminate|]. intros ([|y before] & H & _); discriminate H.
  - destruct (Ascii.eqb_spec x "{"%char) as [->|Hne].
    + split.
      * intros [= <-]. exists EmptyString. split; reflexivity.
      * intros ([|y before] & H & Hno).
        -- rewrite append_nil_l in H. injection H as <-. reflexivity.
        -- rewrite append_cons in H. injection H as <- _.
           cbn in Hno. discriminate.
    + rewrite IH. split.
      * intros (before & -> & Hno). exists (String x before). split; [reflexivity|].
        cbn [hasChar]. rewrite Hno, orb_false_r. apply Ascii.eqb_neq. exact Hne.
      * intros ([|y before] & H & Hno).
        -- rewrite append_nil_l in H. injection H as -> _. contradiction.
        -- rewrite append_cons in H. injection H as <- ->.
           exists before. split; [reflexivity|].
           cbn [hasChar] in Hno. apply orb_false_iff in Hno. exact (proj2 Hno).
Qed.

Lemma afterFirstOpen_none (s : string) :
  Devices.afterFirstOpen s = None <-> hasChar "{" s = false.
Proof.
  induction s as [|x s IH]; cbn [Devices.afterFirstOpen hasChar]; [tauto|].
  destruct (Ascii.eqb x "{"); cbn [orb]; [split; discriminate | exact IH].
Qed.

Lemma uptoLastClose_none (s : string) :
  Devices.uptoLastClose s = None <-> hasChar "}" s = false.
Proof.
  induction s as [|x s IH]; cbn [Devices.uptoLastClose hasChar]; [tauto|].
  destruct (Devices.uptoLastClose s) as [r|].
  - split; [discriminate|]. intros H. apply orb_false_iff in H as [_ H].
    apply IH in H. discriminate.
  - destruct (Ascii.eqb x "}"); cbn [orb]; [split; discriminate|].
    split; [intros _; apply IH; reflexivity | reflexivity].
Qed.

Lemma uptoLastClose_some (s r : string) :
  Devices.uptoLastClose s = Some r <->
  exists inner after,
    s = (inner ++ String "}" after)%string /\ hasChar "}" after = false
    /\ r = (inner ++ "}")%string.
Proof.
  revert r. induction s as [|x s IH]; intros r; cbn [Devices.uptoLastClose].
  - split; [discriminate|]. intros ([|y inner] & after & H & _); discriminate H.
  - destruct (Devices.uptoLastClose s) as [r'|] eqn:Hrec.
    + destruct (proj1 (IH r') eq_refl) as (inner & after & -> & Hno & ->).
      split.
      * intros [= <-]. exists (String x inner), after. repeat split; assumption.
      * intros (inner' & after' & H & Hno' & ->).
        destruct inner' as [|y inner'].
        -- rewrite append_nil_l in H. injection H as _ <-.
           rewrite hasChar_app in Hno'. cbn [hasChar] in Hno'.
           rewrite Ascii.eqb_refl, orb_true_r in Hno'. discriminate.
        -- rewrite append_cons in H. injection H as <- H.
           assert (Hr : Some (inner ++ "}")%string = Some (inner' ++ "}")%string)
             by (apply IH; exists inner', after'; repeat split; assumption).
           injection Hr as Hr. rewrite append_cons, <- Hr. reflexivity.
    + apply uptoLastClose_none in Hrec.
      destruct (Ascii.eqb_spec x "}"%char) as [->|Hne].
      * split.
        -- intros [= <-]. exists EmptyString, s. repeat split; assumption.
        -- intros ([|y inner'] & after' & H & Hno' & ->).
           ++ reflexivity.
           ++ rewrite append_cons in H. injection H as _ ->.
              rewrite hasChar_app in Hrec. cbn [hasChar] in Hrec.
              rewrite Ascii.eqb_refl, orb_true_r in Hrec. discriminate.
      * split; [discriminate|].
        intros ([|y inner'] & after' & H & Hno' & ->).
        -- rewrite append_nil_l in H. injection H as -> _. contradiction.
        -- rewrite append_cons in H. injection H as _ ->.
           rewrite hasChar_app in Hrec. cbn [hasChar] in Hrec.
           rewrite Ascii.eqb_refl, orb_true_r in Hrec. discriminate.
Qed.

(** X9. The text handed to [JSON.parse] runs from the first opening brace of
    the output to its last closing brace: whatever precedes it holds no
    opening brace, whatever follows it holds no closing brace. *)
Theorem jsonMatch_first_to_last_brace :
  forall (stdout text : string),
    Devices.jsonMatch stdout = Some text <->
    exists before inner after,
      stdout = (before ++ text ++ after)%string
      /\ text = (String "{" inner ++ "}")%string
      /\ hasChar "{" before = false
      /\ hasChar "}" after = false.
Proof.
  intros stdout text. unfold Devices.jsonMatch. split.
  - destruct (Devices.afterFirstOpen stdout) as [rest|] eqn:Hopen; [|discriminate].
    apply afterFirstOpen_some in Hopen as (before & -> & Hbefore).
    destruct (Devices.uptoLastClose rest) as [r|] eqn:Hclose; [|discriminate].
    apply uptoLastClose_some in Hclose as (inner & after & -> & Hafter & ->).
    intros [= <-]. exists before, inner, after.
    split; [|repeat split; assumption].
    rewrite !append_cons, !string_app_assoc, !append_cons, append_nil_l. reflexivity.
  - intros (before & inner & after & -> & -> & Hbefore & Hafter).
    assert (Hopen : Devices.afterFirstOpen
                      (before ++ (String "{" inner ++ "}") ++ after)%string
                    = Some (inner ++ String "}" after)%string).
    { apply afterFirstOpen_some. exists before. split; [|exact Hbefore].
      rewrite !append_cons, !string_app_assoc, !append_cons, append_nil_l. reflexivity. }
    rewrite Hopen.
    assert (Hclose : Devices.uptoLastClose (inner ++ String "}" after)%string
                     = Some (inner ++ "}")%string)
      by (apply uptoLastClose_some; exists inner, after; repeat split; assumption).
    rewrite Hclose. reflexivity.
Qed.

Lemma first_open_is_leftmost (before rest a x : string) :
  (before ++ String "{" rest = a ++ String "{" x)%string ->
  hasChar "{" before = false ->
  exists y, rest = (y ++ x)%string.
Proof.
  revert a. induction before as [|c before IH]; intros a Heq Hno.
  - destruct a as [|c a].
    + rewrite !append_nil_l in Heq. injection Heq as ->. exists EmptyString. reflexivity.
    + rewrite append_nil_l, append_cons in Heq. injection Heq as _ ->.
      exists (a ++ "{")%string. rewrite string_app_assoc, append_cons, append_nil_l.
      reflexivity.
  - cbn [hasChar] in Hno. apply orb_false_iff in Hno as [Hc Hno].
    destruct a as [|c' a].
    + rewrite append_nil_l, append_cons in Heq. injection Heq as -> _.
      rewrite Ascii.eqb_refl in Hc. discriminate.
    + rewrite !append_cons in Heq. injection Heq as _ Heq.
      exact (IH a Heq Hno).
Qed.

(** X10. No text is handed to [JSON.parse] exactly when the output has no
    opening brace that is followed, anywhere later, by a closing brace. *)
Theorem jsonMatch_none_iff :
  forall stdout : string,
    Devices.jsonMatch stdout = None <->
    ~ exists a b c, stdout = (a ++ String "{" (b ++ String "}" c))%string.
Proof.
  intros stdout. unfold Devices.jsonMatch. split.
  - intros Hnone (a & b & c & ->).
    destruct (Devices.afterFirstOpen _) as [rest|] eqn:Hopen.
    + apply afterFirstOpen_some in Hopen as (before & Heq & Hbefore).
      symmetry in Heq.
      destruct (first_open_is_leftmost before rest a _ Heq Hbefore) as [y ->].
      destruct (Devices.uptoLastClose _) as [r|] eqn:Hclose; [discriminate|].
      apply uptoLastClose_none in Hclose.
      rewrite !hasChar_app in Hclose. cbn [hasChar] in Hclose.
      rewrite Ascii.eqb_refl in Hclose. cbn [orb] in Hclose.
      rewrite !orb_true_r in Hclose. discriminate.
    + apply afterFirstOpen_none in Hopen.
      rewrite hasChar_app in Hopen. cbn [hasChar] in Hopen.
      rewrite Ascii.eqb_refl in Hopen. cbn [orb] in Hopen.
      rewrite orb_true_r in Hopen. discriminate.
  - intros Hno.
    destruct (Devices.afterFirstOpen stdout) as [rest|] eqn:Hopen; [|reflexivity].
    destruct (Devices.uptoLastClose rest) as [r|] eqn:Hclose; [|reflexivity].
    exfalso. apply Hno.
    apply afterFirstOpen_some in Hopen as (before & -> & _).
    apply uptoLastClose_some in Hclose as (inner & after & -> & _ & _).
    exists before, inner, after. reflexivity.
Qed.

(** ** The device routes *)

(** X11. The three device routes start nothing until the gateway is ready: when
    [ensureClawdbotGateway] rejects, each answers 500 with the error's
    message and no command is run in the sandbox. *)
Theorem device_routes_need_gateway :
  forall (gw : Gateway) (parse : string -> Outcome Devices.DeviceData)
         (engine : Devices.Engine)
         (fuel : nat) (sandbox : Sandbox) (env : ClawdbotEnv)
         (param : option string) (t : Trace) (e : Thrown),
    gw_ensureClawdbotGateway gw sandbox env (t ++ [EEnsure]) = Throw e ->
    truthy param = true ->
    let refused := (Some (Ok (RJson 500 (JObj [("error", JStr (errorMessage e))]))),
                    t ++ [EEnsure]) in
    Devices.getDevices gw parse fuel sandbox env t = refused
    /\ Devices.postApprove gw fuel sandbox env param t = refused
    /\ Devices.postApproveAll gw parse engine fuel sandbox env t = refused.
Proof.
  intros gw parse engine fuel sandbox env param t e Hensure Hparam refused.
  unfold Devices.getDevices, Devices.postApprove, Devices.postApproveAll.
  rewrite Hparam. cbn [negb].
  unfold try_catch. unfold bind, call. rewrite Hensure.
  repeat split; reflexivity.
Qed.

Lemma device_routes_need_gateway_witness :
  Devices.postApprove (Samples.gatewayFailing "boom") 41
    (Samples.sandboxOf (Samples.doneProcess "p" "Approved")) Samples.envFull
    (Some "req-1") [] =
    (Some (Ok (RJson 500 (JObj [("error", JStr "boom")]))), [EEnsure]).
Proof.
  exact (proj1 (proj2 (device_routes_need_gateway (Samples.gatewayFailing "boom")
                         (fun _ => Throw (JsError "no json")) Samples.v8 41
                         (Samples.sandboxOf (Samples.doneProcess "p" "Approved"))
                         Samples.envFull (Some "req-1") [] (JsError "boom")
                         eq_refl eq_refl))).
Defined.

(** What follows the start of a CLI command in the device routes: the
    wait of at most 40 sleeps, then [getLogs]. *)
Lemma cli_wait (proc : Process) (fuel : nat) (t : Trace) :
  (41 <= fuel)%nat ->
  exists k : nat,
    (k <= 40)%nat
    /\ Api.waitForProcess fuel proc Api.CLI_TIMEOUT_MS t
       = (Some (Ok tt), t ++ repeat (ESleep 500) k).
Proof.
  intros Hfuel.
  destruct (waitForProcess_returns proc 20000 fuel t) as (k & Hk & Hrun & _);
    [vm_compute; lia|].
  exists k. split; [revert Hk; vm_compute (Api.ceil_div 20000 500); lia | exact Hrun].
Qed.

(** X12. [GET /devices] answers 200 whatever the CLI printed.  The parsed value
    is passed through when [JSON.parse] accepts the text between the first
    opening and the last closing brace; output without such a text comes
    back raw with empty lists, and a text that [JSON.parse] rejects comes
    back raw with a [parseError]. *)
Theorem devices_list_degrades_to_raw_output :
  forall (gw : Gateway) (parse : string -> Outcome Devices.DeviceData)
         (fuel : nat) (sandbox : Sandbox) (env : ClawdbotEnv) (t : Trace)
         (proc : Process),
    (41 <= fuel)%nat ->
    gw_ensureClawdbotGateway gw sandbox env (t ++ [EEnsure]) = Ok tt ->
    sb_startProcess sandbox Devices.listCmd
      (t ++ [EEnsure; EStartProcess Devices.listCmd]) = Ok proc ->
    exists k : nat,
      (k <= 40)%nat
      /\ forall logs,
           let tr := t ++ EEnsure :: EStartProcess Devices.listCmd
                       :: repeat (ESleep 500) k ++ [EGetLogs (proc_id proc)] in
           proc_getLogs proc tr = Ok logs ->
           let out := or_else (stdout logs) EmptyString in
           let err := or_else (stderr logs) EmptyString in
           Devices.getDevices gw parse fuel sandbox env t =
             (Some (Ok (RJson 200
                (match Devices.jsonMatch out with
                 | Some text =>
                     match parse text with
                     | Ok data => Devices.data_json data
                     | Throw _ =>
                         JObj [("pending", JArr []); ("paired", JArr []);
                               ("raw", JStr out); ("stderr", JStr err);
                               ("parseError", JStr "Failed to parse CLI output")]
                     end
                 | None =>
                     JObj [("pending", JArr []); ("paired", JArr []);
                           ("raw", JStr out); ("stderr", JStr err)]
                 end))),
              tr).
Proof.
  intros gw parse fuel sandbox env t proc Hfuel Hensure Hstart.
  destruct (cli_wait proc fuel (t ++ [EEnsure; EStartProcess Devices.listCmd]) Hfuel)
    as (k & Hk & Hwait).
  exists k. split; [exact Hk|]. intros logs tr Hlogs out err.
  cbn [app] in Hstart, Hwait.
  unfold Devices.getDevices.
  unfold try_catch at 1. unfold bind at 1. unfold call at 1. rewrite Hensure.
  unfold bind at 1. unfold startProcess, call at 1. trace_norm. rewrite Hstart.
  unfold bind at 1. rewrite Hwait.
  unfold bind at 1. unfold getLogs, call at 1. trace_norm. fold tr. rewrite Hlogs.
  fold out. fold err. unfold try_catch.
  destruct (Devices.jsonMatch out) as [text|]; [|reflexivity].
  unfold bind, Devices.lift, ret.
  destruct (parse text) as [data|e]; reflexivity.
Qed.

Lemma devices_list_degrades_to_raw_output_witness :
  exists k : nat,
    (k <= 40)%nat
    /\ Devices.getDevices (Samples.gatewayUp None true) (fun _ => Throw (JsError "bad"))
         41 (Samples.sandboxOf (Samples.doneProcess "p" "no devices")) Samples.envFull [] =
       (Some (Ok (RJson 200 (JObj [("pending", JArr []); ("paired", JArr []);
                                   ("raw", JStr "no devices");
                                   ("stderr", JStr EmptyString)]))),
        [] ++ EEnsure :: EStartProcess Devices.listCmd
           :: repeat (ESleep 500) k ++ [EGetLogs "p"]).
Proof.
  destruct (devices_list_degrades_to_raw_output (Samples.gatewayUp None true)
              (fun _ => Throw (JsError "bad")) 41
              (Samples.sandboxOf (Samples.doneProcess "p" "no devices")) Samples.envFull []
              (Samples.doneProcess "p" "no devices") (le_n 41) eq_refl eq_refl)
    as (k & Hk & Hrun).
  exists k. split; [exact Hk|].
  exact (Hrun (Samples.logsOf "no devices") eq_refl).
Defined.

(** X13. Approving one device.  Without a request id the route answers 400
    before anything else happens.  With one, it runs the approve command
    for that id and reports success exactly when the output mentions
    'approved' in any letter case or the exit code is 0; the message
    follows that verdict, and the status is 200 either way. *)
Theorem approve_reports_cli_verdict :
  forall (gw : Gateway) (fuel : nat) (sandbox : Sandbox) (env : ClawdbotEnv)
         (t : Trace),
    (41 <= fuel)%nat ->
    (forall param,
       truthy param = false ->
       Devices.postApprove gw fuel sandbox env param t =
         (Some (Ok (RJson 400 (JObj [("error", JStr "requestId is required")]))), t))
    /\ (forall id proc,
          id <> EmptyString ->
          gw_ensureClawdbotGateway gw sandbox env (t ++ [EEnsure]) = Ok tt ->
          sb_startProcess sandbox (Devices.approveCmd id)
            (t ++ [EEnsure; EStartProcess (Devices.approveCmd id)]) = Ok proc ->
          exists k : nat,
            (k <= 40)%nat
            /\ forall logs,
                 let tr := t ++ EEnsure :: EStartProcess (Devices.approveCmd id)
                             :: repeat (ESleep 500) k ++ [EGetLogs (proc_id proc)] in
                 proc_getLogs proc tr = Ok logs ->
                 let out := or_else (stdout logs) EmptyString in
                 let success := includes (toLowerCase out) "approved"
                                || exit_zero (proc_exitCode proc tr) in
                 Devices.postApprove gw fuel sandbox env (Some id) t =
                   (Some (Ok (RJson 200 (JObj [
                      ("success", JBool success);
                      ("requestId", JStr id);
                      ("message", JStr (if success then "Device approved"
                                        else "Approval may have failed"));
                      ("stdout", JStr out);
                      ("stderr", JStr (or_else (stderr logs) EmptyString))]))),
                    tr)).
Proof.
  intros gw fuel sandbox env t Hfuel. split.
  - intros param Hparam. unfold Devices.postApprove. rewrite Hparam. reflexivity.
  - intros id proc Hid Hensure Hstart.
    destruct (cli_wait proc fuel (t ++ [EEnsure; EStartProcess (Devices.approveCmd id)]) Hfuel)
      as (k & Hk & Hwait).
    exists k. split; [exact Hk|]. intros logs tr Hlogs out success.
    cbn [app] in Hstart, Hwait.
    assert (Htruthy : truthy (Some id) = true).
    { cbn. destruct (String.eqb_spec id EmptyString); [contradiction | reflexivity]. }
    unfold Devices.postApprove. rewrite Htruthy. cbn [negb].
    change (default EmptyString (Some id)) with id.
    unfold try_catch. unfold bind at 1. unfold call at 1. rewrite Hensure.
    unfold bind at 1. unfold startProcess, call at 1. trace_norm. rewrite Hstart.
    unfold bind at 1. rewrite Hwait.
    unfold bind at 1. unfold getLogs, call at 1. trace_norm. fold tr. rewrite Hlogs.
    unfold bind, exitCode, peek, ret. reflexivity.
Qed.

Lemma approve_reports_cli_verdict_witness :
  exists k : nat,
    (k <= 40)%nat
    /\ Devices.postApprove (Samples.gatewayUp None true) 41
         (Samples.sandboxOf (Samples.stuckProcess "p")) Samples.envFull (Some "req-1") [] =
       (Some (Ok (RJson 200 (JObj [
          ("success", JBool false);
          ("requestId", JStr "req-1");
          ("message", JStr "Approval may have failed");
          ("stdout", JStr EmptyString);
          ("stderr", JStr EmptyString)]))),
        [] ++ EEnsure :: EStartProcess (Devices.approveCmd "req-1")
           :: repeat (ESleep 500) k ++ [EGetLogs "p"]).
Proof.
  destruct (proj2 (approve_reports_cli_verdict (Samples.gatewayUp None true) 41
                     (Samples.sandboxOf (Samples.stuckProcess "p")) Samples.envFull []
                     (le_n 41))
                  "req-1" (Samples.stuckProcess "p") ltac:(discriminate) eq_refl eq_refl)
    as (k & Hk & Hrun).
  exists k. split; [exact Hk|].
  exact (Hrun {| stdout := None; stderr := None |} eq_refl).
Defined.

Lemma filter_partition_length {A} (f : A -> bool) (l : list A) :
  (length (List.filter f l) + length (List.filter (fun x => negb (f x)) l))%nat = length l.
Proof.
  induction l as [|x l IH]; [reflexivity|].
  cbn [List.filter]. destruct (f x); cbn [negb length]; lia.
Qed.

Lemma prop_of_value (engine : Devices.Engine) (k : Devices.Name) (v : Json) :
  Devices.is_null v = false -> exists id, Devices.prop engine k v = Ok id.
Proof. destruct v; cbn; intros H; try discriminate; eexists; reflexivity. Qed.

Lemma is_null_spec (v : Json) : Devices.is_null v = false <-> v <> JNull.
Proof. destruct v; cbn; split; intros H; congruence. Qed.

Lemma approveOne_null (engine : Devices.Engine) (fuel : nat) (sandbox : Sandbox)
    (results : list Devices.Approval) (t : Trace) :
  Devices.approveOne engine fuel sandbox JNull results t =
    (Some (Throw (JsError (Devices.readOfNull engine "requestId"))), t).
Proof. reflexivity. Qed.

Ltac approval_leaf :=
  split; [reflexivity|]; observe_all;
  split; [reflexivity|]; split; [reflexivity|]; split; [reflexivity|];
  split; [reflexivity|]; split; [lia|];
  cbn; first [discriminate | intros _; reflexivity].

(** One pass of the approve-all loop over an entry that is not null: at
    most one approve command, the one built from the entry, at most 40
    sleeps, no kill, and one more entry in [results], whether the approval
    worked, failed or threw. *)
Lemma approveOne_run (engine : Devices.Engine) (fuel : nat) (sandbox : Sandbox)
    (device : Json) (results : list Devices.Approval) (t : Trace) :
  (41 <= fuel)%nat ->
  Devices.is_null device = false ->
  exists (a : Devices.Approval) (d : Trace) (k : nat),
    Devices.approveOne engine fuel sandbox device results t
      = (Some (Ok (results ++ [a])), t ++ d)
    /\ Devices.a_requestId a = Devices.requestIdOf engine device
    /\ startsOf d = match Devices.commandFor engine device with
                    | Some cmd => [cmd]
                    | None => []
                    end
    /\ killsOf d = []
    /\ sleepsOf d = repeat 500 k
    /\ (k <= 40)%nat
    /\ (Devices.a_success a = true -> Devices.a_error a = None).
Proof.
  intros Hfuel Hvalue.
  destruct (prop_of_value engine Devices.NRequestId device Hvalue) as [id Hid].
  unfold Devices.approveOne, Devices.requestIdOf, Devices.commandFor, try_catch.
  rewrite Hid. unfold bind at 1. unfold Devices.lift at 1.
  unfold bind at 1. unfold Devices.lift at 1.
  destruct (Devices.templateText engine id) as [requestId|e].
  2:{ unfold bind, Devices.lift, ret. eexists _, [], 0%nat. rewrite app_nil_r. approval_leaf. }
  unfold bind at 1. unfold startProcess, call at 1.
  destruct (sb_startProcess sandbox _ _) as [proc|e].
  2:{ unfold bind, Devices.lift, ret. eexists _, [EStartProcess _], 0%nat. approval_leaf. }
  unfold bind at 1.
  match goal with
  | |- context [Api.waitForProcess fuel proc _ ?tr] =>
      destruct (cli_wait proc fuel tr Hfuel) as (k & Hk & Hwait); rewrite Hwait
  end.
  unfold bind at 1. unfold getLogs, call at 1. trace_norm.
  destruct (proc_getLogs proc _) as [logs|e].
  - unfold bind, exitCode, peek, Devices.lift, ret.
    eexists _, (EStartProcess _ :: repeat (ESleep 500) k ++ [EGetLogs _]), k.
    approval_leaf.
  - unfold bind, Devices.lift, ret.
    eexists _, (EStartProcess _ :: repeat (ESleep 500) k ++ [EGetLogs _]), k.
    approval_leaf.
Qed.

(** The loop over entries none of which is null. *)
Lemma approveEach_run (engine : Devices.Engine) (fuel : nat) (sandbox : Sandbox)
    (pending : list Json) :
  (41 <= fuel)%nat ->
  ~ In JNull pending ->
  forall (results : list Devices.Approval) (t : Trace),
  exists (rs : list Devices.Approval) (d : Trace),
    Devices.approveEach engine fuel sandbox pending results t
      = (Some (Ok (results ++ rs)), t ++ d)
    /\ map Devices.a_requestId rs = map (Devices.requestIdOf engine) pending
    /\ startsOf d = Devices.commandsFor engine pending
    /\ killsOf d = []
    /\ (length (sleepsOf d) <= 40 * length pending)%nat
    /\ Forall (fun a => Devices.a_success a = true -> Devices.a_error a = None) rs.
Proof.
  intros Hfuel. induction pending as [|device rest IH]; intros Hvalues results t.
  - exists [], []. cbn. rewrite !app_nil_r.
    repeat split; try reflexivity; try lia. constructor.
  - cbn [Devices.approveEach]. unfold bind.
    assert (Hvalue : Devices.is_null device = false)
      by (apply is_null_spec; intros ->; apply Hvalues; left; reflexivity).
    destruct (approveOne_run engine fuel sandbox device results t Hfuel Hvalue)
      as (a & d1 & k & Hone & Hid & Hstart & Hkill & Hsleep & Hk & Herr).
    rewrite Hone.
    destruct (IH (fun H => Hvalues (or_intror H)) (results ++ [a]) (t ++ d1))
      as (rs & d2 & Hrest & Hids & Hstarts & Hkills & Hsleeps & Herrs).
    rewrite Hrest. exists (a :: rs), (d1 ++ d2).
    split; [rewrite <- !app_assoc; reflexivity|].
    split; [cbn [map]; rewrite Hid, Hids; reflexivity|].
    split; [rewrite startsOf_app, Hstart, Hstarts; unfold Devices.commandsFor;
            cbn [omap list_omap]; destruct (Devices.commandFor engine device); reflexivity|].
    split; [rewrite killsOf_app, Hkill, Hkills; reflexivity|].
    split; [|constructor; assumption].
    rewrite sleepsOf_app, length_app, Hsleep, repeat_length. cbn [length]. lia.
Qed.

(** The loop stops at the first null entry: the entries before it were
    visited, none after it is, and the [TypeError] leaves the loop. *)
Lemma approveEach_stops (engine : Devices.Engine) (fuel : nat) (sandbox : Sandbox)
    (before after : list Json) :
  (41 <= fuel)%nat ->
  ~ In JNull before ->
  forall (results : list Devices.Approval) (t : Trace),
  exists d : Trace,
    Devices.approveEach engine fuel sandbox (before ++ JNull :: after) results t
      = (Some (Throw (JsError (Devices.readOfNull engine "requestId"))), t ++ d)
    /\ startsOf d = Devices.commandsFor engine before
    /\ killsOf d = []
    /\ (length (sleepsOf d) <= 40 * length before)%nat.
Proof.
  intros Hfuel. induction before as [|device rest IH]; intros Hvalues results t.
  - exists []. cbn [app Devices.approveEach]. unfold bind.
    rewrite approveOne_null, app_nil_r. repeat split; reflexivity || (cbn; lia).
  - cbn [app Devices.approveEach]. unfold bind.
    assert (Hvalue : Devices.is_null device = false)
      by (apply is_null_spec; intros ->; apply Hvalues; left; reflexivity).
    destruct (approveOne_run engine fuel sandbox device results t Hfuel Hvalue)
      as (a & d1 & k & Hone & Hid & Hstart & Hkill & Hsleep & Hk & Herr).
    rewrite Hone.
    destruct (IH (fun H => Hvalues (or_intror H)) (results ++ [a]) (t ++ d1))
      as (d2 & Hrest & Hstarts & Hkills & Hsleeps).
    rewrite Hrest. exists (d1 ++ d2).
    split; [rewrite <- !app_assoc; reflexivity|].
    split; [rewrite startsOf_app, Hstart, Hstarts; unfold Devices.commandsFor;
            cbn [omap list_omap]; destruct (Devices.commandFor engine device); reflexivity|].
    split; [rewrite killsOf_app, Hkill, Hkills; reflexivity|].
    rewrite sleepsOf_app, length_app, Hsleep, repeat_length. cbn [length]. lia.
Qed.

(** Whatever the entries are, the loop ends: with the results, or with the
    [TypeError] of a null entry. *)
Lemma approveEach_ends (engine : Devices.Engine) (fuel : nat) (sandbox : Sandbox)
    (pending : list Json) :
  (41 <= fuel)%nat ->
  forall (results : list Devices.Approval) (t : Trace),
  exists (r : Outcome (list Devices.Approval)) (d : Trace),
    Devices.approveEach engine fuel sandbox pending results t = (Some r, t ++ d)
    /\ killsOf d = [].
Proof.
  intros Hfuel. induction pending as [|device rest IH]; intros results t.
  - exists (Ok results), []. cbn. rewrite app_nil_r. split; reflexivity.
  - cbn [Devices.approveEach]. unfold bind.
    destruct (Devices.is_null device) eqn:Hnull.
    + destruct device; try discriminate.
      rewrite approveOne_null. eexists _, []. rewrite app_nil_r. split; reflexivity.
    + destruct (approveOne_run engine fuel sandbox device results t Hfuel Hnull)
        as (a & d1 & k & Hone & _ & _ & Hkill & _).
      rewrite Hone.
      destruct (IH (results ++ [a]) (t ++ d1)) as (r & d2 & Hrest & Hkills).
      rewrite Hrest. exists r, (d1 ++ d2).
      split; [rewrite <- !app_assoc; reflexivity|].
      rewrite killsOf_app, Hkill, Hkills. reflexivity.
Qed.

Lemma iterate_length (engine : Devices.Engine) (pending : Json) (devices : list Json) :
  Devices.iterate engine pending = Ok devices ->
  Devices.prop engine Devices.NLength pending = Ok (Some (JNum (Z.of_nat (length devices)))).
Proof.
  destruct pending; cbn; intros H; try discriminate; injection H as <-.
  - rewrite length_map. f_equal. f_equal. f_equal. f_equal.
    induction s as [|c s IH]; cbn; [reflexivity | rewrite IH; reflexivity].
  - reflexivity.
Qed.

(** An entry of the declared shape, an object whose [requestId] is a
    string, gives the approve command for that string. *)
Lemma commandFor_typed (engine : Devices.Engine) (fields : list (string * Json)) (s : string) :
  assoc "requestId" fields = Some (JStr s) ->
  Devices.commandFor engine (JObj fields) = Some (Devices.approveCmd s)
  /\ Devices.requestIdOf engine (JObj fields) = Some (JStr s).
Proof.
  intros H. unfold Devices.commandFor, Devices.requestIdOf. cbn. rewrite H. split; reflexivity.
Qed.

(** The approve-all route from the logs of the list command on. *)
Lemma postApproveAll_after_list (gw : Gateway)
    (parse : string -> Outcome Devices.DeviceData) (engine : Devices.Engine)
    (fuel : nat) (sandbox : Sandbox) (env : ClawdbotEnv) (t : Trace) (proc : Process) :
  (41 <= fuel)%nat ->
  gw_ensureClawdbotGateway gw sandbox env (t ++ [EEnsure]) = Ok tt ->
  sb_startProcess sandbox Devices.listCmd
    (t ++ [EEnsure; EStartProcess Devices.listCmd]) = Ok proc ->
  exists k : nat,
    (k <= 40)%nat
    /\ forall logs,
         let tr := t ++ EEnsure :: EStartProcess Devices.listCmd
                     :: repeat (ESleep 500) k ++ [EGetLogs (proc_id proc)] in
         proc_getLogs proc tr = Ok logs ->
         let out := or_else (stdout logs) EmptyString in
         match Devices.readPending parse engine out with
         | Throw _ =>
             Devices.postApproveAll gw parse engine fuel sandbox env t =
               (Some (Ok (RJson 500 (JObj [("error", JStr "Failed to parse device list");
                                           ("raw", JStr out)]))), tr)
         | Ok pending =>
             match Devices.prop engine Devices.NLength pending with
             | Throw e =>
                 Devices.postApproveAll gw parse engine fuel sandbox env t =
                   (Some (Ok (RJson 500 (JObj [("error", JStr (errorMessage e))]))), tr)
             | Ok len =>
                 if Devices.strictEqZero len
                 then
                   Devices.postApproveAll gw parse engine fuel sandbox env t =
                     (Some (Ok (RJson 200
                                  (JObj [("approved", JArr []);
                                         ("message", JStr "No pending devices to approve")]))),
                      tr)
                 else
                   match Devices.iterate engine pending with
                   | Throw e =>
                       Devices.postApproveAll gw parse engine fuel sandbox env t =
                         (Some (Ok (RJson 500 (JObj [("error", JStr (errorMessage e))]))), tr)
                   | Ok devices =>
                       forall r d,
                         Devices.approveEach engine fuel sandbox devices [] tr = (Some r, d) ->
                         Devices.postApproveAll gw parse engine fuel sandbox env t =
                           match r with
                           | Throw e =>
                               (Some (Ok (RJson 500 (JObj [("error", JStr (errorMessage e))]))),
                                d)
                           | Ok results =>
                               match Devices.templateText engine len with
                               | Throw e =>
                                   (Some (Ok (RJson 500
                                                (JObj [("error", JStr (errorMessage e))]))), d)
                               | Ok totalText =>
                                   (Some (Ok (RJson 200 (JObj [
                                      ("approved",
                                       JArr (map (fun r => default JNull (Devices.a_requestId r))
                                               (List.filter Devices.a_success results)));
                                      ("failed",
                                       JArr (map Devices.approvalJson
                                               (List.filter
                                                  (fun r => negb (Devices.a_success r))
                                                  results)));
                                      ("message",
                                       JStr ("Approved "
                                             ++ Devices.numberText engine
                                                  (Z.of_nat
                                                     (length
                                                        (List.filter Devices.a_success results)))
                                             ++ " of " ++ totalText
                                             ++ " device(s)")%string)]))),
                                    d)
                               end
                           end
                   end
             end
         end.
Proof.
  intros Hfuel Hensure Hstart.
  destruct (cli_wait proc fuel (t ++ [EEnsure; EStartProcess Devices.listCmd]) Hfuel)
    as (k & Hk & Hwait).
  exists k. split; [exact Hk|]. intros logs tr Hlogs out.
  cbn [app] in Hstart, Hwait.
  remember (Devices.postApproveAll gw parse engine fuel sandbox env t) as run eqn:Hrun.
  unfold Devices.postApproveAll in Hrun.
  unfold try_catch in Hrun. unfold bind at 1 in Hrun. unfold call at 1 in Hrun.
  rewrite Hensure in Hrun.
  unfold bind at 1 in Hrun. unfold startProcess, call at 1 in Hrun.
  repeat first [rewrite <- app_assoc in Hrun | progress cbn [app] in Hrun].
  rewrite Hstart in Hrun.
  unfold bind at 1 in Hrun. rewrite Hwait in Hrun.
  unfold bind at 1 in Hrun. unfold getLogs, call at 1 in Hrun.
  repeat first [rewrite <- app_assoc in Hrun | progress cbn [app] in Hrun].
  fold tr in Hrun. rewrite Hlogs in Hrun.
  fold out in Hrun. revert Hrun.
  destruct (Devices.readPending parse engine out) as [pending|e]; [|intros ->; reflexivity].
  unfold bind at 1. unfold Devices.lift at 1.
  destruct (Devices.prop engine Devices.NLength pending) as [len|e];
    [|intros ->; reflexivity].
  destruct (Devices.strictEqZero len); [intros ->; reflexivity|].
  unfold bind at 1. unfold Devices.lift at 1.
  destruct (Devices.iterate engine pending) as [devices|e]; [|intros ->; reflexivity].
  intros -> r d Hloop. unfold bind at 1. rewrite Hloop.
  destruct r as [results|e]; [|reflexivity].
  unfold bind, Devices.lift, ret.
  destruct (Devices.templateText engine len); reflexivity.
Qed.

(** X14. Approve-all goes through the pending list in order, and the list is
    whatever [JSON.parse] gave: no entry is checked.  While no entry is
    null, every entry is visited: the route runs the approve command built
    from it, none for an entry whose [requestId] has no string form, goes
    on after an approval that failed or threw, and asks for no kill; every
    entry ends up either in [approved] or in [failed], so the two counts
    add up to the length of the list, and the answer is 200.  A null entry
    stops the loop: reading its [requestId] throws in the [try] and again
    in the [catch], so the route answers 500 with that error, after having
    run the commands of the entries before it and none of those after it.
    An entry of the declared shape, an object with a string [requestId],
    gives the approve command for that string. *)
Theorem approve_all_visits_every_device :
  forall (gw : Gateway) (parse : string -> Outcome Devices.DeviceData)
         (engine : Devices.Engine)
         (fuel : nat) (sandbox : Sandbox) (env : ClawdbotEnv) (t : Trace)
         (proc : Process) (logs : Logs) (pending : Json) (devices : list Json),
    (41 <= fuel)%nat ->
    gw_ensureClawdbotGateway gw sandbox env (t ++ [EEnsure]) = Ok tt ->
    sb_startProcess sandbox Devices.listCmd
      (t ++ [EEnsure; EStartProcess Devices.listCmd]) = Ok proc ->
    (forall tr, proc_getLogs proc tr = Ok logs) ->
    Devices.readPending parse engine (or_else (stdout logs) EmptyString) = Ok pending ->
    Devices.iterate engine pending = Ok devices ->
    devices <> [] ->
    exists k : nat,
      (k <= 40)%nat
      /\ let tr := t ++ EEnsure :: EStartProcess Devices.listCmd
                     :: repeat (ESleep 500) k ++ [EGetLogs (proc_id proc)] in
         (~ In JNull devices ->
          exists (results : list Devices.Approval) (d : Trace),
            Devices.postApproveAll gw parse engine fuel sandbox env t =
              (Some (Ok (RJson 200 (JObj [
                 ("approved", JArr (map (fun r => default JNull (Devices.a_requestId r))
                                      (List.filter Devices.a_success results)));
                 ("failed", JArr (map Devices.approvalJson
                                    (List.filter (fun r => negb (Devices.a_success r))
                                       results)));
                 ("message",
                  JStr ("Approved "
                        ++ Devices.numberText engine
                             (Z.of_nat (length (List.filter Devices.a_success results)))
                        ++ " of "
                        ++ Devices.numberText engine (Z.of_nat (length devices))
                        ++ " device(s)")%string)]))),
               tr ++ d)
            /\ map Devices.a_requestId results = map (Devices.requestIdOf engine) devices
            /\ startsOf d = Devices.commandsFor engine devices
            /\ killsOf d = []
            /\ (length (List.filter Devices.a_success results)
                + length (List.filter (fun r => negb (Devices.a_success r)) results)
                = length devices)%nat)
         /\ (forall before after,
               devices = before ++ JNull :: after ->
               ~ In JNull before ->
               exists d : Trace,
                 Devices.postApproveAll gw parse engine fuel sandbox env t =
                   (Some (Ok (RJson 500
                                (JObj [("error",
                                        JStr (Devices.readOfNull engine "requestId"))]))),
                    tr ++ d)
                 /\ startsOf d = Devices.commandsFor engine before
                 /\ killsOf d = [])
         /\ (forall fields s,
               assoc "requestId" fields = Some (JStr s) ->
               Devices.commandFor engine (JObj fields) = Some (Devices.approveCmd s)
               /\ Devices.requestIdOf engine (JObj fields) = Some (JStr s)).
Proof.
  intros gw parse engine fuel sandbox env t proc logs pending devices
    Hfuel Hensure Hstart Hlogs Hpending Hiter Hsome.
  destruct (postApproveAll_after_list gw parse engine fuel sandbox env t proc
              Hfuel Hensure Hstart) as (k & Hk & Hafter).
  specialize (Hafter logs (Hlogs _)). cbv zeta in Hafter.
  rewrite Hpending, (iterate_length engine pending devices Hiter) in Hafter.
  assert (Hnz : Devices.strictEqZero (Some (JNum (Z.of_nat (length devices)))) = false).
  { destruct devices; [contradiction|]. cbn [Devices.strictEqZero length].
    apply Z.eqb_neq. lia. }
  rewrite Hnz, Hiter in Hafter.
  exists k. split; [exact Hk|]. intros tr. fold tr in Hafter.
  split; [|split].
  - intros Hvalues.
    destruct (approveEach_run engine fuel sandbox devices Hfuel Hvalues [] tr)
      as (results & d & Hrun & Hids & Hstarts & Hkills & _ & _).
    exists results, d. cbn [app] in Hrun.
    split; [exact (Hafter _ _ Hrun)|]. split; [exact Hids|].
    split; [exact Hstarts|]. split; [exact Hkills|].
    rewrite filter_partition_length, <- (length_map Devices.a_requestId), Hids, length_map.
    reflexivity.
  - intros before after -> Hvalues.
    destruct (approveEach_stops engine fuel sandbox before after Hfuel Hvalues [] tr)
      as (d & Hrun & Hstarts & Hkills & _).
    exists d. split; [exact (Hafter _ _ Hrun)|]. split; [exact Hstarts | exact Hkills].
  - intros fields s. apply commandFor_typed.
Qed.

Lemma approve_all_visits_every_device_witness :
  (exists (results : list Devices.Approval) (d : Trace),
      map Devices.a_requestId results = [Some (JStr "a"); Some (JStr "b")]
      /\ startsOf d = [Devices.approveCmd "a"; Devices.approveCmd "b"]
      /\ killsOf d = [])
  /\ (exists (k : nat) (d : Trace),
        Devices.postApproveAll (Samples.gatewayUp None true)
          (fun _ => Ok (Samples.listing
                          (JArr [JObj [("requestId", JStr "a")]; JNull;
                                 JObj [("requestId", JStr "c")]])))
          Samples.v8 41 (Samples.sandboxOf (Samples.doneProcess "p" "{}")) Samples.envFull []
        = (Some (Ok (RJson 500
                       (JObj [("error",
                               JStr "Cannot read properties of null (reading 'requestId')")]))),
           ([] ++ EEnsure :: EStartProcess Devices.listCmd
               :: repeat (ESleep 500) k ++ [EGetLogs "p"]) ++ d)
        /\ startsOf d = [Devices.approveCmd "a"]).
Proof.
  split.
  - destruct (approve_all_visits_every_device (Samples.gatewayUp None true)
                (fun _ => Ok (Samples.listing
                                (JArr [JObj [("requestId", JStr "a")];
                                       JObj [("requestId", JStr "b")]])))
                Samples.v8 41 (Samples.sandboxOf (Samples.doneProcess "p" "{}"))
                Samples.envFull []
                (Samples.doneProcess "p" "{}") (Samples.logsOf "{}")
                (JArr [JObj [("requestId", JStr "a")]; JObj [("requestId", JStr "b")]])
                [JObj [("requestId", JStr "a")]; JObj [("requestId", JStr "b")]]
                (le_n 41) eq_refl eq_refl (fun _ => eq_refl) eq_refl eq_refl
                ltac:(discriminate))
      as (k & _ & Hall & _).
    destruct Hall as (results & d & _ & Hids & Hstarts & Hkills & _).
    { cbn. intros [H | [H | []]]; discriminate H. }
    exists results, d. split; [exact Hids|]. split; [exact Hstarts | exact Hkills].
  - destruct (approve_all_visits_every_device (Samples.gatewayUp None true)
                (fun _ => Ok (Samples.listing
                                (JArr [JObj [("requestId", JStr "a")]; JNull;
                                       JObj [("requestId", JStr "c")]])))
                Samples.v8 41 (Samples.sandboxOf (Samples.doneProcess "p" "{}"))
                Samples.envFull []
                (Samples.doneProcess "p" "{}") (Samples.logsOf "{}")
                (JArr [JObj [("requestId", JStr "a")]; JNull; JObj [("requestId", JStr "c")]])
                [JObj [("requestId", JStr "a")]; JNull; JObj [("requestId", JStr "c")]]
                (le_n 41) eq_refl eq_refl (fun _ => eq_refl) eq_refl eq_refl
                ltac:(discriminate))
      as (k & _ & _ & Hstop & _).
    destruct (Hstop [JObj [("requestId", JStr "a")]] [JObj [("requestId", JStr "c")]] eq_refl)
      as (d & Hrun & Hstarts & _).
    { cbn. intros [H | []]. discriminate H. }
    exists k, d. split; [exact Hrun | exact Hstarts].
Defined.

(** X15. Approve-all with nothing to approve.  Output of the list command that
    holds no JSON object counts as an empty pending list, like a parsed
    object without pending devices: the route answers 200 'No pending
    devices to approve' and runs no approve command.  Only a text that
    [JSON.parse] rejects is an error, answered with 500 and the raw
    output. *)
Theorem approve_all_without_pending :
  forall (gw : Gateway) (parse : string -> Outcome Devices.DeviceData)
         (engine : Devices.Engine)
         (fuel : nat) (sandbox : Sandbox) (env : ClawdbotEnv) (t : Trace)
         (proc : Process) (logs : Logs),
    (41 <= fuel)%nat ->
    gw_ensureClawdbotGateway gw sandbox env (t ++ [EEnsure]) = Ok tt ->
    sb_startProcess sandbox Devices.listCmd
      (t ++ [EEnsure; EStartProcess Devices.listCmd]) = Ok proc ->
    (forall tr, proc_getLogs proc tr = Ok logs) ->
    let out := or_else (stdout logs) EmptyString in
    exists k : nat,
      (k <= 40)%nat
      /\ let tr := t ++ EEnsure :: EStartProcess Devices.listCmd
                     :: repeat (ESleep 500) k ++ [EGetLogs (proc_id proc)] in
         (Devices.jsonMatch out = None ->
          Devices.readPending parse engine out = Ok (JArr []))
         /\ (forall text data,
               Devices.jsonMatch out = Some text -> parse text = Ok data ->
               Js.get "pending" (Devices.data_json data) = None ->
               Devices.data_json data <> JNull ->
               Devices.readPending parse engine out = Ok (JArr []))
         /\ (Devices.readPending parse engine out = Ok (JArr []) ->
             Devices.postApproveAll gw parse engine fuel sandbox env t =
               (Some (Ok (RJson 200 (JObj [("approved", JArr []);
                                           ("message", JStr "No pending devices to approve")]))),
                tr))
         /\ (forall text e,
               Devices.jsonMatch out = Some text -> parse text = Throw e ->
               Devices.postApproveAll gw parse engine fuel sandbox env t =
                 (Some (Ok (RJson 500 (JObj [("error", JStr "Failed to parse device list");
                                             ("raw", JStr out)]))), tr)).
Proof.
  intros gw parse engine fuel sandbox env t proc logs Hfuel Hensure Hstart Hlogs out.
  destruct (postApproveAll_after_list gw parse engine fuel sandbox env t proc
              Hfuel Hensure Hstart) as (k & Hk & Hafter).
  specialize (Hafter logs (Hlogs _)). cbv zeta in Hafter. fold out in Hafter.
  exists k. split; [exact Hk|]. intros tr. split; [|split; [|split]].
  - intros Hnone. unfold Devices.readPending. rewrite Hnone. reflexivity.
  - intros text data Hmatch Hparse Habsent Hvalue.
    unfold Devices.readPending. rewrite Hmatch, Hparse.
    destruct (Devices.data_json data); try contradiction; try reflexivity.
    cbn in Habsent |- *. rewrite Habsent. reflexivity.
  - intros Hempty. rewrite Hempty in Hafter. exact Hafter.
  - intros text e Hmatch Hparse.
    assert (Hthrow : Devices.readPending parse engine out = Throw e)
      by (unfold Devices.readPending; rewrite Hmatch, Hparse; reflexivity).
    rewrite Hthrow in Hafter. exact Hafter.
Qed.

Lemma approve_all_without_pending_witness :
  exists k : nat,
    (k <= 40)%nat
    /\ Devices.postApproveAll (Samples.gatewayUp None true)
         (fun _ => Throw (JsError "bad")) Samples.v8 41
         (Samples.sandboxOf (Samples.doneProcess "p" "gateway unreachable"))
         Samples.envFull [] =
       (Some (Ok (RJson 200 (JObj [("approved", JArr []);
                                   ("message", JStr "No pending devices to approve")]))),
        [] ++ EEnsure :: EStartProcess Devices.listCmd
           :: repeat (ESleep 500) k ++ [EGetLogs "p"]).
Proof.
  destruct (approve_all_without_pending (Samples.gatewayUp None true)
              (fun _ => Throw (JsError "bad")) Samples.v8 41
              (Samples.sandboxOf (Samples.doneProcess "p" "gateway unreachable"))
              Samples.envFull [] (Samples.doneProcess "p" "gateway unreachable")
              (Samples.logsOf "gateway unreachable")
              (le_n 41) eq_refl eq_refl (fun _ => eq_refl))
    as (k & Hk & _ & _ & Hempty & _).
  exists k. split; [exact Hk|]. apply Hempty. reflexivity.
Defined.

(** X19. Approve-all on a [pending] that is no list.  An object, a number
    or [true] in that place is not iterable: the route answers 500 with the
    engine's error and runs no approve command, except that an object
    whose own [length] is 0 passes for an empty list. *)
Theorem approve_all_needs_a_list :
  forall (gw : Gateway) (parse : string -> Outcome Devices.DeviceData)
         (engine : Devices.Engine)
         (fuel : nat) (sandbox : Sandbox) (env : ClawdbotEnv) (t : Trace)
         (proc : Process) (logs : Logs) (pending : Json),
    (41 <= fuel)%nat ->
    gw_ensureClawdbotGateway gw sandbox env (t ++ [EEnsure]) = Ok tt ->
    sb_startProcess sandbox Devices.listCmd
      (t ++ [EEnsure; EStartProcess Devices.listCmd]) = Ok proc ->
    (forall tr, proc_getLogs proc tr = Ok logs) ->
    Devices.readPending parse engine (or_else (stdout logs) EmptyString) = Ok pending ->
    exists k : nat,
      (k <= 40)%nat
      /\ let tr := t ++ EEnsure :: EStartProcess Devices.listCmd
                     :: repeat (ESleep 500) k ++ [EGetLogs (proc_id proc)] in
         let refused :=
           (Some (Ok (RJson 500 (JObj [("error", JStr (Devices.notIterable engine))]))), tr) in
         (forall fields,
            pending = JObj fields ->
            Devices.postApproveAll gw parse engine fuel sandbox env t =
              if Devices.strictEqZero (assoc "length" fields)
              then (Some (Ok (RJson 200
                                (JObj [("approved", JArr []);
                                       ("message", JStr "No pending devices to approve")]))),
                    tr)
              else refused)
         /\ (forall n, pending = JNum n ->
               Devices.postApproveAll gw parse engine fuel sandbox env t = refused)
         /\ (forall b, pending = JBool b ->
               Devices.postApproveAll gw parse engine fuel sandbox env t = refused).
Proof.
  intros gw parse engine fuel sandbox env t proc logs pending
    Hfuel Hensure Hstart Hlogs Hpending.
  destruct (postApproveAll_after_list gw parse engine fuel sandbox env t proc
              Hfuel Hensure Hstart) as (k & Hk & Hafter).
  specialize (Hafter logs (Hlogs _)). cbv zeta in Hafter.
  rewrite Hpending in Hafter.
  exists k. split; [exact Hk|]. intros tr refused. split; [|split].
  - intros fields ->. cbn in Hafter.
    destruct (Devices.strictEqZero (assoc "length" fields)); exact Hafter.
  - intros n ->. exact Hafter.
  - intros b ->. exact Hafter.
Qed.

Lemma approve_all_needs_a_list_witness :
  exists k : nat,
    Devices.postApproveAll (Samples.gatewayUp None true)
      (fun _ => Ok (Samples.listing (JObj [("a", JObj [("requestId", JStr "a")])])))
      Samples.v8 41 (Samples.sandboxOf (Samples.doneProcess "p" "{}")) Samples.envFull []
    = (Some (Ok (RJson 500 (JObj [("error", JStr "pending is not iterable")]))),
       [] ++ EEnsure :: EStartProcess Devices.listCmd
          :: repeat (ESleep 500) k ++ [EGetLogs "p"]).
Proof.
  destruct (approve_all_needs_a_list (Samples.gatewayUp None true)
              (fun _ => Ok (Samples.listing (JObj [("a", JObj [("requestId", JStr "a")])])))
              Samples.v8 41 (Samples.sandboxOf (Samples.doneProcess "p" "{}"))
              Samples.envFull []
              (Samples.doneProcess "p" "{}") (Samples.logsOf "{}")
              (JObj [("a", JObj [("requestId", JStr "a")])])
              (le_n 41) eq_refl eq_refl (fun _ => eq_refl) eq_refl)
    as (k & _ & Hobj & _).
  exists k. exact (Hobj _ eq_refl).
Defined.

Ltac answers :=
  eexists _, _, _; split; [trace_norm; reflexivity | tauto].

(** X16. No device route lets an error escape.  Whatever the gateway, the
    sandbox, the process and [JSON.parse] do, each of the three routes
    answers with a JSON response: 200 or 500 for the list and approve-all
    routes, 200, 400 or 500 for the approve route. *)
Theorem device_routes_always_answer :
  forall (gw : Gateway) (parse : string -> Outcome Devices.DeviceData)
         (engine : Devices.Engine)
         (fuel : nat) (sandbox : Sandbox) (env : ClawdbotEnv)
         (param : option string) (t : Trace),
    (41 <= fuel)%nat ->
    (exists s body d,
        Devices.getDevices gw parse fuel sandbox env t = (Some (Ok (RJson s body)), t ++ d)
        /\ (s = 200 \/ s = 500))
    /\ (exists s body d,
          Devices.postApprove gw fuel sandbox env param t = (Some (Ok (RJson s body)), t ++ d)
          /\ (s = 200 \/ s = 400 \/ s = 500))
    /\ (exists s body d,
          Devices.postApproveAll gw parse engine fuel sandbox env t
            = (Some (Ok (RJson s body)), t ++ d)
          /\ (s = 200 \/ s = 500)).
Proof.
  intros gw parse engine fuel sandbox env param t Hfuel. split; [|split].
  - unfold Devices.getDevices. unfold try_catch at 1. unfold bind at 1. unfold call at 1.
    destruct (gw_ensureClawdbotGateway gw sandbox env (t ++ [EEnsure])) as [[]|e];
      [|answers].
    unfold bind at 1. unfold startProcess, call at 1. trace_norm.
    destruct (sb_startProcess sandbox Devices.listCmd _) as [proc|e]; [|answers].
    unfold bind at 1.
    match goal with
    | |- context [Api.waitForProcess fuel proc _ ?tr] =>
        destruct (cli_wait proc fuel tr Hfuel) as (k & _ & Hwait); rewrite Hwait
    end.
    unfold bind at 1. unfold getLogs, call at 1. trace_norm.
    destruct (proc_getLogs proc _) as [logs|e]; [|answers].
    unfold try_catch.
    destruct (Devices.jsonMatch _) as [text|]; [|answers].
    unfold bind, Devices.lift, ret.
    destruct (parse text) as [data|e]; answers.
  - unfold Devices.postApprove.
    destruct (truthy param); cbn [negb];
      [|eexists _, _, []; rewrite app_nil_r; split; [reflexivity | tauto]].
    unfold try_catch. unfold bind at 1. unfold call at 1.
    destruct (gw_ensureClawdbotGateway gw sandbox env (t ++ [EEnsure])) as [[]|e];
      [|answers].
    unfold bind at 1. unfold startProcess, call at 1. trace_norm.
    destruct (sb_startProcess sandbox _ _) as [proc|e]; [|answers].
    unfold bind at 1.
    match goal with
    | |- context [Api.waitForProcess fuel proc _ ?tr] =>
        destruct (cli_wait proc fuel tr Hfuel) as (k & _ & Hwait); rewrite Hwait
    end.
    unfold bind at 1. unfold getLogs, call at 1. trace_norm.
    destruct (proc_getLogs proc _) as [logs|e]; [|answers].
    unfold bind, exitCode, peek, ret. answers.
  - unfold Devices.postApproveAll. unfold try_catch. unfold bind at 1. unfold call at 1.
    destruct (gw_ensureClawdbotGateway gw sandbox env (t ++ [EEnsure])) as [[]|e];
      [|answers].
    unfold bind at 1. unfold startProcess, call at 1. trace_norm.
    destruct (sb_startProcess sandbox Devices.listCmd _) as [proc|e]; [|answers].
    unfold bind at 1.
    match goal with
    | |- context [Api.waitForProcess fuel proc _ ?tr] =>
        destruct (cli_wait proc fuel tr Hfuel) as (k & _ & Hwait); rewrite Hwait
    end.
    unfold bind at 1. unfold getLogs, call at 1. trace_norm.
    destruct (proc_getLogs proc _) as [logs|e]; [|answers].
    destruct (Devices.readPending parse engine _) as [pending|e]; [|answers].
    unfold bind at 1. unfold Devices.lift at 1.
    destruct (Devices.prop engine Devices.NLength pending) as [len|e]; [|answers].
    destruct (Devices.strictEqZero len); [answers|].
    unfold bind at 1. unfold Devices.lift at 1.
    destruct (Devices.iterate engine pending) as [devices|e]; [|answers].
    unfold bind at 1.
    match goal with
    | |- context [Devices.approveEach engine fuel sandbox ?p [] ?tr] =>
        destruct (approveEach_ends engine fuel sandbox p Hfuel [] tr) as (r & d & Hrun & _);
          rewrite Hrun
    end.
    destruct r as [results|e]; [|answers].
    unfold bind, Devices.lift, ret.
    destruct (Devices.templateText engine len); answers.
Qed.

Lemma device_routes_always_answer_witness :
  exists s body d,
    Devices.getDevices (Samples.gatewayUp None true) (fun _ => Throw (JsError "bad")) 41
      (Samples.sandboxOf (Samples.stuckProcess "p")) Samples.envFull [] =
      (Some (Ok (RJson s body)), [] ++ d)
    /\ (s = 200 \/ s = 500).
Proof.
  exact (proj1 (device_routes_always_answer (Samples.gatewayUp None true)
                  (fun _ => Throw (JsError "bad")) Samples.v8 41
                  (Samples.sandboxOf (Samples.stuckProcess "p")) Samples.envFull
                  None [] (le_n 41))).
Defined.

(** ** The sandbox options *)

Lemma lower_unit_idempotent (c : ascii) : lower_unit (lower_unit c) = lower_unit c.
Proof. destruct c as [[] [] [] [] [] [] [] []]; vm_compute; reflexivity. Qed.

Lemma toLowerCase_idempotent (s : string) : toLowerCase (toLowerCase s) = toLowerCase s.
Proof.
  induction s as [|c s IH]; [reflexivity|].
  cbn [toLowerCase]. rewrite lower_unit_idempotent, IH. reflexivity.
Qed.

Lemma toLowerCase_empty (s : string) : toLowerCase s = EmptyString <-> s = EmptyString.
Proof. destruct s; cbn [toLowerCase]; split; (reflexivity || discriminate). Qed.

(** X17. [SANDBOX_SLEEP_AFTER] is read without regard to letter case.  The
    container is kept alive exactly when the setting is unset, empty, or
    spells 'never' in any case; otherwise the sandbox gets the lower-cased
    setting as its sleep duration, which is then neither empty nor
    'never'. *)
Theorem buildSandboxOptions_reads_case_insensitively :
  forall env : ClawdbotEnv,
    (Index.buildSandboxOptions env = Index.KeepAlive <->
     truthy (SANDBOX_SLEEP_AFTER env) = false
     \/ exists v, SANDBOX_SLEEP_AFTER env = Some v /\ toLowerCase v = "never")
    /\ (forall d,
          Index.buildSandboxOptions env = Index.SleepAfter d ->
          d <> EmptyString /\ d <> "never" /\ toLowerCase d = d
          /\ exists v, SANDBOX_SLEEP_AFTER env = Some v /\ d = toLowerCase v).
Proof.
  intros env. unfold Index.buildSandboxOptions, or_else.
  destruct (SANDBOX_SLEEP_AFTER env) as [v|]; cbn [option_map truthy].
  - destruct (String.eqb_spec (toLowerCase v) EmptyString) as [Hempty|Hsome]; cbn [negb].
    + apply toLowerCase_empty in Hempty as ->. cbn.
      split; [split; [left; reflexivity | reflexivity] | discriminate].
    + assert (Hv : (v =? EmptyString)%string = false).
      { apply String.eqb_neq. intros ->. apply Hsome. reflexivity. }
      rewrite Hv. cbn [negb]. change (default "never" (Some (toLowerCase v))) with (toLowerCase v).
      destruct (String.eqb_spec (toLowerCase v) "never") as [Hnever|Hother].
      * split; [|discriminate].
        split; [intros _; right; exists v; split; [reflexivity | exact Hnever] | reflexivity].
      * split.
        -- split; [discriminate|].
           intros [Hfalse | (v' & [= <-] & Hnever)]; [discriminate | contradiction].
        -- intros d [= <-]. split; [exact Hsome|]. split; [exact Hother|].
           split; [apply toLowerCase_idempotent|]. exists v. split; reflexivity.
  - cbn. split; [split; [left; reflexivity | reflexivity] | discriminate].
Qed.

(** ** What a status query costs *)



(** ** The cron loop looks before it sleeps *)

(** X5. Unlike [waitForProcess], the wait loop of the cron handler tests the
    process before its first sleep: when the sync process is already not
    running when first looked at, the handler goes straight to the logs
    and the verdict without sleeping at all. *)
Theorem scheduled_does_not_wait_for_a_finished_process :
  forall (mountPath : string) (gw : Gateway)
         (getSandbox : string -> Index.SandboxOptions -> Sandbox)
         (fuel : nat) (env : ClawdbotEnv) (t : Trace) (proc : Process) (logs : Logs),
    (61 <= fuel)%nat ->
    all_credentials env = true ->
    gw_mountR2Storage gw (getSandbox "clawdbot" (Index.buildSandboxOptions env)) env
      (t ++ [EMount]) = Ok true ->
    let started := t ++ [EMount; ELog LInfo [AStr "[cron] Starting backup sync to R2..."];
                         EStartProcess (Index.syncCmd mountPath)] in
    sb_startProcess (getSandbox "clawdbot" (Index.buildSandboxOptions env))
      (Index.syncCmd mountPath) started = Ok proc ->
    is_running (proc_status proc started) = false ->
    let tr := started ++ [EGetLogs (proc_id proc)] in
    proc_getLogs proc tr = Ok logs ->
    Index.scheduled mountPath gw getSandbox fuel env t =
      (Some (Ok tt),
       tr ++ [if is_completed (proc_status proc tr) || exit_zero (proc_exitCode proc tr)
              then ELog LInfo [AStr "[cron] Backup sync completed successfully"]
              else ELog LErr [AStr "[cron] Backup sync failed:";
                              AOpt (or_opt (stderr logs) (stdout logs))]]).
Proof.
  intros mountPath gw getSandbox fuel env t proc logs Hfuel Hcred Hmount
    started Hstart Hstopped tr Hlogs.
  destruct (syncWait_from proc 60 0 fuel started) as (k & _ & Hloop & _ & Hbefore);
    [lia | lia | lia |].
  assert (Hzero : k = 0%nat).
  { destruct k as [|k]; [reflexivity|].
    specialize (Hbefore 0%nat ltac:(lia)). cbn [repeat] in Hbefore.
    rewrite app_nil_r in Hbefore. congruence. }
  subst k. cbn [repeat] in Hloop. rewrite app_nil_r in Hloop. clear Hbefore.
  unfold Index.scheduled. rewrite credentials_guard, Hcred. cbn [negb].
  unfold bind at 1. unfold call at 1. rewrite Hmount. cbn [negb].
  unfold try_catch. unfold bind at 1. unfold console, call at 1.
  unfold bind at 1. unfold startProcess, call at 1.
  assert (Hstarted : (t ++ [EMount]) ++ [ELog LInfo [AStr "[cron] Starting backup sync to R2..."]]
                       ++ [EStartProcess (Index.syncCmd mountPath)] = started)
    by (subst started; trace_norm; reflexivity).
  rewrite <- (app_assoc (t ++ [EMount])). rewrite Hstarted, Hstart.
  unfold bind at 1. unfold Index.syncWait. rewrite Hloop.
  unfold bind at 1. unfold getLogs, call at 1. fold tr. rewrite Hlogs.
  unfold bind at 1. unfold status, peek at 1.
  unfold bind at 1. unfold exitCode, peek at 1.
  destruct (is_completed _ || exit_zero _); reflexivity.
Qed.

Lemma scheduled_does_not_wait_for_a_finished_process_witness :
  Index.scheduled Samples.mountPath (Samples.gatewayUp None true)
    (fun _ _ => Samples.sandboxOf (Samples.doneProcess "sync" "sent 10 bytes")) 61
    Samples.envFull [] =
    (Some (Ok tt),
     [EMount; ELog LInfo [AStr "[cron] Starting backup sync to R2..."];
      EStartProcess (Index.syncCmd Samples.mountPath); EGetLogs "sync";
      ELog LInfo [AStr "[cron] Backup sync completed successfully"]]).
Proof.
  exact (scheduled_does_not_wait_for_a_finished_process Samples.mountPath
           (Samples.gatewayUp None true)
           (fun _ _ => Samples.sandboxOf (Samples.doneProcess "sync" "sent 10 bytes")) 61
           Samples.envFull [] (Samples.doneProcess "sync" "sent 10 bytes")
           (Samples.logsOf "sent 10 bytes")
           (le_n 61) eq_refl eq_refl eq_refl eq_refl eq_refl).
Defined.

Lemma restart_always_answers_witness :
  exists (s : Z) (body : Json) (d : Trace),
    Api.postGatewayRestart (Samples.gatewayUp (Some (Samples.stuckProcess "gw-1")) true)
      (Samples.sandboxOf (Samples.doneProcess "p" EmptyString)) Samples.envFull [] =
      (Some (Ok (RJson s body)), [] ++ d)
    /\ killsOf d = ["gw-1"] /\ sleepsOf d = [2000].
Proof.
  destruct (restart_always_answers
              (Samples.gatewayUp (Some (Samples.stuckProcess "gw-1")) true)
              (Samples.sandboxOf (Samples.doneProcess "p" EmptyString)) Samples.envFull [])
    as (s & body & d & Hrun & _ & _ & _ & _ & _ & Hfound & _).
  exists s, body, d. split; [exact Hrun|].
  exact (Hfound (Samples.stuckProcess "gw-1") eq_refl).
Defined.

Lemma buildSandboxOptions_reads_case_insensitively_witness :
  Index.buildSandboxOptions Samples.envNoStorage = Index.SleepAfter "10m"
  /\ "10m" <> "never".
Proof.
  split; [reflexivity|].
  exact (proj1 (proj2 (proj2 (buildSandboxOptions_reads_case_insensitively
                                Samples.envNoStorage) "10m" eq_refl))).
Defined.
